(** * Audit script of the resource table: a shallow embedding of
      [scripts/audit.py] and the properties of its specification.

    Layout: models of the Python library functions the script calls
    ([str.upper], [str.lower], [str.strip], [datetime.strptime], datetime
    subtraction, [collections.Counter]); the script's own functions under
    their source names, reading the table as a value; the two audits once
    more over a store of shared objects, where [append] updates in place;
    the vocabulary of the specification; the script's functions once more
    with [str.lower], [str.strip] and [datetime.strptime] as parameters
    (module [Generic]); then the properties: counts and filters, exit
    status, the date parser, the store left as it was, the agreement of the
    audits on the store with the audits on values, and last the properties
    that hold whatever the library computes.

    Modelling conventions.
    - A Python [str] is a Rocq [string], a text outside ASCII being the
      bytes of its UTF-8 form. The models [PyStr.lower], [PyStr.strip] and
      [Datetime.strptime] are exact on ASCII text: to them a byte above 127
      has no case and is neither a digit nor white space, whereas the
      library folds the case of letters outside ASCII and reads any
      decimal digit of Unicode. A property that depends on what the library
      makes of such text is stated over [Generic], for every library.
    - A Python [int] is a [Z].
    - A record of the table ([dict[str, str]]) is a [gmap string string];
      [r.get(k, d)] is [default d (r !! k)] and [r.get(k)] is [r !! k].
    - [datetime.now()] is an injected clock reading [now], the same for
      every call within one run.
    - [datetime.strptime] follows CPython's [_strptime]: the expression
      built from the format, then the checks of the [datetime] constructor.
    - Raising is explicit: a function that can raise returns a [result]. *)

From Stdlib Require Import ZArith Ascii String List Bool Lia.
From Stdlib Require Import Sorted DecimalString.
From stdpp Require Import gmap strings list.

Local Open Scope string_scope.
Local Open Scope list_scope.
Local Open Scope Z_scope.

(** ** Exceptions *)

Inductive exn : Type :=
| ValueError
| OverflowError
| ZeroDivisionError
| TypeError
| SystemExit (code : Z).

Inductive result (A : Type) : Type :=
| Ok (a : A)
| Raise (e : exn).

Arguments Ok {A} a.
Arguments Raise {A} e.

(** ** Python strings *)

Module PyStr.

Definition is_ascii_lower (c : ascii) : bool :=
  let n := nat_of_ascii c in (97 <=? n)%nat && (n <=? 122)%nat.

Definition is_ascii_upper (c : ascii) : bool :=
  let n := nat_of_ascii c in (65 <=? n)%nat && (n <=? 90)%nat.

Definition upper_char (c : ascii) : ascii :=
  if is_ascii_lower c then ascii_of_nat (nat_of_ascii c - 32) else c.

Definition lower_char (c : ascii) : ascii :=
  if is_ascii_upper c then ascii_of_nat (nat_of_ascii c + 32) else c.

(** [s.upper()] *)
Fixpoint upper (s : string) : string :=
  match s with
  | EmptyString => EmptyString
  | String c s' => String (upper_char c) (upper s')
  end.

(** [s.lower()] *)
Fixpoint lower (s : string) : string :=
  match s with
  | EmptyString => EmptyString
  | String c s' => String (lower_char c) (lower s')
  end.

(** [c.isspace()] on ASCII: tab, line feed, vertical tab, form feed,
    carriage return, the four separators 28..31 and the space. *)
Definition is_space (c : ascii) : bool :=
  let n := nat_of_ascii c in
  ((9 <=? n)%nat && (n <=? 13)%nat) || ((28 <=? n)%nat && (n <=? 32)%nat).

Fixpoint lstrip (s : string) : string :=
  match s with
  | EmptyString => EmptyString
  | String c s' => if is_space c then lstrip s' else s
  end.

(** Drops the trailing white space: a character is kept when it is not
    white space or when something is kept after it. *)
Fixpoint rstrip (s : string) : string :=
  match s with
  | EmptyString => EmptyString
  | String c s' =>
      match rstrip s' with
      | EmptyString => if is_space c then EmptyString else String c EmptyString
      | t => String c t
      end
  end.

(** [s.strip()] *)
Definition strip (s : string) : string := rstrip (lstrip s).

(** Truth value of a string: [bool(s)]. *)
Definition truthy (s : string) : bool :=
  match s with EmptyString => false | String _ _ => true end.

(** Truth value of an optional string ([None] is false). *)
Definition truthy_opt (o : option string) : bool :=
  match o with None => false | Some s => truthy s end.

End PyStr.

(** ** Python datetimes *)

Module Datetime.

Record datetime : Type := mk_datetime {
  year : Z; month : Z; day : Z;
  hour : Z; minute : Z; second : Z; microsecond : Z
}.

Definition is_leap (y : Z) : bool :=
  (y mod 4 =? 0) && (negb (y mod 100 =? 0) || (y mod 400 =? 0)).

Definition days_in_month (y m : Z) : Z :=
  if m =? 2 then (if is_leap y then 29 else 28)
  else if (m =? 4) || (m =? 6) || (m =? 9) || (m =? 11) then 30
  else 31.

(** Number of days in year [y] before the first day of month [m]. *)
Definition days_before_month (y m : Z) : Z :=
  fold_left (fun acc k => acc + days_in_month y k)
            (map Z.of_nat (seq 1 (Z.to_nat (m - 1)))) 0.

Definition days_before_year (y : Z) : Z :=
  let p := y - 1 in p * 365 + p / 4 - p / 100 + p / 400.

(** [date(y, m, d).toordinal()]: 1 is 0001-01-01. *)
Definition ymd2ord (y m d : Z) : Z :=
  days_before_year y + days_before_month y m + d.

Definition toordinal (t : datetime) : Z :=
  ymd2ord (year t) (month t) (day t).

(** The argument check of the [date] constructor. *)
Definition valid_date (y m d : Z) : bool :=
  (1 <=? y) && (y <=? 9999) && (1 <=? m) && (m <=? 12) &&
  (1 <=? d) && (d <=? days_in_month y m).

(** The argument check of the time part of the [datetime] constructor. *)
Definition valid_time (h mi s : Z) : bool :=
  (0 <=? h) && (h <=? 23) && (0 <=? mi) && (mi <=? 59) &&
  (0 <=? s) && (s <=? 59).

Definition us_per_day : Z := 86400000000.

(** Microseconds since the start of ordinal day 0. *)
Definition total_us (t : datetime) : Z :=
  (toordinal t * 86400 + hour t * 3600 + minute t * 60 + second t) * 1000000
  + microsecond t.

(** [(a - b).days]: a timedelta is normalised with its seconds and
    microseconds non-negative, so [days] is the floor of the difference. *)
Definition sub_days (a b : datetime) : Z :=
  (total_us a - total_us b) / us_per_day.

Definition max_ordinal : Z := 3652059.   (* date(9999, 12, 31).toordinal() *)
Definition max_delta_days : Z := 999999999.

(** [a - timedelta(days=n)], given by the microsecond count of the
    result. Building the timedelta overflows beyond a magnitude of
    [max_delta_days]; the subtraction overflows when the resulting date
    leaves years 1..9999. *)
Definition sub_timedelta_days (a : datetime) (n : Z) : result Z :=
  if (Z.abs n <=? max_delta_days) then
    let ord := toordinal a - n in
    if (1 <=? ord) && (ord <=? max_ordinal)
    then Ok (total_us a - n * us_per_day)
    else Raise OverflowError
  else Raise OverflowError.

(** ** [datetime.strptime] for the format [%Y-%m-%d:%H-%M-%S]

    The library turns the format into a regular expression, one group per
    directive with its alternatives tried in order, and the characters
    between directives as they are; it matches the expression at the start
    of the text and rejects text that goes on after the match. *)

Inductive atom : Type :=
| Lit (c : ascii)
| Range (lo hi : ascii).

Definition atom_matches (a : atom) (c : ascii) : bool :=
  match a with
  | Lit x => Ascii.eqb x c
  | Range lo hi =>
      (nat_of_ascii lo <=? nat_of_ascii c)%nat &&
      (nat_of_ascii c <=? nat_of_ascii hi)%nat
  end.

(** One alternative: a sequence of atoms; returns the text after it. *)
Fixpoint match_atoms (al : list atom) (s : list ascii) : option (list ascii) :=
  match al with
  | [] => Some s
  | a :: al' =>
      match s with
      | [] => None
      | c :: s' => if atom_matches a c then match_atoms al' s' else None
      end
  end.

Fixpoint first_some {A B : Type} (f : A -> option B) (l : list A) : option B :=
  match l with
  | [] => None
  | x :: l' => match f x with Some y => Some y | None => first_some f l' end
  end.

(** A group is the list of its alternatives. Matching backtracks: an
    alternative is kept only when the rest of the expression matches
    after it. Returns the text captured by each group and what is left. *)
Fixpoint match_groups (gs : list (list (list atom))) (s : list ascii)
  : option (list (list ascii) * list ascii) :=
  match gs with
  | [] => Some ([], s)
  | alts :: gs' =>
      first_some
        (fun alt =>
           match match_atoms alt s with
           | None => None
           | Some rest =>
               match match_groups gs' rest with
               | None => None
               | Some (caps, final) =>
                   Some (firstn (List.length alt) s :: caps, final)
               end
           end)
        alts
  end.

Definition digit : atom := Range "0" "9".

Definition re_Y : list (list atom) := [[digit; digit; digit; digit]].
Definition re_m : list (list atom) :=
  [[Lit "1"; Range "0" "2"]; [Lit "0"; Range "1" "9"]; [Range "1" "9"]].
Definition re_d : list (list atom) :=
  [[Lit "3"; Range "0" "1"]; [Range "1" "2"; digit]; [Lit "0"; Range "1" "9"];
   [Range "1" "9"]; [Lit " "; Range "1" "9"]].
Definition re_H : list (list atom) :=
  [[Lit "2"; Range "0" "3"]; [Range "0" "1"; digit]; [digit]].
Definition re_M : list (list atom) := [[Range "0" "5"; digit]; [digit]].
Definition re_S : list (list atom) :=
  [[Lit "6"; Range "0" "1"]; [Range "0" "5"; digit]; [digit]].
Definition re_lit (c : ascii) : list (list atom) := [[Lit c]].

(** The expression of [%Y-%m-%d:%H-%M-%S]. *)
Definition format_regex : list (list (list atom)) :=
  [re_Y; re_lit "-"; re_m; re_lit "-"; re_d; re_lit ":";
   re_H; re_lit "-"; re_M; re_lit "-"; re_S].

Definition is_digit (c : ascii) : bool := atom_matches digit c.

(** [int(text)] on a captured group: decimal digits, a padding space is
    skipped. *)
Definition int_of (t : list ascii) : Z :=
  fold_left
    (fun acc c =>
       if is_digit c then acc * 10 + (Z.of_nat (nat_of_ascii c) - 48) else acc)
    t 0.

Definition strptime (s : string) : result datetime :=
  match match_groups format_regex (list_ascii_of_string s) with
  | None => Raise ValueError                 (* does not match the format *)
  | Some (_, _ :: _) => Raise ValueError     (* unconverted data remains *)
  | Some ([ty; _; tm; _; td; _; tH; _; tM; _; tS], []) =>
      let y := int_of ty in let m := int_of tm in let d := int_of td in
      let hh := int_of tH in let mm := int_of tM in let ss := int_of tS in
      if valid_date y m d then
        if valid_time hh mm ss then Ok (mk_datetime y m d hh mm ss 0)
        else Raise ValueError                (* second must be in 0..59 *)
      else Raise ValueError                  (* day is out of range for month *)
  | Some (_, []) => Raise ValueError
  end.

End Datetime.

Export Datetime.

(** ** [collections.Counter] *)

Module Collections.

(** A counter keeps its keys in the order of their first occurrence. *)
Fixpoint counter_incr (k : string) (c : list (string * Z)) : list (string * Z) :=
  match c with
  | [] => [(k, 1)]
  | (k', n) :: c' =>
      if String.eqb k k' then (k', n + 1) :: c'
      else (k', n) :: counter_incr k c'
  end.

(** [Counter(keys)] *)
Definition Counter (keys : list string) : list (string * Z) :=
  fold_left (fun c k => counter_incr k c) keys [].

Fixpoint insert_desc (x : string * Z) (l : list (string * Z)) : list (string * Z) :=
  match l with
  | [] => [x]
  | y :: l' => if snd x <=? snd y then y :: insert_desc x l' else x :: y :: l'
  end.

(** [c.most_common()]: by decreasing count, equal counts in the order of
    the counter (the sort is stable). *)
Definition most_common (c : list (string * Z)) : list (string * Z) :=
  fold_left (fun acc x => insert_desc x acc) c [].

(** [c.most_common(n)] *)
Definition most_common_n (n : nat) (c : list (string * Z)) : list (string * Z) :=
  firstn n (most_common c).

End Collections.

Export Collections.

(** ** The result monad *)

#[global] Instance result_ret : MRet result := fun A a => Ok a.

#[global] Instance result_bind : MBind result :=
  fun A B f m => match m with Ok a => f a | Raise e => Raise e end.

(** A list comprehension [[x for x in l if p x]] whose condition can raise. *)
Fixpoint filter_r {A : Type} (p : A -> result bool) (l : list A) : result (list A) :=
  match l with
  | [] => Ok []
  | x :: l' =>
      b ← p x;
      rest ← filter_r p l';
      Ok (if b : bool then x :: rest else rest)
  end.

(** A [for] loop over [l] with the loop state [acc]. *)
Fixpoint for_each {A S : Type} (body : S -> A -> result S) (l : list A) (acc : S)
  : result S :=
  match l with
  | [] => Ok acc
  | x :: l' => acc' ← body acc x; for_each body l' acc'
  end.

(** [sum(1 for x in l if p x)] *)
Definition sum_ones {A : Type} (p : A -> bool) (l : list A) : Z :=
  fold_left (fun acc x => if p x then acc + 1 else acc) l 0.

(** [len(l)] *)
Definition len {A : Type} (l : list A) : Z := Z.of_nat (List.length l).

(** ** The script *)

(** One row of the table, [dict[str, str]]. *)
Abbreviation resource := (gmap string string).

(** [r.get(k, d)] *)
Definition get (r : resource) (k d : string) : string := default d (r !! k).

Definition CSV_FILE : string := "THE_RESOURCES_TABLE.csv".

(** What [csv.DictReader] yields for the file: the header and the rows. *)
Record csv_table : Type := {
  fieldnames : list string;
  rows : list resource
}.

(** [load_resources]. The file system is the table stored at [CSV_FILE],
    if there is one: what [csv.DictReader] yields for a file that is read
    and decoded to its end and whose rows have a cell for every column, so
    that every field of a record is a string. A short row, whose missing
    cells the reader fills with [None], and a file that cannot be read are
    outside the model. The message printed before exiting is not
    modelled. *)
Definition load_resources (file : option csv_table)
  : result (list resource * list string) :=
  match file with
  | None => Raise (SystemExit 1)
  | Some t => Ok (rows t, fieldnames t)
  end.

(** [parse_date] *)
Definition parse_date (date_str : string) : result (option datetime) :=
  if negb (PyStr.truthy date_str) || String.eqb (PyStr.strip date_str) ""
  then Ok None
  else
    match strptime date_str with
    | Ok d => Ok (Some d)
    | Raise ValueError => Ok None
    | Raise e => Raise e
    end.

Record high_level_data : Type := {
  total_resources : Z;
  active : Z;
  inactive : Z;
  categories : list (string * Z);
  sub_categories : list (string * Z);
  licenses : list (string * Z);
  no_license : Z;
  unique_authors : Z;
  top_authors : list (string * Z);
  recently_added : Z;
  recently_checked : Z;
  never_checked : Z;
  outdated_checks : Z;
  removed_from_origin : Z
}.

(** [r.get("Active", "").upper() == "TRUE"] *)
Definition is_active (r : resource) : bool :=
  String.eqb (PyStr.upper (get r "Active" "")) "TRUE".

(** [not r.get("License") or r.get("License") == "NOT_FOUND"] *)
Definition lacks_license (r : resource) : bool :=
  negb (PyStr.truthy_opt (r !! "License"))
  || bool_decide (r !! "License" = Some "NOT_FOUND").

(** [r.get("Removed From Origin", "").upper() == "TRUE"] *)
Definition is_removed (r : resource) : bool :=
  String.eqb (PyStr.upper (get r "Removed From Origin" "")) "TRUE".

(** The four lists filled by the loop of [high_level_audit]. *)
Record buckets : Type := {
  b_recently_added : list resource;
  b_recently_checked : list resource;
  b_never_checked : list resource;
  b_outdated : list resource
}.

Definition no_buckets : buckets :=
  {| b_recently_added := []; b_recently_checked := [];
     b_never_checked := []; b_outdated := [] |}.

(** The body of the loop over the resources in [high_level_audit]. *)
Definition classify (now : datetime) (b : buckets) (r : resource) : result buckets :=
  date_added ← parse_date (get r "Date Added" "");
  let b1 :=
    match date_added with
    | Some d =>
        if sub_days now d <=? 30
        then {| b_recently_added := b_recently_added b ++ [r];
                b_recently_checked := b_recently_checked b;
                b_never_checked := b_never_checked b;
                b_outdated := b_outdated b |}
        else b
    | None => b
    end in
  last_checked ← parse_date (get r "Last Checked" "");
  match last_checked with
  | None =>
      Ok {| b_recently_added := b_recently_added b1;
            b_recently_checked := b_recently_checked b1;
            b_never_checked := b_never_checked b1 ++ [r];
            b_outdated := b_outdated b1 |}
  | Some d =>
      if sub_days now d <=? 7 then
        Ok {| b_recently_added := b_recently_added b1;
              b_recently_checked := b_recently_checked b1 ++ [r];
              b_never_checked := b_never_checked b1;
              b_outdated := b_outdated b1 |}
      else if 30 <? sub_days now d then
        Ok {| b_recently_added := b_recently_added b1;
              b_recently_checked := b_recently_checked b1;
              b_never_checked := b_never_checked b1;
              b_outdated := b_outdated b1 ++ [r] |}
      else Ok b1
  end.

(** [high_level_audit] *)
Definition high_level_audit (now : datetime) (resources : list resource)
  : result high_level_data :=
  let total := len resources in
  let active := sum_ones is_active resources in
  let inactive := total - active in
  let categories := Counter (map (fun r => get r "Category" "Unknown") resources) in
  let sub_categories :=
    Counter (map (fun r => get r "Sub-Category" "Unknown") resources) in
  let licenses := Counter (map (fun r => get r "License" "Unknown") resources) in
  let no_license := sum_ones lacks_license resources in
  let authors := Counter (map (fun r => get r "Author Name" "Unknown") resources) in
  let unique_authors :=
    len (List.filter (fun a => negb (String.eqb (fst a) "Unknown")) authors) in
  b ← for_each (classify now) resources no_buckets;
  let removed_from_origin := sum_ones is_removed resources in
  Ok {| total_resources := total;
        active := active;
        inactive := inactive;
        categories := most_common categories;
        sub_categories := most_common sub_categories;
        licenses := most_common licenses;
        no_license := no_license;
        unique_authors := unique_authors;
        top_authors := most_common_n 10 authors;
        recently_added := len (b_recently_added b);
        recently_checked := len (b_recently_checked b);
        never_checked := len (b_never_checked b);
        outdated_checks := len (b_outdated b);
        removed_from_origin := removed_from_origin |}.

(** The keyword arguments of [scoped_audit]. *)
Record filters : Type := {
  category : option string;
  sub_category : option string;
  author : option string;
  license_filter : option string;
  inactive_only : bool;
  no_license_only : bool;
  recent_days : option Z
}.

(** The defaults of [scoped_audit]: no filter. *)
Definition no_filters : filters :=
  {| category := None; sub_category := None; author := None;
     license_filter := None; inactive_only := false; no_license_only := false;
     recent_days := None |}.

(** One entry of the [resources] list of a scoped result. *)
Record resource_info : Type := {
  info_id : string;
  info_name : string;
  info_category : string;
  info_sub_category : string;
  info_active : string;
  info_license : string;
  info_author : string;
  info_primary_link : string;
  info_last_checked : string;
  info_days_since_check : option Z;
  info_removed_from_origin : string
}.

Record scoped_data : Type := {
  filter_criteria : filters;
  matched_count : Z;
  resources : list resource_info
}.

(** [r.get(k, "").lower() == v.lower()] *)
Definition field_matches (k v : string) (r : resource) : bool :=
  String.eqb (PyStr.lower (get r k "")) (PyStr.lower v).

(** One of the four string filters:
    [if v: filtered = [r for r in filtered if r.get(k, "").lower() == v.lower()]] *)
Definition filter_by_field (k : string) (v : option string) (filtered : list resource)
  : list resource :=
  if PyStr.truthy_opt v
  then List.filter (field_matches k (default "" v)) filtered
  else filtered.

(** The condition of the recency filter:
    [parse_date(r.get("Date Added", "")) and
     parse_date(r.get("Date Added", "")) >= cutoff_date].
    A datetime is always true; comparing [None] with a datetime is a
    [TypeError]. Datetimes are compared by their microsecond counts. *)
Definition added_since (cutoff_us : Z) (r : resource) : result bool :=
  d1 ← parse_date (get r "Date Added" "");
  match d1 with
  | None => Ok false
  | Some _ =>
      d2 ← parse_date (get r "Date Added" "");
      match d2 with
      | Some d => Ok (cutoff_us <=? total_us d)
      | None => Raise TypeError
      end
  end.

(** The filters of [scoped_audit], in the order of the source. *)
Definition apply_filters (now : datetime) (resources : list resource) (f : filters)
  : result (list resource) :=
  let filtered := resources in
  let filtered := filter_by_field "Category" (category f) filtered in
  let filtered := filter_by_field "Sub-Category" (sub_category f) filtered in
  let filtered := filter_by_field "Author Name" (author f) filtered in
  let filtered := filter_by_field "License" (license_filter f) filtered in
  let filtered :=
    if inactive_only f
    then List.filter (fun r => negb (is_active r)) filtered else filtered in
  let filtered :=
    if no_license_only f then List.filter lacks_license filtered else filtered in
  match recent_days f with
  | Some n =>
      cutoff_date ← sub_timedelta_days now n;
      filter_r (added_since cutoff_date) filtered
  | None => Ok filtered
  end.

(** The entry appended for one matched resource. *)
Definition describe (now : datetime) (r : resource) : result resource_info :=
  last_checked ← parse_date (get r "Last Checked" "");
  let days_since_check :=
    match last_checked with
    | Some d => Some (sub_days now d)
    | None => None
    end in
  Ok {| info_id := get r "ID" "";
        info_name := get r "Display Name" "";
        info_category := get r "Category" "";
        info_sub_category := get r "Sub-Category" "";
        info_active := get r "Active" "";
        info_license := get r "License" "";
        info_author := get r "Author Name" "";
        info_primary_link := get r "Primary Link" "";
        info_last_checked := get r "Last Checked" "";
        info_days_since_check := days_since_check;
        info_removed_from_origin := get r "Removed From Origin" "" |}.

(** [scoped_audit] *)
Definition scoped_audit (now : datetime) (resources : list resource) (f : filters)
  : result scoped_data :=
  filtered ← apply_filters now resources f;
  entries ←
    for_each (fun acc r => e ← describe now r; Ok (acc ++ [e])%list) filtered [];
  Ok {| filter_criteria := f;
        matched_count := len filtered;
        resources := entries |}.

(** What the program has printed when it ends normally. The rendering of
    a report (layout, percentages as floats) is not modelled. *)
Inductive report : Type :=
| HighLevelText (d : high_level_data)
| HighLevelJson (d : high_level_data)
| ScopedText (d : scoped_data)
| ScopedJson (d : scoped_data).

(** [a / b]: the quotient is a float and is not kept, only whether the
    division is defined. *)
Definition truediv (a b : Z) : result unit :=
  if b =? 0 then Raise ZeroDivisionError else Ok tt.

(** [print_high_level_report]: the overview prints both percentages
    [active / total * 100] and [inactive / total * 100]. *)
Definition print_high_level_report (audit_data : high_level_data) : result report :=
  _ ← truediv (active audit_data) (total_resources audit_data);
  _ ← truediv (inactive audit_data) (total_resources audit_data);
  Ok (HighLevelText audit_data).

(** [print_scoped_report] *)
Definition print_scoped_report (scoped : scoped_data) : result report :=
  Ok (ScopedText scoped).

(** The parsed command line. *)
Record cli_args : Type := {
  arg_category : option string;
  arg_sub_category : option string;
  arg_author : option string;
  arg_license_filter : option string;
  arg_inactive : bool;
  arg_no_license : bool;
  arg_recent_days : option Z;
  arg_json : bool
}.

(** Truth value of an optional integer ([None] and [0] are false). *)
Definition truthy_int_opt (o : option Z) : bool :=
  match o with None => false | Some n => negb (n =? 0) end.

(** [any([...])] over the seven filter arguments. *)
Definition has_scoped_filters (args : cli_args) : bool :=
  existsb (fun b : bool => b)
    [PyStr.truthy_opt (arg_category args);
     PyStr.truthy_opt (arg_sub_category args);
     PyStr.truthy_opt (arg_author args);
     PyStr.truthy_opt (arg_license_filter args);
     arg_inactive args;
     arg_no_license args;
     truthy_int_opt (arg_recent_days args)].

Definition filters_of_args (args : cli_args) : filters :=
  {| category := arg_category args;
     sub_category := arg_sub_category args;
     author := arg_author args;
     license_filter := arg_license_filter args;
     inactive_only := arg_inactive args;
     no_license_only := arg_no_license args;
     recent_days := arg_recent_days args |}.

(** [main], from the parsed command line on: [args] is what [parse_args]
    has returned. The exits of [argparse] itself (status 2 on a command line
    it turns down, status 0 after [--help]) come before and are outside the
    model, as is a failure of [print]. *)
Definition main (file : option csv_table) (args : cli_args) (now : datetime)
  : result report :=
  '(resources, _) ← load_resources file;
  if has_scoped_filters args then
    scoped ← scoped_audit now resources (filters_of_args args);
    if arg_json args then Ok (ScopedJson scoped) else print_scoped_report scoped
  else
    high_level ← high_level_audit now resources;
    if arg_json args then Ok (HighLevelJson high_level)
    else print_high_level_report high_level.

(** The exit status of the process: 0 on a normal end, the code of a
    [SystemExit], 1 for any other uncaught exception. *)
Definition exit_code {A : Type} (r : result A) : Z :=
  match r with
  | Ok _ => 0
  | Raise (SystemExit c) => c
  | Raise _ => 1
  end.

(** ** The audits over a store of Python objects

    The functions above read a list of records as a value. Here the list
    handed to an audit is an object in a store, shared with the caller, and
    so is every record in it; the lists an audit builds ([recently_added],
    the result of a comprehension, the [resources] of a scoped result) are
    objects too, and [append] updates an object in place. An address is an
    index in the store and a new object is put at its end. Integers, strings
    and count tables are values. *)

Module Heap.

Abbreviation loc := nat.

Inductive obj : Type :=
| OList (items : list loc)
| ODict (d : gmap string string)
| OInfo (e : resource_info).

Abbreviation heap := (list obj).

(** A computation on the store; the store survives a raise. *)
Definition M (A : Type) : Type := heap -> result A * heap.

Definition ret {A : Type} (a : A) : M A := fun h => (Ok a, h).

Definition bind {A B : Type} (m : M A) (k : A -> M B) : M B :=
  fun h =>
    match m h with
    | (Ok a, h') => k a h'
    | (Raise e, h') => (Raise e, h')
    end.

(** A computation that does not touch the store. *)
Definition lift {A : Type} (r : result A) : M A := fun h => (r, h).

Definition alloc (o : obj) : M loc :=
  fun h => (Ok (List.length h), (h ++ [o])%list).

Definition read_list (l : loc) : M (list loc) :=
  fun h =>
    match h !! l with
    | Some (OList items) => (Ok items, h)
    | _ => (Raise TypeError, h)
    end.

Definition read_dict (l : loc) : M (gmap string string) :=
  fun h =>
    match h !! l with
    | Some (ODict d) => (Ok d, h)
    | _ => (Raise TypeError, h)
    end.

(** [l.append(x)] *)
Definition append (l x : loc) : M unit :=
  fun h =>
    match h !! l with
    | Some (OList items) => (Ok tt, <[l := OList (items ++ [x])]> h)
    | _ => (Raise TypeError, h)
    end.

(** [len(l)] *)
Definition list_len (l : loc) : M Z :=
  bind (read_list l) (fun items => ret (len items)).

(** [for x in items: body x] *)
Fixpoint for_loop (body : loc -> M unit) (items : list loc) : M unit :=
  match items with
  | [] => ret tt
  | x :: items' => bind (body x) (fun _ => for_loop body items')
  end.

(** Reading every record of a list, as a generator expression does. *)
Fixpoint read_dicts (items : list loc) : M (list resource) :=
  match items with
  | [] => ret []
  | x :: items' =>
      bind (read_dict x) (fun r =>
      bind (read_dicts items') (fun rs => ret (r :: rs)))
  end.

Definition read_records (l : loc) : M (list resource) :=
  bind (read_list l) read_dicts.

(** [[r for r in src if p r]]: a new list of the chosen records. *)
Definition comprehension (p : resource -> result bool) (src : loc) : M loc :=
  bind (read_list src) (fun items =>
  bind (alloc (OList [])) (fun new =>
  bind (for_loop (fun item =>
          bind (read_dict item) (fun r =>
          bind (lift (p r)) (fun b : bool =>
          if b then append new item else ret tt)))
        items) (fun _ =>
  ret new))).

Definition when (b : bool) (m : M unit) : M unit := if b then m else ret tt.

(** The body of the loop of [high_level_audit]; the four lists are objects. *)
Definition classify (now : datetime)
    (recently_added recently_checked never_checked outdated : loc) (resource : loc)
  : M unit :=
  bind (read_dict resource) (fun r =>
  bind (lift (parse_date (get r "Date Added" ""))) (fun date_added =>
  bind (match date_added with
        | Some d => when (sub_days now d <=? 30) (append recently_added resource)
        | None => ret tt
        end) (fun _ =>
  bind (lift (parse_date (get r "Last Checked" ""))) (fun last_checked =>
  match last_checked with
  | None => append never_checked resource
  | Some d =>
      if sub_days now d <=? 7 then append recently_checked resource
      else when (30 <? sub_days now d) (append outdated resource)
  end)))).

(** [high_level_audit] on the list object at [resources]. The generator
    expressions and the counters only read the records. *)
Definition high_level_audit (now : datetime) (resources : loc) : M high_level_data :=
  bind (read_records resources) (fun rs =>
  let total := len rs in
  let active := sum_ones is_active rs in
  let inactive := total - active in
  let categories := Counter (map (fun r => get r "Category" "Unknown") rs) in
  let sub_categories := Counter (map (fun r => get r "Sub-Category" "Unknown") rs) in
  let licenses := Counter (map (fun r => get r "License" "Unknown") rs) in
  let no_license := sum_ones lacks_license rs in
  let authors := Counter (map (fun r => get r "Author Name" "Unknown") rs) in
  let unique_authors :=
    len (List.filter (fun a => negb (String.eqb (fst a) "Unknown")) authors) in
  bind (alloc (OList [])) (fun recently_added =>
  bind (alloc (OList [])) (fun recently_checked =>
  bind (alloc (OList [])) (fun never_checked =>
  bind (alloc (OList [])) (fun outdated =>
  bind (read_list resources) (fun items =>
  bind (for_loop (classify now recently_added recently_checked never_checked outdated)
          items) (fun _ =>
  let removed_from_origin := sum_ones is_removed rs in
  bind (list_len recently_added) (fun n_added =>
  bind (list_len recently_checked) (fun n_checked =>
  bind (list_len never_checked) (fun n_never =>
  bind (list_len outdated) (fun n_outdated =>
  ret {| total_resources := total;
         active := active;
         inactive := inactive;
         categories := most_common categories;
         sub_categories := most_common sub_categories;
         licenses := most_common licenses;
         no_license := no_license;
         unique_authors := unique_authors;
         top_authors := most_common_n 10 authors;
         recently_added := n_added;
         recently_checked := n_checked;
         never_checked := n_never;
         outdated_checks := n_outdated;
         removed_from_origin := removed_from_origin |}))))))))))).

(** A scoped result whose [resources] list is an object. *)
Record scoped_ref : Type := {
  ref_filter_criteria : filters;
  ref_matched_count : Z;
  ref_resources : loc
}.

Definition filter_by_field (k : string) (v : option string) (filtered : loc) : M loc :=
  if PyStr.truthy_opt v
  then comprehension (fun r => Ok (field_matches k (default "" v) r)) filtered
  else ret filtered.

(** The body of the last loop of [scoped_audit]: the entry of one matched
    resource is a new object, appended to the list at [out]. *)
Definition add_entry (now : datetime) (out : loc) (resource : loc) : M unit :=
  bind (read_dict resource) (fun r =>
  bind (lift (describe now r)) (fun e =>
  bind (alloc (OInfo e)) (fun entry =>
  append out entry))).

(** The filters of [scoped_audit] on the list object at [resources];
    [filtered] starts as another name of that object. *)
Definition apply_filters (now : datetime) (resources : loc) (f : filters) : M loc :=
  let filtered := resources in
  bind (filter_by_field "Category" (category f) filtered) (fun filtered =>
  bind (filter_by_field "Sub-Category" (sub_category f) filtered) (fun filtered =>
  bind (filter_by_field "Author Name" (author f) filtered) (fun filtered =>
  bind (filter_by_field "License" (license_filter f) filtered) (fun filtered =>
  bind (if inactive_only f
        then comprehension (fun r => Ok (negb (is_active r))) filtered
        else ret filtered) (fun filtered =>
  bind (if no_license_only f
        then comprehension (fun r => Ok (lacks_license r)) filtered
        else ret filtered) (fun filtered =>
  match recent_days f with
  | Some n =>
      bind (lift (sub_timedelta_days now n)) (fun cutoff_date =>
      comprehension (added_since cutoff_date) filtered)
  | None => ret filtered
  end)))))).

(** [scoped_audit] on the list object at [resources]. *)
Definition scoped_audit (now : datetime) (resources : loc) (f : filters)
  : M scoped_ref :=
  bind (apply_filters now resources f) (fun filtered =>
  bind (list_len filtered) (fun matched =>
  bind (alloc (OList [])) (fun out =>
  bind (read_list filtered) (fun items =>
  bind (for_loop (add_entry now out) items) (fun _ =>
  ret {| ref_filter_criteria := f;
         ref_matched_count := matched;
         ref_resources := out |}))))).

(** The records of the list object at [l], read off a store. *)
Definition records_at (h : heap) (l : loc) : option (list resource) :=
  match h !! l with
  | Some (OList items) =>
      mapM (fun i => match h !! i with Some (ODict d) => Some d | _ => None end)
           items
  | _ => None
  end.

(** The entries of the result list at [l], read off a store. *)
Definition infos_at (h : heap) (l : loc) : option (list resource_info) :=
  match h !! l with
  | Some (OList items) =>
      mapM (fun i => match h !! i with Some (OInfo e) => Some e | _ => None end)
           items
  | _ => None
  end.

End Heap.

(** ** Vocabulary of the specification *)

(** The value of [parse_date] when it returns. *)
Definition date_of (s : string) : option datetime :=
  match parse_date s with
  | Ok o => o
  | Raise _ => None
  end.

(** The parsed date of a field of a record; an absent field has none. *)
Definition field_date (k : string) (r : resource) : option datetime :=
  match r !! k with
  | Some s => date_of s
  | None => None
  end.

(** Added at most 30 whole days before [now]. *)
Definition added_recently (now : datetime) (r : resource) : bool :=
  match field_date "Date Added" r with
  | Some d => bool_decide (sub_days now d <= 30)
  | None => false
  end.

(** Checked at most 7 whole days before [now]. *)
Definition checked_recently (now : datetime) (r : resource) : bool :=
  match field_date "Last Checked" r with
  | Some d => bool_decide (sub_days now d <= 7)
  | None => false
  end.

(** No usable date of a last check. *)
Definition not_checked (r : resource) : bool :=
  match field_date "Last Checked" r with
  | Some _ => false
  | None => true
  end.

(** Checked more than 30 whole days before [now]. *)
Definition check_outdated (now : datetime) (r : resource) : bool :=
  match field_date "Last Checked" r with
  | Some d => bool_decide (30 < sub_days now d)
  | None => false
  end.

(** The license is absent, empty or the string [NOT_FOUND]. *)
Definition without_license (r : resource) : bool :=
  bool_decide (r !! "License" = None \/ r !! "License" = Some ""
               \/ r !! "License" = Some "NOT_FOUND").

(** The field [k] of [r], empty when absent, equals [v] up to case. *)
Definition equal_ignoring_case (k v : string) (r : resource) : bool :=
  bool_decide (PyStr.lower (default "" (r !! k)) = PyStr.lower v).

(** The four fields with a string filter. *)
Inductive text_field : Type :=
| ByCategory
| BySubCategory
| ByAuthor
| ByLicense.


(** The call of [scoped_audit] with the one string filter [t] set to [v]. *)
Definition only_filter (t : text_field) (v : string) : filters :=
  match t with
  | ByCategory =>
      {| category := Some v; sub_category := None; author := None;
         license_filter := None; inactive_only := false;
         no_license_only := false; recent_days := None |}
  | BySubCategory =>
      {| category := None; sub_category := Some v; author := None;
         license_filter := None; inactive_only := false;
         no_license_only := false; recent_days := None |}
  | ByAuthor =>
      {| category := None; sub_category := None; author := Some v;
         license_filter := None; inactive_only := false;
         no_license_only := false; recent_days := None |}
  | ByLicense =>
      {| category := None; sub_category := None; author := None;
         license_filter := Some v; inactive_only := false;
         no_license_only := false; recent_days := None |}
  end.

(** The entries of a scoped result describe the records [rs], one entry per
    record and in the same order. *)
Definition lists_exactly (now : datetime) (d : scoped_data) (rs : list resource) : Prop :=
  matched_count d = len rs /\
  Forall2 (fun e r => describe now r = Ok e) (resources d) rs.

(** The strict layout [YYYY-MM-DD:HH-MM-SS]: 19 characters, two digits for
    each field but the four of the year. *)
Definition exact_format (s : string) : bool :=
  match
    match_atoms
      [digit; digit; digit; digit; Lit "-"; digit; digit; Lit "-"; digit; digit;
       Lit ":"; digit; digit; Lit "-"; digit; digit; Lit "-"; digit; digit]
      (list_ascii_of_string s)
  with
  | Some [] => true
  | _ => false
  end.

(** Cuts a text at the first occurrence of [c]. *)
Fixpoint split_at (c : ascii) (s : list ascii) : option (list ascii * list ascii) :=
  match s with
  | [] => None
  | x :: s' =>
      if Ascii.eqb x c then Some ([], s')
      else match split_at c s' with
           | Some (a, b) => Some (x :: a, b)
           | None => None
           end
  end.

Definition digits_text (n : nat) (t : list ascii) : bool :=
  forallb is_digit t && (List.length t =? n)%nat.

Definition short_number (t : list ascii) : bool :=
  digits_text 1 t || digits_text 2 t.

Definition day_number (t : list ascii) : bool :=
  short_number t ||
  match t with
  | [sp; c] => Ascii.eqb sp " " && is_digit c
  | _ => false
  end.

(** The layout [strptime] accepts: four digits for the year and, for each
    other field, one or two digits (the day also as a space and a digit),
    with the separators of [YYYY-MM-DD:HH-MM-SS]. *)
Definition lenient_format (s : string) : bool :=
  match split_at "-" (list_ascii_of_string s) with
  | Some (ty, s1) =>
    match split_at "-" s1 with
    | Some (tm, s2) =>
      match split_at ":" s2 with
      | Some (td, s3) =>
        match split_at "-" s3 with
        | Some (tH, s4) =>
          match split_at "-" s4 with
          | Some (tM, tS) =>
              digits_text 4 ty && short_number tm && day_number td &&
              short_number tH && short_number tM && short_number tS
          | None => false
          end
        | None => false
        end
      | None => false
      end
    | None => false
    end
  | None => false
  end.

(** A text that is no date: empty, blank, or outside the lenient layout. *)
Definition malformed (s : string) : Prop :=
  s = "" \/ PyStr.strip s = "" \/ lenient_format s = false.

(** The singleton of [x] when [b] holds, else nothing. *)
Definition pick {A : Type} (b : bool) (x : A) : list A := if b then [x] else [].

(** The command line without any option. *)
Definition default_args : cli_args :=
  {| arg_category := None; arg_sub_category := None; arg_author := None;
     arg_license_filter := None; arg_inactive := false; arg_no_license := false;
     arg_recent_days := None; arg_json := false |}.

(** The command line [--recent-days 0], with or without [--json]. *)
Definition zero_days_args (json : bool) : cli_args :=
  {| arg_category := None; arg_sub_category := None; arg_author := None;
     arg_license_filter := None; arg_inactive := false; arg_no_license := false;
     arg_recent_days := Some 0; arg_json := json |}.

(** The call of [scoped_audit] with the no-license filter alone. *)
Definition only_no_license : filters :=
  {| category := None; sub_category := None; author := None;
     license_filter := None; inactive_only := false; no_license_only := true;
     recent_days := None |}.

(** A captured text is matched by one of the alternatives of a group. *)
Definition matches_group (alts : list (list atom)) (cap : list ascii) : Prop :=
  exists alt, In alt alts /\ Forall2 (fun a c => atom_matches a c = true) alt cap.

(** A digit or a space: what a captured number is made of. *)
Definition plain (c : ascii) : bool := is_digit c || Ascii.eqb c " ".

(** The computation [m] leaves the first [n] objects of the store as they
    are, never shrinks the store, and returns a value in [Q] if it returns. *)
Definition keeps {A : Type} (n : nat) (m : Heap.M A) (Q : A -> Prop) : Prop :=
  forall h : Heap.heap,
    (n <= List.length h)%nat ->
    take n (snd (m h)) = take n h /\
    (List.length h <= List.length (snd (m h)))%nat /\
    forall a, fst (m h) = Ok a -> Q a.

(** An address allocated after the first [n] objects. *)
Definition fresh_for (n : nat) (l : Heap.loc) : Prop := (n <= l)%nat.

Definition anything {A : Type} (a : A) : Prop := True.

(** The addresses [items] are those of the records [rs] in the store [h]. *)
Definition holds (h : Heap.heap) (items : list Heap.loc) (rs : list resource) : Prop :=
  Forall2 (fun i r => h !! i = Some (Heap.ODict r)) items rs.

(** The addresses [items] are those of the entries [es] in the store [h]. *)
Definition holds_infos (h : Heap.heap) (items : list Heap.loc) (es : list resource_info)
  : Prop :=
  Forall2 (fun i e => h !! i = Some (Heap.OInfo e)) items es.

(** ** Sample data *)

Definition sample_now : datetime := mk_datetime 2024 6 15 12 0 0 0.

Definition tool_a : resource :=
  {[ "ID" := "tool-1"; "Category" := "Tooling"; "Active" := "TRUE";
     "License" := "MIT"; "Date Added" := "2024-06-01:10-00-00";
     "Last Checked" := "2024-06-14:08-30-00" ]}.

Definition tool_b : resource :=
  {[ "ID" := "tool-2"; "Category" := "Agent Skills"; "Active" := "FALSE";
     "License" := "NOT_FOUND"; "Date Added" := "2023-01-01:00-00-00";
     "Last Checked" := "2024-06-01:00-00-00" ]}.

Definition tool_c : resource :=
  {[ "ID" := "tool-3"; "Category" := "tooling"; "Active" := "FALSE";
     "Last Checked" := "not a date" ]}.

(** A store with the three sample records and, at address 3, their list. *)
Definition sample_store : Heap.heap :=
  [Heap.ODict tool_a; Heap.ODict tool_b; Heap.ODict tool_c; Heap.OList [0; 1; 2]%nat].

(** ** Vocabulary of the further properties *)

(** [table[k]] for a table kept as a list of pairs: the count of the first
    pair of key [k], if any. *)
Definition table_get (k : string) (c : list (string * Z)) : option Z :=
  match List.find (fun p => String.eqb (fst p) k) c with
  | Some p => Some (snd p)
  | None => None
  end.

(** The sum of the counts of a table. *)
Definition table_sum (c : list (string * Z)) : Z :=
  fold_right (fun p acc => snd p + acc) 0 c.

(** How many times [k] occurs in [keys]. *)
Definition occurrences (k : string) (keys : list string) : Z :=
  len (List.filter (String.eqb k) keys).

(** [x] is listed before [y] in a table by decreasing count. *)
Definition by_count_desc (x y : string * Z) : Prop := snd y <= snd x.

(** The values of the field [k] over a table, [d] where it is absent. *)
Definition column (k d : string) (rs : list resource) : list string :=
  map (fun r => get r k d) rs.

(** The entry of a table for a key that occurs [n] times: none for 0. *)
Definition listed (n : Z) : option Z := if n =? 0 then None else Some n.

(** The names in a column other than [skip]. *)
Definition distinct_names (skip : string) (col : list string) : gset string :=
  list_to_set col ∖ {[skip]}.

(** The counts of a high-level report that go record by record. *)
Definition record_counts (d : high_level_data) : list Z :=
  [total_resources d; active d; inactive d; no_license d; recently_added d;
   recently_checked d; never_checked d; outdated_checks d; removed_from_origin d].

(** The moment before which [--recent-days] leaves a record out, as a
    microsecond count; none without the filter. *)
Definition cutoff_of (now : datetime) (f : filters) : result (option Z) :=
  match recent_days f with
  | None => Ok None
  | Some n =>
      match sub_timedelta_days now n with
      | Ok c => Ok (Some c)
      | Raise e => Raise e
      end
  end.

(** A string filter lets [r] through: it is off (absent or empty), or the
    field equals its value up to case. *)
Definition text_ok (k : string) (v : option string) (r : resource) : bool :=
  match v with
  | None => true
  | Some EmptyString => true
  | Some s => equal_ignoring_case k s r
  end.

(** The record is not counted as active. *)
Definition inactive_record (r : resource) : bool :=
  negb (bool_decide (PyStr.upper (default "" (r !! "Active")) = "TRUE")).

(** Added at the moment [c] or later. *)
Definition added_from (c : Z) (r : resource) : bool :=
  match field_date "Date Added" r with
  | Some d => bool_decide (c <= total_us d)
  | None => false
  end.

(** Every filter that is on lets [r] through. *)
Definition passes (cutoff : option Z) (f : filters) (r : resource) : bool :=
  text_ok "Category" (category f) r
  && text_ok "Sub-Category" (sub_category f) r
  && text_ok "Author Name" (author f) r
  && text_ok "License" (license_filter f) r
  && (negb (inactive_only f) || inactive_record r)
  && (negb (no_license_only f) || without_license r)
  && match cutoff with
     | None => true
     | Some c => added_from c r
     end.

(** The call of [scoped_audit] with the inactive filter alone. *)
Definition only_inactive : filters :=
  {| category := None; sub_category := None; author := None;
     license_filter := None; inactive_only := true; no_license_only := false;
     recent_days := None |}.

(** A filter combination used as an example: a category, inactive
    resources, added in the last 600 days. *)
Definition sample_filters : filters :=
  {| category := Some "agent skills"; sub_category := None; author := None;
     license_filter := None; inactive_only := true; no_license_only := false;
     recent_days := Some 600 |}.

(** An entry of a scoped result without a number of days since the check. *)
Definition entry_never (e : resource_info) : bool :=
  match info_days_since_check e with
  | None => true
  | Some _ => false
  end.

(** An entry checked at most [n] whole days ago. *)
Definition entry_within (n : Z) (e : resource_info) : bool :=
  match info_days_since_check e with
  | Some k => bool_decide (k <= n)
  | None => false
  end.

(** An entry checked more than [n] whole days ago. *)
Definition entry_beyond (n : Z) (e : resource_info) : bool :=
  match info_days_since_check e with
  | Some k => bool_decide (n < k)
  | None => false
  end.

(** The command line [--inactive --recent-days 1000000]. *)
Definition far_back_args : cli_args :=
  {| arg_category := None; arg_sub_category := None; arg_author := None;
     arg_license_filter := None; arg_inactive := true; arg_no_license := false;
     arg_recent_days := Some 1000000; arg_json := false |}.

(** The table of the three sample records. *)
Definition sample_table : csv_table :=
  {| fieldnames := ["ID"; "Category"; "Active"; "License"; "Date Added"; "Last Checked"];
     rows := [tool_a; tool_b; tool_c] |}.

(** The report is that of a scoped audit. *)
Definition is_scoped (rep : report) : bool :=
  match rep with
  | ScopedText _ | ScopedJson _ => true
  | HighLevelText _ | HighLevelJson _ => false
  end.

(** The report is in JSON. *)
Definition is_json (rep : report) : bool :=
  match rep with
  | HighLevelJson _ | ScopedJson _ => true
  | HighLevelText _ | ScopedText _ => false
  end.

(** A string argument given with a non-empty value. *)
Definition given (v : option string) : Prop := exists s, v = Some s /\ s <> "".

(** The command line asks for a scoped audit in a way the program sees. *)
Definition asks_for_scope (args : cli_args) : Prop :=
  given (arg_category args) \/ given (arg_sub_category args) \/
  given (arg_author args) \/ given (arg_license_filter args) \/
  arg_inactive args = true \/ arg_no_license args = true \/
  exists n, arg_recent_days args = Some n /\ n <> 0.

(** The command line [--category "" --inactive --recent-days 0]. *)
Definition inactive_zero_days_args : cli_args :=
  {| arg_category := Some ""; arg_sub_category := None; arg_author := None;
     arg_license_filter := None; arg_inactive := true; arg_no_license := false;
     arg_recent_days := Some 0; arg_json := false |}.

(** The decimal digit of the units of [n]. *)
Definition digit_char (n : Z) : ascii := ascii_of_nat (Z.to_nat (48 + n mod 10)).

Definition two_digits (n : Z) : list ascii := [digit_char (n / 10); digit_char n].

Definition four_digits (n : Z) : list ascii :=
  [digit_char (n / 1000); digit_char (n / 100); digit_char (n / 10); digit_char n].

(** The text of a date and time in the layout [YYYY-MM-DD:HH-MM-SS]. *)
Definition timestamp (d : datetime) : string :=
  string_of_list_ascii
    (four_digits (year d) ++ "-"%char :: two_digits (month d) ++ "-"%char ::
     two_digits (day d) ++ ":"%char :: two_digits (hour d) ++ "-"%char ::
     two_digits (minute d) ++ "-"%char :: two_digits (second d)).

(** A date and time that the [datetime] constructor accepts, without
    microseconds. *)
Definition well_formed (d : datetime) : Prop :=
  valid_date (year d) (month d) (day d) = true /\
  valid_time (hour d) (minute d) (second d) = true /\
  microsecond d = 0.

(** The first alternative of a group whose atoms match the start of a
    text, with what it takes and what it leaves. *)
Fixpoint first_alt (alts : list (list atom)) (s : list ascii)
  : option (list ascii * list ascii) :=
  match alts with
  | [] => None
  | alt :: alts' =>
      match match_atoms alt s with
      | Some rest => Some (firstn (List.length alt) s, rest)
      | None => first_alt alts' s
      end
  end.

(** A record dated after [sample_now], active in lower case. *)
Definition tool_d : resource :=
  {[ "ID" := "tool-4"; "Display Name" := "Later"; "Category" := "Tooling";
     "Active" := "true"; "Date Added" := "2024-07-01:00-00-00" ]}.

(** A category together with a window of 0 days. *)
Definition zero_days_filters : filters :=
  {| category := Some "tooling"; sub_category := None; author := None;
     license_filter := None; inactive_only := false; no_license_only := false;
     recent_days := Some 0 |}.

(** ** The text of the scoped report

    What [print_scoped_report] hands to [print], one string per call, in
    order; [print] ends each with a line feed. Symbols outside ASCII are
    the bytes of their UTF-8 form. *)

Module ReportText.

Definition nl : string := String (ascii_of_nat 10) EmptyString.

(** [c * n] for a one-character string. *)
Fixpoint times (c : ascii) (n : nat) : string :=
  match n with
  | O => EmptyString
  | S n' => String c (times c n')
  end.

(** [str(n)] *)
Definition str_of_int (n : Z) : string := NilZero.string_of_int (Z.to_int n).

(** [s.replace('_', ' ')] *)
Fixpoint replace_underscores (s : string) : string :=
  match s with
  | EmptyString => EmptyString
  | String c s' =>
      String (if Ascii.eqb c "_" then " "%char else c) (replace_underscores s')
  end.

(** [s.title()]: a letter is put in upper case after a character that is
    no letter, in lower case after a letter. *)
Fixpoint title_from (after_letter : bool) (s : string) : string :=
  match s with
  | EmptyString => EmptyString
  | String c s' =>
      let letter := PyStr.is_ascii_lower c || PyStr.is_ascii_upper c in
      String (if letter
              then if after_letter then PyStr.lower_char c else PyStr.upper_char c
              else c)
             (title_from letter s')
  end.

Definition title (s : string) : string := title_from false s.

(** [sep.join(l)] *)
Fixpoint join (sep : string) (l : list string) : string :=
  match l with
  | [] => EmptyString
  | [s] => s
  | s :: l' => (s ++ sep ++ join sep l')%string
  end.

(** A value of the [filter_criteria] dictionary. *)
Inductive value : Type :=
| VNone
| VStr (s : string)
| VBool (b : bool)
| VInt (n : Z).

(** [f"{v}"] *)
Definition format_value (v : value) : string :=
  match v with
  | VNone => "None"
  | VStr s => s
  | VBool true => "True"
  | VBool false => "False"
  | VInt n => str_of_int n
  end.

Definition of_str (o : option string) : value :=
  match o with Some s => VStr s | None => VNone end.

Definition of_int (o : option Z) : value :=
  match o with Some n => VInt n | None => VNone end.

(** [criteria.items()], in the order the dictionary was built. *)
Definition criteria_items (f : filters) : list (string * value) :=
  [("category", of_str (category f));
   ("sub_category", of_str (sub_category f));
   ("author", of_str (author f));
   ("license", of_str (license_filter f));
   ("inactive_only", VBool (inactive_only f));
   ("no_license_only", VBool (no_license_only f));
   ("recent_days", of_int (recent_days f))].

(** [value is not None and value is not False] *)
Definition shown (v : value) : bool :=
  match v with
  | VNone => false
  | VBool false => false
  | _ => true
  end.

(** The list [active_filters] built by the loop over the criteria. *)
Definition active_filters (f : filters) : list string :=
  map (fun kv => ("  " ++ title (replace_underscores (fst kv)) ++ ": "
                  ++ format_value (snd kv))%string)
      (List.filter (fun kv => shown (snd kv)) (criteria_items f)).

(** The line printed under the heading of the criteria. *)
Definition criteria_line (f : filters) : string :=
  match active_filters f with
  | [] => "  No filters applied"
  | l => join nl l
  end.

(** The mark of a resource. *)
Definition status (e : resource_info) : string :=
  if String.eqb (info_active e) "TRUE" then "✓" else "✗".

Definition days (e : resource_info) : string :=
  match info_days_since_check e with
  | Some n => ("(" ++ str_of_int n ++ "d ago)")%string
  | None => "(never checked)"
  end.

(** The lines of the resource numbered [i]. *)
Definition resource_lines (i : Z) (e : resource_info) : list string :=
  [(nl ++ "  " ++ str_of_int i ++ ". " ++ status e ++ " " ++ info_name e)%string;
   ("     Category: " ++ info_category e ++ " / " ++ info_sub_category e)%string;
   ("     Author: " ++ info_author e)%string;
   ("     License: " ++ info_license e)%string;
   ("     Link: " ++ info_primary_link e)%string;
   ("     Last Checked: " ++ info_last_checked e ++ " " ++ days e)%string]
  ++ (if String.eqb (info_removed_from_origin e) "TRUE"
      then ["     ⚠️  REMOVED FROM ORIGIN"]
      else []).

(** [for i, resource in enumerate(resources, i): ...] *)
Fixpoint numbered_lines (i : Z) (es : list resource_info) : list string :=
  match es with
  | [] => []
  | e :: es' => resource_lines i e ++ numbered_lines (i + 1) es'
  end.

(** The text of [print_scoped_report]. *)
Definition scoped_report_text (scoped : scoped_data) : list string :=
  [(nl ++ times "=" 80)%string;
   "SCOPED AUDIT REPORT";
   times "=" 80;
   (nl ++ "🔍 FILTER CRITERIA:")%string;
   criteria_line (filter_criteria scoped);
   (nl ++ "📊 MATCHED: " ++ str_of_int (matched_count scoped) ++ " resources")%string]
  ++ (if 0 <? matched_count scoped
      then (nl ++ "📋 RESOURCES:")%string :: numbered_lines 1 (resources scoped)
      else [])
  ++ [(nl ++ times "=" 80 ++ nl)%string].

End ReportText.

(** ** The script over the library as an interface

    The functions above reach [str.lower], [str.strip] and
    [datetime.strptime] through models that are exact on ASCII text. Here
    the same functions of the script take these three library functions as
    a parameter: what is proved of them holds whatever the library computes,
    on any text. The rest is shared with the definitions above: records,
    counters, the clock and the date arithmetic, and [is_active], for which
    a text is [TRUE] in upper case only when it is [TRUE] up to the case of
    its ASCII letters. *)

Module Generic.

Record library : Type := {
  (** [s.lower()] *)
  lower : string -> string;
  (** [s.strip()] *)
  strip : string -> string;
  (** [datetime.strptime(s, "%Y-%m-%d:%H-%M-%S")] *)
  strptime : string -> result datetime
}.

(** [parse_date] *)
Definition parse_date (L : library) (date_str : string) : result (option datetime) :=
  if negb (PyStr.truthy date_str) || String.eqb (strip L date_str) ""
  then Ok None
  else
    match strptime L date_str with
    | Ok d => Ok (Some d)
    | Raise ValueError => Ok None
    | Raise e => Raise e
    end.

(** The body of the loop over the resources in [high_level_audit]. *)
Definition classify (L : library) (now : datetime) (b : buckets) (r : resource)
  : result buckets :=
  date_added ← parse_date L (get r "Date Added" "");
  let b1 :=
    match date_added with
    | Some d =>
        if sub_days now d <=? 30
        then {| b_recently_added := b_recently_added b ++ [r];
                b_recently_checked := b_recently_checked b;
                b_never_checked := b_never_checked b;
                b_outdated := b_outdated b |}
        else b
    | None => b
    end in
  last_checked ← parse_date L (get r "Last Checked" "");
  match last_checked with
  | None =>
      Ok {| b_recently_added := b_recently_added b1;
            b_recently_checked := b_recently_checked b1;
            b_never_checked := b_never_checked b1 ++ [r];
            b_outdated := b_outdated b1 |}
  | Some d =>
      if sub_days now d <=? 7 then
        Ok {| b_recently_added := b_recently_added b1;
              b_recently_checked := b_recently_checked b1 ++ [r];
              b_never_checked := b_never_checked b1;
              b_outdated := b_outdated b1 |}
      else if 30 <? sub_days now d then
        Ok {| b_recently_added := b_recently_added b1;
              b_recently_checked := b_recently_checked b1;
              b_never_checked := b_never_checked b1;
              b_outdated := b_outdated b1 ++ [r] |}
      else Ok b1
  end.

(** [high_level_audit] *)
Definition high_level_audit (L : library) (now : datetime) (resources : list resource)
  : result high_level_data :=
  let total := len resources in
  let active := sum_ones is_active resources in
  let inactive := total - active in
  let categories := Counter (map (fun r => get r "Category" "Unknown") resources) in
  let sub_categories :=
    Counter (map (fun r => get r "Sub-Category" "Unknown") resources) in
  let licenses := Counter (map (fun r => get r "License" "Unknown") resources) in
  let no_license := sum_ones lacks_license resources in
  let authors := Counter (map (fun r => get r "Author Name" "Unknown") resources) in
  let unique_authors :=
    len (List.filter (fun a => negb (String.eqb (fst a) "Unknown")) authors) in
  b ← for_each (classify L now) resources no_buckets;
  let removed_from_origin := sum_ones is_removed resources in
  Ok {| total_resources := total;
        active := active;
        inactive := inactive;
        categories := most_common categories;
        sub_categories := most_common sub_categories;
        licenses := most_common licenses;
        no_license := no_license;
        unique_authors := unique_authors;
        top_authors := most_common_n 10 authors;
        recently_added := len (b_recently_added b);
        recently_checked := len (b_recently_checked b);
        never_checked := len (b_never_checked b);
        outdated_checks := len (b_outdated b);
        removed_from_origin := removed_from_origin |}.

(** [r.get(k, "").lower() == v.lower()] *)
Definition field_matches (L : library) (k v : string) (r : resource) : bool :=
  String.eqb (lower L (get r k "")) (lower L v).

(** One of the four string filters:
    [if v: filtered = [r for r in filtered if r.get(k, "").lower() == v.lower()]] *)
Definition filter_by_field (L : library) (k : string) (v : option string)
    (filtered : list resource) : list resource :=
  if PyStr.truthy_opt v
  then List.filter (field_matches L k (default "" v)) filtered
  else filtered.

(** The condition of the recency filter:
    [parse_date(r.get("Date Added", "")) and
     parse_date(r.get("Date Added", "")) >= cutoff_date]. *)
Definition added_since (L : library) (cutoff_us : Z) (r : resource) : result bool :=
  d1 ← parse_date L (get r "Date Added" "");
  match d1 with
  | None => Ok false
  | Some _ =>
      d2 ← parse_date L (get r "Date Added" "");
      match d2 with
      | Some d => Ok (cutoff_us <=? total_us d)
      | None => Raise TypeError
      end
  end.

(** The filters of [scoped_audit], in the order of the source. *)
Definition apply_filters (L : library) (now : datetime) (resources : list resource)
    (f : filters) : result (list resource) :=
  let filtered := resources in
  let filtered := filter_by_field L "Category" (category f) filtered in
  let filtered := filter_by_field L "Sub-Category" (sub_category f) filtered in
  let filtered := filter_by_field L "Author Name" (author f) filtered in
  let filtered := filter_by_field L "License" (license_filter f) filtered in
  let filtered :=
    if inactive_only f
    then List.filter (fun r => negb (is_active r)) filtered else filtered in
  let filtered :=
    if no_license_only f then List.filter lacks_license filtered else filtered in
  match recent_days f with
  | Some n =>
      cutoff_date ← sub_timedelta_days now n;
      filter_r (added_since L cutoff_date) filtered
  | None => Ok filtered
  end.

(** The entry appended for one matched resource. *)
Definition describe (L : library) (now : datetime) (r : resource) : result resource_info :=
  last_checked ← parse_date L (get r "Last Checked" "");
  let days_since_check :=
    match last_checked with
    | Some d => Some (sub_days now d)
    | None => None
    end in
  Ok {| info_id := get r "ID" "";
        info_name := get r "Display Name" "";
        info_category := get r "Category" "";
        info_sub_category := get r "Sub-Category" "";
        info_active := get r "Active" "";
        info_license := get r "License" "";
        info_author := get r "Author Name" "";
        info_primary_link := get r "Primary Link" "";
        info_last_checked := get r "Last Checked" "";
        info_days_since_check := days_since_check;
        info_removed_from_origin := get r "Removed From Origin" "" |}.

(** [scoped_audit] *)
Definition scoped_audit (L : library) (now : datetime) (resources : list resource)
    (f : filters) : result scoped_data :=
  filtered ← apply_filters L now resources f;
  entries ←
    for_each (fun acc r => e ← describe L now r; Ok (acc ++ [e])%list) filtered [];
  Ok {| filter_criteria := f;
        matched_count := len filtered;
        resources := entries |}.

(** The models of [PyStr] and [Datetime] as a library: at this library the
    functions of this module are the functions defined above. *)
Definition ascii_model : library :=
  {| lower := PyStr.lower; strip := PyStr.strip; strptime := Datetime.strptime |}.

(** *** Vocabulary *)

(** What the library promises of [strptime] on a string: a date, or a
    [ValueError]. *)
Definition raises_only_ValueError (L : library) : Prop :=
  forall (s : string) (e : exn), strptime L s = Raise e -> e = ValueError.

(** A text that is no date: empty, blank, or turned down by [strptime]. *)
Definition no_date (L : library) (s : string) : Prop :=
  s = "" \/ strip L s = "" \/ strptime L s = Raise ValueError.

(** The value of [parse_date] when it returns. *)
Definition date_of (L : library) (s : string) : option datetime :=
  match parse_date L s with
  | Ok o => o
  | Raise _ => None
  end.

(** The parsed date of a field of a record; an absent field has none. *)
Definition field_date (L : library) (k : string) (r : resource) : option datetime :=
  match r !! k with
  | Some s => date_of L s
  | None => None
  end.

(** Added at most 30 whole days before [now]. *)
Definition added_recently (L : library) (now : datetime) (r : resource) : bool :=
  match field_date L "Date Added" r with
  | Some d => bool_decide (sub_days now d <= 30)
  | None => false
  end.

(** Checked at most 7 whole days before [now]. *)
Definition checked_recently (L : library) (now : datetime) (r : resource) : bool :=
  match field_date L "Last Checked" r with
  | Some d => bool_decide (sub_days now d <= 7)
  | None => false
  end.

(** No usable date of a last check. *)
Definition not_checked (L : library) (r : resource) : bool :=
  match field_date L "Last Checked" r with
  | Some _ => false
  | None => true
  end.

(** Checked more than 30 whole days before [now]. *)
Definition check_outdated (L : library) (now : datetime) (r : resource) : bool :=
  match field_date L "Last Checked" r with
  | Some d => bool_decide (30 < sub_days now d)
  | None => false
  end.

(** Checked more than 7 and less than 31 whole days before [now]. *)
Definition check_in_gap (L : library) (now : datetime) (r : resource) : bool :=
  match field_date L "Last Checked" r with
  | Some d => bool_decide (7 < sub_days now d < 31)
  | None => false
  end.

(** The field [k] of [r], empty when absent, equals [v] up to case: the
    two are the same text once in lower case. *)
Definition equal_ignoring_case (L : library) (k v : string) (r : resource) : bool :=
  bool_decide (lower L (default "" (r !! k)) = lower L v).

(** The entries of a scoped result describe the records [rs], one entry per
    record and in the same order. *)
Definition lists_exactly (L : library) (now : datetime) (d : scoped_data)
    (rs : list resource) : Prop :=
  matched_count d = len rs /\
  Forall2 (fun e r => describe L now r = Ok e) (resources d) rs.

(** A string filter lets [r] through: it is off (absent or empty), or the
    field equals its value up to case. *)
Definition text_ok (L : library) (k : string) (v : option string) (r : resource) : bool :=
  match v with
  | None => true
  | Some EmptyString => true
  | Some s => equal_ignoring_case L k s r
  end.

(** Added at the moment [c] or later. *)
Definition added_from (L : library) (c : Z) (r : resource) : bool :=
  match field_date L "Date Added" r with
  | Some d => bool_decide (c <= total_us d)
  | None => false
  end.

(** Every filter that is on lets [r] through. *)
Definition passes (L : library) (cutoff : option Z) (f : filters) (r : resource) : bool :=
  text_ok L "Category" (category f) r
  && text_ok L "Sub-Category" (sub_category f) r
  && text_ok L "Author Name" (author f) r
  && text_ok L "License" (license_filter f) r
  && (negb (inactive_only f) || inactive_record r)
  && (negb (no_license_only f) || without_license r)
  && match cutoff with
     | None => true
     | Some c => added_from L c r
     end.

End Generic.

(** * Properties *)

(** ** Counting *)

Section Counting.
Context {A : Type} (p : A -> bool).

Lemma len_nil : len (@nil A) = 0.
Proof. reflexivity. Qed.

Lemma len_cons (x : A) (l : list A) : len (x :: l) = len l + 1.
Proof. unfold len. cbn [List.length]. lia. Qed.

Lemma len_app (l1 l2 : list A) : len (l1 ++ l2) = len l1 + len l2.
Proof. unfold len. rewrite List.length_app. lia. Qed.

Lemma len_nonneg (l : list A) : 0 <= len l.
Proof. unfold len. lia. Qed.

Lemma sum_ones_from (l : list A) (z : Z) :
  fold_left (fun acc x => if p x then acc + 1 else acc) l z
  = z + len (List.filter p l).
Proof.
  revert z. induction l as [|x l IH]; intros z; cbn [fold_left List.filter].
  - rewrite len_nil. lia.
  - rewrite IH. destruct (p x); [rewrite len_cons|]; lia.
Qed.

Lemma sum_ones_filter (l : list A) : sum_ones p l = len (List.filter p l).
Proof. unfold sum_ones. rewrite sum_ones_from. lia. Qed.

Lemma filter_ext_bool (q : A -> bool) (l : list A) :
  (forall x, p x = q x) -> List.filter p l = List.filter q l.
Proof.
  intros E. induction l as [|x l IH]; cbn [List.filter]; [done|].
  rewrite E, IH. done.
Qed.
End Counting.

(** ** The date parser *)

Lemma strptime_raises (s : string) (e : exn) :
  strptime s = Raise e -> e = ValueError.
Proof. unfold strptime. repeat case_match; congruence. Qed.

Lemma parse_date_ok (s : string) : parse_date s = Ok (date_of s).
Proof.
  unfold date_of, parse_date.
  destruct (negb (PyStr.truthy s) || String.eqb (PyStr.strip s) ""); [done|].
  destruct (strptime s) as [d|e] eqn:E; [done|].
  apply strptime_raises in E. subst e. done.
Qed.

Lemma date_of_empty : date_of "" = None.
Proof. reflexivity. Qed.

Lemma parse_field (k : string) (r : resource) :
  parse_date (get r k "") = Ok (field_date k r).
Proof.
  rewrite parse_date_ok. unfold get, field_date.
  destruct (r !! k); [done|]. cbn [default]. by rewrite date_of_empty.
Qed.

(** ** The loop of the high-level audit *)

Lemma classify_ok (now : datetime) (b : buckets) (r : resource) :
  classify now b r =
  Ok {| b_recently_added := b_recently_added b ++ pick (added_recently now r) r;
        b_recently_checked := b_recently_checked b ++ pick (checked_recently now r) r;
        b_never_checked := b_never_checked b ++ pick (not_checked r) r;
        b_outdated := b_outdated b ++ pick (check_outdated now r) r |}.
Proof.
  unfold classify. rewrite !parse_field. cbn [mbind result_bind].
  unfold added_recently, checked_recently, not_checked, check_outdated.
  destruct b as [ba bc bn bo]. cbn [b_recently_added b_recently_checked b_never_checked b_outdated].
  destruct (field_date "Date Added" r) as [da|];
    destruct (field_date "Last Checked" r) as [lc|]; cbn [pick];
    repeat match goal with
    | |- context [?x <=? ?y] => destruct (Z.leb_spec x y)
    | |- context [?x <? ?y] => destruct (Z.ltb_spec x y)
    | |- context [bool_decide ?P] => destruct (bool_decide_reflect P)
    end;
    cbn [pick b_recently_added b_recently_checked b_never_checked b_outdated];
    rewrite ?app_nil_r; try reflexivity; lia.
Qed.

Lemma for_each_classify (now : datetime) (rs : list resource) (b : buckets) :
  for_each (classify now) rs b =
  Ok {| b_recently_added := b_recently_added b ++ List.filter (added_recently now) rs;
        b_recently_checked :=
          b_recently_checked b ++ List.filter (checked_recently now) rs;
        b_never_checked := b_never_checked b ++ List.filter not_checked rs;
        b_outdated := b_outdated b ++ List.filter (check_outdated now) rs |}.
Proof.
  revert b. induction rs as [|r rs IH]; intros b; cbn [for_each List.filter].
  - rewrite !app_nil_r. by destruct b.
  - rewrite classify_ok. cbn [mbind result_bind]. rewrite IH.
    cbn [b_recently_added b_recently_checked b_never_checked b_outdated].
    unfold pick.
    destruct (added_recently now r), (checked_recently now r),
      (not_checked r), (check_outdated now r);
      rewrite <- ?app_assoc; reflexivity.
Qed.

(** The high-level audit returns, and this is what it returns. *)
Lemma high_level_audit_ok (now : datetime) (rs : list resource) :
  high_level_audit now rs =
  Ok {| total_resources := len rs;
        active := len (List.filter is_active rs);
        inactive := len rs - len (List.filter is_active rs);
        categories :=
          most_common (Counter (map (fun r => get r "Category" "Unknown") rs));
        sub_categories :=
          most_common (Counter (map (fun r => get r "Sub-Category" "Unknown") rs));
        licenses :=
          most_common (Counter (map (fun r => get r "License" "Unknown") rs));
        no_license := len (List.filter lacks_license rs);
        unique_authors :=
          len (List.filter (fun a => negb (String.eqb (fst a) "Unknown"))
                 (Counter (map (fun r => get r "Author Name" "Unknown") rs)));
        top_authors :=
          most_common_n 10
            (Counter (map (fun r => get r "Author Name" "Unknown") rs));
        recently_added := len (List.filter (added_recently now) rs);
        recently_checked := len (List.filter (checked_recently now) rs);
        never_checked := len (List.filter not_checked rs);
        outdated_checks := len (List.filter (check_outdated now) rs);
        removed_from_origin := len (List.filter is_removed rs) |}.
Proof.
  unfold high_level_audit. rewrite for_each_classify.
  cbn [mbind result_bind no_buckets b_recently_added b_recently_checked
       b_never_checked b_outdated app].
  rewrite !sum_ones_filter. reflexivity.
Qed.

(** ** The scoped audit *)

Lemma describe_total (now : datetime) (r : resource) :
  exists e, describe now r = Ok e.
Proof. unfold describe. rewrite parse_field. eexists. reflexivity. Qed.

Lemma describe_all (now : datetime) (rs : list resource) (acc : list resource_info) :
  exists es,
    for_each (fun acc r => e ← describe now r; Ok (acc ++ [e])%list) rs acc
    = Ok (acc ++ es)%list
    /\ Forall2 (fun e r => describe now r = Ok e) es rs.
Proof.
  revert acc. induction rs as [|r rs IH]; intros acc; cbn [for_each].
  - exists []. rewrite app_nil_r. split; [done | constructor].
  - destruct (describe_total now r) as [e He]. rewrite He.
    cbn [mbind result_bind].
    destruct (IH (acc ++ [e])%list) as [es [Hes Hall]].
    exists (e :: es). rewrite Hes, <- app_assoc. split; [done|].
    constructor; done.
Qed.

(** Once the filters have returned [filtered], the scoped audit returns a
    result that lists exactly [filtered]. *)
Lemma scoped_audit_lists (now : datetime) (rs filtered : list resource) (f : filters) :
  apply_filters now rs f = Ok filtered ->
  exists d, scoped_audit now rs f = Ok d /\ filter_criteria d = f /\
            lists_exactly now d filtered.
Proof.
  intros Hf. unfold scoped_audit. rewrite Hf. cbn [mbind result_bind].
  destruct (describe_all now filtered []) as [es [Hes Hall]].
  rewrite Hes. eexists. split; [reflexivity|].
  split; [reflexivity|]. split; [reflexivity | exact Hall].
Qed.

Lemma field_matches_spec (k v : string) (r : resource) :
  field_matches k v r = equal_ignoring_case k v r.
Proof.
  unfold field_matches, equal_ignoring_case, get.
  destruct (String.eqb_spec (PyStr.lower (default "" (r !! k))) (PyStr.lower v)) as [E|E].
  - by rewrite bool_decide_eq_true_2.
  - by rewrite bool_decide_eq_false_2.
Qed.

Lemma lacks_license_spec (r : resource) : lacks_license r = without_license r.
Proof.
  unfold lacks_license, without_license.
  destruct (r !! "License") as [[|c s]|] eqn:E; cbn [PyStr.truthy_opt PyStr.truthy negb orb].
  - symmetry. apply bool_decide_eq_true_2. auto.
  - destruct (bool_decide_reflect (Some (String c s) = Some "NOT_FOUND")) as [E'|E'].
    + symmetry. apply bool_decide_eq_true_2. auto.
    + symmetry. apply bool_decide_eq_false_2. intros [?|[?|?]]; congruence.
  - symmetry. apply bool_decide_eq_true_2. auto.
Qed.

Lemma is_active_spec (r : resource) :
  is_active r = bool_decide (PyStr.upper (default "" (r !! "Active")) = "TRUE").
Proof.
  unfold is_active, get.
  destruct (String.eqb_spec (PyStr.upper (default "" (r !! "Active"))) "TRUE").
  - by rewrite bool_decide_eq_true_2.
  - by rewrite bool_decide_eq_false_2.
Qed.

Lemma len_filter_perm {A : Type} (p : A -> bool) (l l' : list A) :
  l ≡ₚ l' -> len (List.filter p l) = len (List.filter p l').
Proof.
  induction 1 as [|x l l' _ IH|x y l|l l' l'' _ IH1 _ IH2]; cbn [List.filter].
  - done.
  - destruct (p x); rewrite ?len_cons, IH; done.
  - destruct (p x), (p y); rewrite ?len_cons; done.
  - congruence.
Qed.

Lemma len_perm {A : Type} (l l' : list A) : l ≡ₚ l' -> len l = len l'.
Proof. intros H. unfold len. by rewrite (Permutation_length H). Qed.

(** ** The claims on counts and filters *)

(** C2: the active count of the high-level audit is the number of records
    whose Active field is TRUE once put in upper case, the inactive count is
    the total minus the active count, and the two add up to the total; for
    three records, one with Active=TRUE and two with Active=FALSE, in any
    order, the report has active 1, inactive 2 and total 3. *)
Theorem active_inactive_counts (now : datetime) (rs : list resource) :
  exists d,
    high_level_audit now rs = Ok d /\
    total_resources d = len rs /\
    active d =
      len (List.filter
             (fun r => bool_decide (PyStr.upper (default "" (r !! "Active")) = "TRUE"))
             rs) /\
    inactive d = total_resources d - active d /\
    active d + inactive d = total_resources d /\
    (forall a b c : resource,
        a !! "Active" = Some "TRUE" ->
        b !! "Active" = Some "FALSE" ->
        c !! "Active" = Some "FALSE" ->
        rs ≡ₚ [a; b; c] ->
        active d = 1 /\ inactive d = 2 /\ total_resources d = 3).
Proof.
  eexists. split; [apply high_level_audit_ok|].
  cbn [total_resources active inactive].
  split; [done|]. split; [apply f_equal, filter_ext_bool, is_active_spec|].
  split; [done|]. split; [lia|].
  intros a b c Ha Hb Hc Hp.
  rewrite (len_filter_perm is_active _ _ Hp), (len_perm _ _ Hp).
  cbn [List.filter]. unfold is_active, get. rewrite Ha, Hb, Hc.
  cbn. done.
Qed.

Lemma active_inactive_counts_witness :
  exists d,
    high_level_audit sample_now [tool_b; tool_a; tool_c] = Ok d /\
    active d = 1 /\ inactive d = 2 /\ total_resources d = 3.
Proof.
  destruct (active_inactive_counts sample_now [tool_b; tool_a; tool_c])
    as [d [Hd [_ [_ [_ [_ Hex]]]]]].
  exists d. split; [exact Hd|].
  apply (Hex tool_a tool_b tool_c); [reflexivity | reflexivity | reflexivity |].
  apply perm_swap.
Defined.

(** In clock time, at most [n] whole days ago means less than [n + 1] days
    ago; a date in the future counts as recent. *)
Lemma sub_days_le_iff (now d : datetime) (n : Z) :
  sub_days now d <= n <-> total_us now - total_us d < (n + 1) * us_per_day.
Proof.
  unfold sub_days, us_per_day.
  pose proof (Z.div_mod (total_us now - total_us d) 86400000000 ltac:(lia)).
  pose proof (Z.mod_pos_bound (total_us now - total_us d) 86400000000 ltac:(lia)).
  split; intros; nia.
Qed.

Lemma len_filter_cons {A : Type} (p : A -> bool) (x : A) (l : list A) :
  len (List.filter p (x :: l)) = Z.b2z (p x) + len (List.filter p l).
Proof. cbn [List.filter]. destruct (p x); rewrite ?len_cons; cbn [Z.b2z]; lia. Qed.


(** C5: without any filter (no string filter, both flags false, no number
    of days) the filters return the input list itself and the scoped audit
    lists every input record, in the order of the input. *)
Theorem no_filter_identity (now : datetime) (rs : list resource) :
  apply_filters now rs no_filters = Ok rs /\
  exists d,
    scoped_audit now rs no_filters = Ok d /\
    filter_criteria d = no_filters /\
    lists_exactly now d rs.
Proof.
  assert (apply_filters now rs no_filters = Ok rs) as Hf by reflexivity.
  split; [exact Hf|]. exact (scoped_audit_lists _ _ _ _ Hf).
Qed.

Lemma apply_only_no_license (now : datetime) (rs : list resource) :
  apply_filters now rs only_no_license = Ok (List.filter without_license rs).
Proof.
  unfold apply_filters, only_no_license, filter_by_field.
  cbn [category sub_category author license_filter inactive_only no_license_only
       recent_days PyStr.truthy_opt].
  f_equal. apply filter_ext_bool, lacks_license_spec.
Qed.

(** C6: the no-license count of the high-level audit is the number of
    records whose License is absent, empty or NOT_FOUND; putting one more
    record into the table raises the count by one when the record is such a
    record and leaves it as it is otherwise; and the no-license filter lists
    exactly these records. *)
Theorem no_license_counted_once (now : datetime) (rs1 rs2 : list resource) (r : resource) :
  exists d d' s,
    high_level_audit now (rs1 ++ rs2) = Ok d /\
    high_level_audit now (rs1 ++ r :: rs2) = Ok d' /\
    scoped_audit now (rs1 ++ rs2) only_no_license = Ok s /\
    no_license d = len (List.filter without_license (rs1 ++ rs2)) /\
    no_license d' = no_license d + (if without_license r then 1 else 0) /\
    lists_exactly now s (List.filter without_license (rs1 ++ rs2)).
Proof.
  destruct (scoped_audit_lists _ _ _ _ (apply_only_no_license now (rs1 ++ rs2)))
    as [s [Hs [_ Hl]]].
  eexists. eexists. exists s.
  split; [apply high_level_audit_ok|]. split; [apply high_level_audit_ok|].
  split; [exact Hs|]. cbn [no_license].
  rewrite !(filter_ext_bool _ _ _ lacks_license_spec).
  split; [done|]. split; [|exact Hl].
  rewrite !List.filter_app, !len_app, len_filter_cons.
  destruct (without_license r); cbn [Z.b2z]; lia.
Qed.

(** C9: invoked with [--recent-days 0] and no other filter, the program
    finds no scoped filter, since the number 0 is false, and runs the
    high-level audit on the table; it prints no scoped report. *)
Theorem zero_days_is_high_level (t : csv_table) (json : bool) (now : datetime) :
  has_scoped_filters (zero_days_args json) = false /\
  main (Some t) (zero_days_args json) now
  = (d ← high_level_audit now (rows t);
     if json then Ok (HighLevelJson d) else print_high_level_report d) /\
  (forall s, main (Some t) (zero_days_args json) now <> Ok (ScopedText s)) /\
  (forall s, main (Some t) (zero_days_args json) now <> Ok (ScopedJson s)).
Proof.
  assert (main (Some t) (zero_days_args json) now
          = (d ← high_level_audit now (rows t);
             if json then Ok (HighLevelJson d) else print_high_level_report d)) as E
    by reflexivity.
  split; [reflexivity|]. split; [exact E|].
  rewrite E, high_level_audit_ok. cbn [mbind result_bind].
  unfold print_high_level_report, truediv. cbn [total_resources active inactive].
  split; intros s; destruct json; cbn [mbind result_bind];
    repeat case_match; cbn [mbind result_bind]; congruence.
Qed.

(** ** The exit status *)

(** C1, at the failing input: the table is there and has no record, the
    command line has no option. The audit itself returns, with a total of
    0; the overview then divides by the total and the run ends on the
    uncaught ZeroDivisionError, with status 1 where the claim has 0. *)
Theorem empty_table_exit_status (header : list string) (now : datetime) :
  (exists d,
      high_level_audit now [] = Ok d /\ total_resources d = 0) /\
  main (Some {| fieldnames := header; rows := [] |}) default_args now
  = Raise ZeroDivisionError /\
  exit_code (main (Some {| fieldnames := header; rows := [] |}) default_args now) = 1.
Proof.
  split; [eexists; split; reflexivity|]. split; reflexivity.
Qed.

Lemma missing_file_exit_status (args : cli_args) (now : datetime) :
  exit_code (main None args now) = 1.
Proof. reflexivity. Qed.

(** ** The expression matcher *)

Lemma match_atoms_sound (al : list atom) (s rest : list ascii) :
  match_atoms al s = Some rest ->
  s = (firstn (List.length al) s ++ rest)%list /\
  Forall2 (fun a c => atom_matches a c = true) al (firstn (List.length al) s).
Proof.
  revert s. induction al as [|a al IH]; intros s H; cbn [match_atoms] in H.
  - injection H as <-. split; [reflexivity | constructor].
  - destruct s as [|c s]; [discriminate|].
    destruct (atom_matches a c) eqn:Ha; [|discriminate].
    destruct (IH s H) as [Hs Hall]. cbn [List.length firstn app].
    split; [by rewrite <- Hs | by constructor].
Qed.

Lemma first_some_elim {A B : Type} (f : A -> option B) (l : list A) (y : B) :
  first_some f l = Some y -> exists x, In x l /\ f x = Some y.
Proof.
  induction l as [|x l IH]; cbn [first_some]; [discriminate|].
  destruct (f x) as [y'|] eqn:E.
  - intros [= <-]. exists x. split; [by left | done].
  - intros H. destruct (IH H) as [x' [Hin Hx']]. exists x'. split; [by right | done].
Qed.

Lemma match_groups_sound (gs : list (list (list atom))) :
  forall s caps final,
    match_groups gs s = Some (caps, final) ->
    Forall2 matches_group gs caps /\ s = (concat caps ++ final)%list.
Proof.
  induction gs as [|alts gs IH]; intros s caps final H; cbn [match_groups] in H.
  - injection H as <- <-. split; [constructor | reflexivity].
  - apply first_some_elim in H as [alt [Hin H]].
    destruct (match_atoms alt s) as [rest|] eqn:Ha; [|discriminate].
    destruct (match_groups gs rest) as [[caps' final']|] eqn:Hg; [|discriminate].
    injection H as <- <-.
    destruct (match_atoms_sound _ _ _ Ha) as [Hs Hall].
    destruct (IH _ _ _ Hg) as [Hcaps Hrest].
    split.
    + constructor; [|exact Hcaps]. exists alt. split; assumption.
    + cbn [concat]. rewrite <- app_assoc, <- Hrest. exact Hs.
Qed.

Lemma range_is_digit (lo hi c : ascii) :
  is_digit lo = true -> is_digit hi = true ->
  atom_matches (Range lo hi) c = true -> is_digit c = true.
Proof.
  unfold is_digit, digit, atom_matches.
  rewrite !andb_true_iff, !Nat.leb_le.
  change (nat_of_ascii "0") with 48%nat. change (nat_of_ascii "9") with 57%nat.
  lia.
Qed.

Lemma lit_is (x c : ascii) : atom_matches (Lit x) c = true -> c = x.
Proof. cbn [atom_matches]. intros H. symmetry. by apply Ascii.eqb_eq. Qed.

Lemma plain_no_separator (c : ascii) :
  plain c = true -> Ascii.eqb c "-" = false /\ Ascii.eqb c ":" = false.
Proof.
  destruct c as [[] [] [] [] [] [] [] []]; vm_compute; intros H;
    first [discriminate H | split; reflexivity].
Qed.

(** Turns the match of an alternative into its characters and their
    classes. *)
Ltac open_match :=
  repeat match goal with
    | H : Forall2 _ (_ :: _) _ |- _ =>
        apply Forall2_cons_inv_l in H as (? & ? & ? & H & ->)
    | H : Forall2 _ [] _ |- _ => apply Forall2_nil_inv_l in H as ->
    | H : atom_matches (Lit _) _ = true |- _ => apply lit_is in H as ->
    | H : atom_matches (Range _ _) _ = true |- _ =>
        apply range_is_digit in H; [|reflexivity|reflexivity]
    | H : atom_matches digit ?c = true |- _ => change (is_digit c = true) in H
    end.

Ltac close_shape :=
  unfold day_number, short_number, digits_text; cbn [forallb List.length];
  repeat match goal with H : is_digit _ = true |- _ => rewrite H; clear H end;
  reflexivity.

Ltac by_alternatives :=
  intros [alt [Hin Hall]]; cbn [In] in Hin;
  repeat (destruct Hin as [<-|Hin]; [open_match; close_shape|]);
  destruct Hin.

Lemma group_Y (cap : list ascii) : matches_group re_Y cap -> digits_text 4 cap = true.
Proof. unfold re_Y. by_alternatives. Qed.

Lemma group_m (cap : list ascii) : matches_group re_m cap -> short_number cap = true.
Proof. unfold re_m. by_alternatives. Qed.

Lemma group_d (cap : list ascii) : matches_group re_d cap -> day_number cap = true.
Proof. unfold re_d. by_alternatives. Qed.

Lemma group_H (cap : list ascii) : matches_group re_H cap -> short_number cap = true.
Proof. unfold re_H. by_alternatives. Qed.

Lemma group_M (cap : list ascii) : matches_group re_M cap -> short_number cap = true.
Proof. unfold re_M. by_alternatives. Qed.

Lemma group_S (cap : list ascii) : matches_group re_S cap -> short_number cap = true.
Proof. unfold re_S. by_alternatives. Qed.

Lemma group_lit (c : ascii) (cap : list ascii) :
  matches_group (re_lit c) cap -> cap = [c].
Proof.
  intros [alt [Hin Hall]]. destruct Hin as [<-|[]]. open_match. reflexivity.
Qed.

Lemma split_at_app (c : ascii) (a b : list ascii) :
  forallb (fun x => negb (Ascii.eqb x c)) a = true ->
  split_at c (a ++ c :: b) = Some (a, b).
Proof.
  induction a as [|x a IH]; cbn [forallb app split_at].
  - intros _. by rewrite Ascii.eqb_refl.
  - rewrite andb_true_iff, negb_true_iff. intros [Hx Ha].
    by rewrite Hx, (IH Ha).
Qed.

Lemma plain_text_no_separator (t : list ascii) :
  forallb plain t = true ->
  forallb (fun x => negb (Ascii.eqb x "-")) t = true /\
  forallb (fun x => negb (Ascii.eqb x ":")) t = true.
Proof.
  induction t as [|c t IH]; cbn [forallb]; [done|].
  rewrite andb_true_iff. intros [Hc Ht].
  destruct (plain_no_separator c Hc) as [-> ->]. exact (IH Ht).
Qed.

Lemma digits_plain (n : nat) (t : list ascii) :
  digits_text n t = true -> forallb plain t = true.
Proof.
  unfold digits_text. rewrite andb_true_iff. intros [H _].
  induction t as [|c t IH]; cbn [forallb] in *; [done|].
  apply andb_true_iff in H as [Hc Ht]. unfold plain at 1. by rewrite Hc, (IH Ht).
Qed.

Lemma short_plain (t : list ascii) : short_number t = true -> forallb plain t = true.
Proof.
  unfold short_number. rewrite orb_true_iff. intros [H|H]; exact (digits_plain _ _ H).
Qed.

Lemma day_plain (t : list ascii) : day_number t = true -> forallb plain t = true.
Proof.
  unfold day_number. rewrite orb_true_iff. intros [H|H]; [exact (short_plain _ H)|].
  destruct t as [|sp [|c [|? ?]]]; try discriminate H.
  apply andb_true_iff in H as [Hsp Hc]. cbn [forallb]. unfold plain.
  by rewrite Hsp, Hc, orb_true_r.
Qed.

(** A text that the expression of the format matches to its end has the
    lenient layout. *)
Lemma full_match_lenient (s : string) (caps : list (list ascii)) :
  match_groups format_regex (list_ascii_of_string s) = Some (caps, []) ->
  lenient_format s = true.
Proof.
  intros H. apply match_groups_sound in H as [Hcaps Hs].
  unfold format_regex in Hcaps.
  repeat match goal with
    | H : Forall2 _ (_ :: _) _ |- _ =>
        apply Forall2_cons_inv_l in H as (? & ? & ? & H & ->)
    | H : Forall2 _ [] _ |- _ => apply Forall2_nil_inv_l in H as ->
    | H : matches_group (re_lit _) _ |- _ => apply group_lit in H as ->
    end.
  repeat match goal with
    | H : matches_group re_Y _ |- _ => apply group_Y in H
    | H : matches_group re_m _ |- _ => apply group_m in H
    | H : matches_group re_d _ |- _ => apply group_d in H
    | H : matches_group re_H _ |- _ => apply group_H in H
    | H : matches_group re_M _ |- _ => apply group_M in H
    | H : matches_group re_S _ |- _ => apply group_S in H
    end.
  unfold lenient_format. rewrite Hs. cbn [concat app]. rewrite !app_nil_r.
  repeat match goal with
    | H : digits_text _ ?t = true |- context [split_at _ (?t ++ _)] =>
        rewrite split_at_app by apply (plain_text_no_separator t (digits_plain _ t H))
    | H : short_number ?t = true |- context [split_at _ (?t ++ _)] =>
        rewrite split_at_app by apply (plain_text_no_separator t (short_plain t H))
    | H : day_number ?t = true |- context [split_at _ (?t ++ _)] =>
        rewrite split_at_app by apply (plain_text_no_separator t (day_plain t H))
    end.
  repeat match goal with
    | H : _ = true |- _ => rewrite H; clear H
    end.
  reflexivity.
Qed.

Lemma strptime_lenient (s : string) (d : datetime) :
  strptime s = Ok d -> lenient_format s = true.
Proof.
  unfold strptime.
  destruct (match_groups format_regex (list_ascii_of_string s))
    as [[caps [|c final]]|] eqn:E.
  - intros _. exact (full_match_lenient s caps E).
  - intros H. repeat case_match; discriminate H.
  - discriminate.
Qed.

Lemma parse_date_malformed (s : string) : malformed s -> parse_date s = Ok None.
Proof.
  intros [->|[Hs|Hl]]; [reflexivity| |].
  - unfold parse_date. rewrite Hs. cbn [String.eqb]. by rewrite orb_true_r.
  - rewrite parse_date_ok. f_equal. unfold date_of, parse_date.
    destruct (negb (PyStr.truthy s) || String.eqb (PyStr.strip s) ""); [done|].
    destruct (strptime s) as [d|e] eqn:E.
    + apply strptime_lenient in E. congruence.
    + by destruct e.
Qed.

(** C4, as stated with the strict layout: a text outside the exact layout
    YYYY-MM-DD:HH-MM-SS would give no date. It fails: the parser takes a
    month, day, hour, minute or second of one digit, and [2024-1-5:3-4-5]
    parses. *)
Lemma unpadded_date_parses :
  ~ (forall s,
        s = "" \/ PyStr.strip s = "" \/ exact_format s = false ->
        parse_date s = Ok None).
Proof.
  intros H.
  specialize (H "2024-1-5:3-4-5" (or_intror (or_intror eq_refl))).
  vm_compute in H. discriminate H.
Qed.

(** ** The store is left as it was *)

Section Frame.
Context (n : nat).

Lemma keeps_ret {A : Type} (a : A) (Q : A -> Prop) : Q a -> keeps n (Heap.ret a) Q.
Proof. intros HQ h Hn. cbn. split; [done|]. split; [done|]. by intros ? [= <-]. Qed.

Lemma keeps_lift {A : Type} (r : result A) : keeps n (Heap.lift r) anything.
Proof. intros h Hn. cbn. done. Qed.

Lemma keeps_bind {A B : Type} (m : Heap.M A) (k : A -> Heap.M B)
      (Q : A -> Prop) (R : B -> Prop) :
  keeps n m Q -> (forall a, Q a -> keeps n (k a) R) -> keeps n (Heap.bind m k) R.
Proof.
  intros Hm Hk h Hn. destruct (Hm h Hn) as [Ht [Hl HQ]].
  unfold Heap.bind. destruct (m h) as [[a|e] h'] eqn:E; cbn [fst snd] in *.
  - destruct (Hk a (HQ a eq_refl) h' ltac:(lia)) as [Ht' [Hl' HR]].
    split; [congruence|]. split; [lia | exact HR].
  - split; [done|]. split; [done|]. discriminate.
Qed.

Lemma keeps_alloc (o : Heap.obj) : keeps n (Heap.alloc o) (fresh_for n).
Proof.
  intros h Hn. unfold Heap.alloc. cbn [fst snd].
  split; [by apply take_app_le|]. rewrite List.length_app. split; [lia|].
  intros a [= <-]. exact Hn.
Qed.

Lemma keeps_read_list (l : Heap.loc) : keeps n (Heap.read_list l) anything.
Proof. intros h Hn. unfold Heap.read_list. repeat case_match; cbn; done. Qed.

Lemma keeps_read_dict (l : Heap.loc) : keeps n (Heap.read_dict l) anything.
Proof. intros h Hn. unfold Heap.read_dict. repeat case_match; cbn; done. Qed.

Lemma keeps_append (l x : Heap.loc) :
  fresh_for n l -> keeps n (Heap.append l x) anything.
Proof.
  intros Hl h Hn. unfold Heap.append. repeat case_match; cbn [fst snd]; try done.
  split; [by apply take_insert_ge|]. rewrite length_insert. done.
Qed.

Lemma keeps_when (b : bool) (m : Heap.M unit) :
  keeps n m anything -> keeps n (Heap.when b m) anything.
Proof. intros Hm. destruct b; [exact Hm | by apply keeps_ret]. Qed.

Lemma keeps_list_len (l : Heap.loc) : keeps n (Heap.list_len l) anything.
Proof.
  unfold Heap.list_len. eapply keeps_bind; [apply keeps_read_list|].
  intros items _. by apply keeps_ret.
Qed.

Lemma keeps_for_loop (body : Heap.loc -> Heap.M unit) (items : list Heap.loc) :
  (forall x, keeps n (body x) anything) -> keeps n (Heap.for_loop body items) anything.
Proof.
  intros Hb. induction items as [|x items IH]; cbn [Heap.for_loop].
  - by apply keeps_ret.
  - eapply keeps_bind; [apply Hb|]. intros _ _. exact IH.
Qed.

Lemma keeps_read_dicts (items : list Heap.loc) : keeps n (Heap.read_dicts items) anything.
Proof.
  induction items as [|x items IH]; cbn [Heap.read_dicts].
  - by apply keeps_ret.
  - eapply keeps_bind; [apply keeps_read_dict|]. intros r _.
    eapply keeps_bind; [exact IH|]. intros rs _. by apply keeps_ret.
Qed.

Lemma keeps_read_records (l : Heap.loc) : keeps n (Heap.read_records l) anything.
Proof.
  unfold Heap.read_records. eapply keeps_bind; [apply keeps_read_list|].
  intros items _. apply keeps_read_dicts.
Qed.

Lemma keeps_comprehension (p : resource -> result bool) (src : Heap.loc) :
  keeps n (Heap.comprehension p src) anything.
Proof.
  unfold Heap.comprehension.
  eapply keeps_bind; [apply keeps_read_list|]. intros items _.
  eapply keeps_bind; [apply keeps_alloc|]. intros new Hnew.
  eapply keeps_bind; [|intros _ _; by apply keeps_ret].
  apply keeps_for_loop. intros item.
  eapply keeps_bind; [apply keeps_read_dict|]. intros r _.
  eapply keeps_bind; [apply keeps_lift|]. intros b _.
  destruct b; [by apply keeps_append | by apply keeps_ret].
Qed.

Lemma keeps_filter_by_field (k : string) (v : option string) (l : Heap.loc) :
  keeps n (Heap.filter_by_field k v l) anything.
Proof.
  unfold Heap.filter_by_field.
  destruct (PyStr.truthy_opt v); [apply keeps_comprehension | by apply keeps_ret].
Qed.

Lemma keeps_high_level_audit (now : datetime) (resources : Heap.loc) :
  keeps n (Heap.high_level_audit now resources) anything.
Proof.
  unfold Heap.high_level_audit.
  eapply keeps_bind; [apply keeps_read_records|]. intros rs _.
  eapply keeps_bind; [apply keeps_alloc|]. intros recently_added Ha.
  eapply keeps_bind; [apply keeps_alloc|]. intros recently_checked Hc.
  eapply keeps_bind; [apply keeps_alloc|]. intros never_checked Hn.
  eapply keeps_bind; [apply keeps_alloc|]. intros outdated Ho.
  eapply keeps_bind; [apply keeps_read_list|]. intros items _.
  eapply keeps_bind.
  { apply keeps_for_loop. intros resource. unfold Heap.classify.
    eapply keeps_bind; [apply keeps_read_dict|]. intros r _.
    eapply keeps_bind; [apply keeps_lift|]. intros date_added _.
    eapply keeps_bind.
    { destruct date_added;
        [by apply keeps_when, keeps_append | by apply keeps_ret]. }
    intros _ _.
    eapply keeps_bind; [apply keeps_lift|]. intros last_checked _.
    destruct last_checked; [|by apply keeps_append].
    destruct (_ <=? 7); [by apply keeps_append|].
    by apply keeps_when, keeps_append. }
  intros _ _.
  repeat (eapply keeps_bind; [apply keeps_list_len|]; intros ? _).
  by apply keeps_ret.
Qed.

Lemma keeps_apply_filters (now : datetime) (resources : Heap.loc) (f : filters) :
  keeps n (Heap.apply_filters now resources f) anything.
Proof.
  unfold Heap.apply_filters.
  repeat (eapply keeps_bind; [apply keeps_filter_by_field|]; intros ? _).
  eapply keeps_bind.
  { destruct (inactive_only f); [apply keeps_comprehension | by apply keeps_ret]. }
  intros ? _.
  eapply keeps_bind.
  { destruct (no_license_only f); [apply keeps_comprehension | by apply keeps_ret]. }
  intros filtered _.
  destruct (recent_days f) as [days|]; [|by apply keeps_ret].
  eapply keeps_bind; [apply keeps_lift|]. intros ? _. apply keeps_comprehension.
Qed.

Lemma keeps_scoped_audit (now : datetime) (resources : Heap.loc) (f : filters) :
  keeps n (Heap.scoped_audit now resources f) anything.
Proof.
  unfold Heap.scoped_audit.
  eapply keeps_bind; [apply keeps_apply_filters|]. intros filtered _.
  eapply keeps_bind; [apply keeps_list_len|]. intros matched _.
  eapply keeps_bind; [apply keeps_alloc|]. intros out Hout.
  eapply keeps_bind; [apply keeps_read_list|]. intros items _.
  eapply keeps_bind; [|intros _ _; by apply keeps_ret].
  apply keeps_for_loop. intros resource. unfold Heap.add_entry.
  eapply keeps_bind; [apply keeps_read_dict|]. intros r _.
  eapply keeps_bind; [apply keeps_lift|]. intros e _.
  eapply keeps_bind; [apply keeps_alloc|]. intros entry _.
  by apply keeps_append.
Qed.
End Frame.

Lemma keeps_lookup {A : Type} (m : Heap.M A) (h : Heap.heap) (l : Heap.loc) (o : Heap.obj) :
  keeps (List.length h) m anything ->
  h !! l = Some o -> snd (m h) !! l = Some o.
Proof.
  intros Hm Hl. destruct (Hm h ltac:(lia)) as [Ht _].
  pose proof (lookup_lt_Some _ _ _ Hl) as Hlt.
  rewrite <- (lookup_take_lt (snd (m h)) (List.length h) l Hlt), Ht.
  by rewrite lookup_take_lt.
Qed.

Lemma records_at_mono (h h' : Heap.heap) (l : Heap.loc) (rs : list resource) :
  (forall i o, h !! i = Some o -> h' !! i = Some o) ->
  Heap.records_at h l = Some rs -> Heap.records_at h' l = Some rs.
Proof.
  intros Hsub. unfold Heap.records_at.
  destruct (h !! l) as [[items| |]|] eqn:El; try discriminate.
  rewrite (Hsub _ _ El). rewrite !mapM_Some. intros Hall.
  eapply Forall2_impl; [exact Hall|]. intros i r Hi. cbn beta in *.
  destruct (h !! i) as [o|] eqn:Ei; [|discriminate].
  by rewrite (Hsub _ _ Ei).
Qed.

(** C10: neither audit changes its input. Whatever the store and the
    filters, every object of the store before the call is the same object
    after it, whether the call returns or raises; so the list handed to the
    audit holds the same records, with the same fields, as before. *)
Theorem audits_leave_input
    (now : datetime) (h : Heap.heap) (resources : Heap.loc) (f : filters)
    (rs : list resource) :
  Heap.records_at h resources = Some rs ->
  Heap.records_at (snd (Heap.high_level_audit now resources h)) resources = Some rs /\
  Heap.records_at (snd (Heap.scoped_audit now resources f h)) resources = Some rs /\
  (forall l o,
      h !! l = Some o ->
      snd (Heap.high_level_audit now resources h) !! l = Some o /\
      snd (Heap.scoped_audit now resources f h) !! l = Some o).
Proof.
  intros Hrs.
  assert (forall l o, h !! l = Some o ->
                      snd (Heap.high_level_audit now resources h) !! l = Some o) as Hh
    by (intros l o; apply keeps_lookup, keeps_high_level_audit).
  assert (forall l o, h !! l = Some o ->
                      snd (Heap.scoped_audit now resources f h) !! l = Some o) as Hs
    by (intros l o; apply keeps_lookup, keeps_scoped_audit).
  split; [exact (records_at_mono _ _ _ _ Hh Hrs)|].
  split; [exact (records_at_mono _ _ _ _ Hs Hrs)|].
  intros l o Hl. split; [by apply Hh | by apply Hs].
Qed.

Lemma audits_leave_input_witness :
  Heap.records_at
    (snd (Heap.high_level_audit sample_now 3%nat sample_store)) 3%nat
  = Some [tool_a; tool_b; tool_c] /\
  Heap.records_at
    (snd (Heap.scoped_audit sample_now 3%nat (only_filter ByCategory "tooling")
            sample_store)) 3%nat
  = Some [tool_a; tool_b; tool_c] /\
  (forall l o,
      sample_store !! l = Some o ->
      snd (Heap.high_level_audit sample_now 3%nat sample_store) !! l = Some o /\
      snd (Heap.scoped_audit sample_now 3%nat (only_filter ByCategory "tooling")
             sample_store) !! l = Some o).
Proof.
  apply (audits_leave_input sample_now sample_store 3%nat
           (only_filter ByCategory "tooling") [tool_a; tool_b; tool_c]).
  reflexivity.
Defined.

(** ** The audits on the store compute what the audits on values compute *)

Lemma records_at_holds (h : Heap.heap) (l : Heap.loc) (rs : list resource) :
  Heap.records_at h l = Some rs <->
  exists items, h !! l = Some (Heap.OList items) /\ holds h items rs.
Proof.
  unfold Heap.records_at, holds. split.
  - destruct (h !! l) as [[items| |]|]; try discriminate.
    rewrite mapM_Some. intros Hall. exists items. split; [done|].
    eapply Forall2_impl; [exact Hall|]. intros i r Hi. cbn beta in Hi.
    destruct (h !! i) as [[| |]|]; congruence.
  - intros [items [-> Hall]]. rewrite mapM_Some.
    eapply Forall2_impl; [exact Hall|]. intros i r Hi. cbn beta. by rewrite Hi.
Qed.

Lemma infos_at_holds (h : Heap.heap) (l : Heap.loc) (es : list resource_info) :
  (exists items, h !! l = Some (Heap.OList items) /\ holds_infos h items es) ->
  Heap.infos_at h l = Some es.
Proof.
  unfold Heap.infos_at, holds_infos. intros [items [-> Hall]]. rewrite mapM_Some.
  eapply Forall2_impl; [exact Hall|]. intros i r Hi. cbn beta. by rewrite Hi.
Qed.

Lemma holds_mono (h h' : Heap.heap) (items : list Heap.loc) (rs : list resource) :
  (forall i o, h !! i = Some o -> h' !! i = Some o) ->
  holds h items rs -> holds h' items rs.
Proof. intros Hsub Hall. eapply Forall2_impl; [exact Hall|]. intros i r. apply Hsub. Qed.

Lemma holds_app (h k : Heap.heap) (items : list Heap.loc) (rs : list resource) :
  holds h items rs -> holds (h ++ k) items rs.
Proof. apply holds_mono. intros i o. apply lookup_app_l_Some. Qed.

Lemma lookup_bucket (h bs : Heap.heap) (k : nat) :
  (h ++ bs) !! (List.length h + k)%nat = bs !! k.
Proof. rewrite lookup_app_r by lia. f_equal. lia. Qed.

Lemma run_read_list (h : Heap.heap) (l : Heap.loc) (items : list Heap.loc) :
  h !! l = Some (Heap.OList items) -> Heap.read_list l h = (Ok items, h).
Proof. intros H. unfold Heap.read_list. by rewrite H. Qed.

Lemma run_read_dict (h : Heap.heap) (l : Heap.loc) (r : resource) :
  h !! l = Some (Heap.ODict r) -> Heap.read_dict l h = (Ok r, h).
Proof. intros H. unfold Heap.read_dict. by rewrite H. Qed.

Lemma run_bind {A B : Type} (m : Heap.M A) (k : A -> Heap.M B)
      (h h' : Heap.heap) (a : A) :
  m h = (Ok a, h') -> Heap.bind m k h = k a h'.
Proof. intros H. unfold Heap.bind. by rewrite H. Qed.

Lemma run_bind_raise {A B : Type} (m : Heap.M A) (k : A -> Heap.M B)
      (h h' : Heap.heap) (e : exn) :
  m h = (Raise e, h') -> Heap.bind m k h = (Raise e, h').
Proof. intros H. unfold Heap.bind. by rewrite H. Qed.

Lemma run_read_dicts (h : Heap.heap) (items : list Heap.loc) (rs : list resource) :
  holds h items rs -> Heap.read_dicts items h = (Ok rs, h).
Proof.
  induction 1 as [|i r items rs Hi _ IH]; cbn [Heap.read_dicts]; [done|].
  rewrite (run_bind _ _ _ _ _ (run_read_dict _ _ _ Hi)).
  by rewrite (run_bind _ _ _ _ _ IH).
Qed.

Lemma run_read_records (h : Heap.heap) (l : Heap.loc) (rs : list resource) :
  Heap.records_at h l = Some rs -> Heap.read_records l h = (Ok rs, h).
Proof.
  rewrite records_at_holds. intros [items [Hl Hall]]. unfold Heap.read_records.
  rewrite (run_bind _ _ _ _ _ (run_read_list _ _ _ Hl)).
  by apply run_read_dicts.
Qed.

Lemma run_list_len (h : Heap.heap) (l : Heap.loc) (items : list Heap.loc) :
  h !! l = Some (Heap.OList items) -> Heap.list_len l h = (Ok (len items), h).
Proof.
  intros Hl. unfold Heap.list_len.
  by rewrite (run_bind _ _ _ _ _ (run_read_list _ _ _ Hl)).
Qed.

Lemma run_append (h bs : Heap.heap) (k : nat) (xs : list Heap.loc) (x : Heap.loc) :
  bs !! k = Some (Heap.OList xs) ->
  Heap.append (List.length h + k)%nat x (h ++ bs)
  = (Ok tt, h ++ <[k := Heap.OList (xs ++ [x])]> bs).
Proof.
  intros Hk. unfold Heap.append. rewrite lookup_bucket, Hk.
  by rewrite insert_app_r.
Qed.

Lemma run_append_last (h : Heap.heap) (xs : list Heap.loc) (x : Heap.loc) :
  Heap.append (List.length h) x (h ++ [Heap.OList xs])
  = (Ok tt, h ++ [Heap.OList (xs ++ [x])]).
Proof.
  pose proof (run_append h [Heap.OList xs] 0 xs x eq_refl) as H.
  by rewrite Nat.add_0_r in H.
Qed.

Lemma filter_r_pure {A : Type} (q : A -> bool) (l : list A) :
  filter_r (fun x => Ok (q x)) l = Ok (List.filter q l).
Proof.
  induction l as [|x l IH]; cbn [filter_r List.filter mbind result_bind]; [done|].
  rewrite IH. cbn [mbind result_bind]. by destruct (q x).
Qed.

(** The loop of a comprehension, started with [acc] already chosen. *)
Lemma comprehension_loop (p : resource -> result bool) (h : Heap.heap)
      (items : list Heap.loc) (rs : list resource) :
  holds h items rs ->
  forall acc,
    match filter_r p rs with
    | Ok rs' =>
        exists items',
          Heap.for_loop
            (fun item =>
               Heap.bind (Heap.read_dict item) (fun r =>
               Heap.bind (Heap.lift (p r)) (fun b : bool =>
               if b then Heap.append (List.length h) item else Heap.ret tt)))
            items (h ++ [Heap.OList acc])
          = (Ok tt, h ++ [Heap.OList (acc ++ items')]) /\
          holds h items' rs'
    | Raise e =>
        exists h',
          Heap.for_loop
            (fun item =>
               Heap.bind (Heap.read_dict item) (fun r =>
               Heap.bind (Heap.lift (p r)) (fun b : bool =>
               if b then Heap.append (List.length h) item else Heap.ret tt)))
            items (h ++ [Heap.OList acc])
          = (Raise e, h')
    end.
Proof.
  induction 1 as [|i r items rs Hi Hall IH]; intros acc;
    cbn [filter_r Heap.for_loop mbind result_bind].
  - exists []. rewrite app_nil_r. split; [done | constructor].
  - pose proof (run_read_dict _ _ _ (lookup_app_l_Some _ [Heap.OList acc] _ _ Hi)) as Hr.
    destruct (p r) as [b|e] eqn:Ep; cbn [mbind result_bind].
    + specialize (IH (if b then acc ++ [i] else acc)).
      assert (Heap.bind (Heap.read_dict i) (fun r0 =>
               Heap.bind (Heap.lift (p r0)) (fun b0 : bool =>
               if b0 then Heap.append (List.length h) i else Heap.ret tt))
               (h ++ [Heap.OList acc])
              = (Ok tt, h ++ [Heap.OList (if b then acc ++ [i] else acc)])) as Hstep.
      { rewrite (run_bind _ _ _ _ _ Hr). unfold Heap.bind at 1, Heap.lift.
        rewrite Ep. destruct b; [apply run_append_last | reflexivity]. }
      rewrite (run_bind _ _ _ _ _ Hstep).
      destruct (filter_r p rs) as [rs'|e]; cbn [mbind result_bind].
      * destruct IH as [items' [Hrun Hh]]. destruct b.
        -- exists (i :: items'). rewrite Hrun, <- app_assoc. split; [done|].
           by constructor.
        -- exists items'. split; assumption.
      * exact IH.
    + exists (h ++ [Heap.OList acc]). apply run_bind_raise.
      rewrite (run_bind _ _ _ _ _ Hr). unfold Heap.bind at 1, Heap.lift.
      by rewrite Ep.
Qed.

Lemma records_at_snoc (h : Heap.heap) (items : list Heap.loc) (rs : list resource) :
  holds h items rs ->
  Heap.records_at (h ++ [Heap.OList items]) (List.length h) = Some rs.
Proof.
  intros Hall. apply records_at_holds. exists items.
  split; [by apply list_lookup_middle | by apply holds_app].
Qed.

(** What a comprehension does: it returns a new list object holding the
    records chosen by [p], next to an unchanged store; or it raises what [p]
    raises. *)
Lemma run_comprehension (p : resource -> result bool) (h : Heap.heap)
      (src : Heap.loc) (rs : list resource) :
  Heap.records_at h src = Some rs ->
  match filter_r p rs with
  | Ok rs' =>
      exists items',
        Heap.comprehension p src h
        = (Ok (List.length h), h ++ [Heap.OList items']) /\
        holds h items' rs'
  | Raise e => exists h', Heap.comprehension p src h = (Raise e, h')
  end.
Proof.
  rewrite records_at_holds. intros [items [Hl Hall]]. unfold Heap.comprehension.
  rewrite (run_bind _ _ _ _ _ (run_read_list _ _ _ Hl)).
  rewrite (run_bind (Heap.alloc (Heap.OList [])) _ h
             (h ++ [Heap.OList []]) (List.length h) eq_refl).
  cbn beta.
  pose proof (comprehension_loop p h items rs Hall []) as Hloop.
  destruct (filter_r p rs) as [rs'|e].
  - destruct Hloop as [items' [Hrun Hh]]. exists items'.
    rewrite (run_bind _ _ _ _ _ Hrun). split; [reflexivity | exact Hh].
  - destruct Hloop as [h' Hrun]. exists h'.
    by rewrite (run_bind_raise _ _ _ _ _ Hrun).
Qed.

Lemma run_lift {A B : Type} (a : A) (k : A -> Heap.M B) (h : Heap.heap) :
  Heap.bind (Heap.lift (Ok a)) k h = k a h.
Proof. reflexivity. Qed.

Lemma run_ret {A B : Type} (a : A) (k : A -> Heap.M B) (h : Heap.heap) :
  Heap.bind (Heap.ret a) k h = k a h.
Proof. reflexivity. Qed.

(** Runs the appends and the tests of one turn of a loop on lists kept at
    the end of the store. *)
Ltac run_heap :=
  repeat first
    [ rewrite run_lift
    | rewrite run_ret
    | match goal with
      | |- context [Heap.bind (Heap.append (List.length ?h + ?k)%nat ?x) _ (?h ++ ?bs)] =>
          rewrite (run_bind _ _ _ _ _ (run_append h bs k _ x eq_refl))
      end
    | match goal with
      | |- context [Heap.append (List.length ?h + ?k)%nat ?x (?h ++ ?bs)] =>
          rewrite (run_append h bs k _ x eq_refl)
      end
    | progress cbn [insert list_insert Heap.when]
    | match goal with
      | |- context [?x <=? ?y] => destruct (Z.leb_spec x y)
      | |- context [?x <? ?y] => destruct (Z.ltb_spec x y)
      end ].

Lemma run_classify (now : datetime) (h : Heap.heap) (i : Heap.loc) (r : resource)
      (a c nv o : list Heap.loc) :
  h !! i = Some (Heap.ODict r) ->
  Heap.classify now (List.length h + 0) (List.length h + 1) (List.length h + 2)
    (List.length h + 3) i
    (h ++ [Heap.OList a; Heap.OList c; Heap.OList nv; Heap.OList o])
  = (Ok tt,
     h ++ [Heap.OList (a ++ pick (added_recently now r) i);
           Heap.OList (c ++ pick (checked_recently now r) i);
           Heap.OList (nv ++ pick (not_checked r) i);
           Heap.OList (o ++ pick (check_outdated now r) i)]).
Proof.
  intros Hi. unfold Heap.classify.
  rewrite (run_bind _ _ _ _ _ (run_read_dict _ _ _ (lookup_app_l_Some _ _ _ _ Hi))).
  rewrite !parse_field.
  unfold added_recently, checked_recently, not_checked, check_outdated.
  destruct (field_date "Date Added" r) as [da|];
    destruct (field_date "Last Checked" r) as [lc|];
    run_heap;
    repeat match goal with
    | |- context [bool_decide ?P] => destruct (bool_decide_reflect P)
    end; try lia;
    cbn [pick]; rewrite ?app_nil_r; reflexivity.
Qed.

Lemma len_snoc_pick {A : Type} (l : list A) (b : bool) (x : A) :
  len (l ++ pick b x) = len l + Z.b2z b.
Proof. rewrite len_app. destruct b; reflexivity. Qed.

Lemma run_classify_loop (now : datetime) (h : Heap.heap)
      (la lc ln lo : Heap.loc) (items : list Heap.loc) (rs : list resource) :
  la = (List.length h + 0)%nat -> lc = (List.length h + 1)%nat ->
  ln = (List.length h + 2)%nat -> lo = (List.length h + 3)%nat ->
  holds h items rs ->
  forall a c nv o,
  exists a' c' nv' o',
    Heap.for_loop (Heap.classify now la lc ln lo) items
      (h ++ [Heap.OList a; Heap.OList c; Heap.OList nv; Heap.OList o])
    = (Ok tt, h ++ [Heap.OList a'; Heap.OList c'; Heap.OList nv'; Heap.OList o']) /\
    len a' = len a + len (List.filter (added_recently now) rs) /\
    len c' = len c + len (List.filter (checked_recently now) rs) /\
    len nv' = len nv + len (List.filter not_checked rs) /\
    len o' = len o + len (List.filter (check_outdated now) rs).
Proof.
  intros -> -> -> ->.
  induction 1 as [|i r items rs Hi _ IH]; intros a c nv o; cbn [Heap.for_loop].
  - exists a, c, nv, o. cbn [List.filter]. change (len (@nil resource)) with 0.
    repeat split; lia.
  - rewrite (run_bind _ _ _ _ _ (run_classify now h i r a c nv o Hi)).
    destruct (IH (a ++ pick (added_recently now r) i)
                 (c ++ pick (checked_recently now r) i)
                 (nv ++ pick (not_checked r) i)
                 (o ++ pick (check_outdated now r) i))
      as (a' & c' & nv' & o' & Hrun & Ha & Hc & Hn & Ho).
    exists a', c', nv', o'. split; [exact Hrun|].
    rewrite len_snoc_pick in Ha, Hc, Hn, Ho. rewrite !len_filter_cons.
    repeat split; lia.
Qed.

(** On a store where [resources] is the list of the records [rs], the
    high-level audit returns what it returns on [rs]. *)
Theorem store_high_level_audit (now : datetime) (h : Heap.heap)
        (resources : Heap.loc) (rs : list resource) :
  Heap.records_at h resources = Some rs ->
  fst (Heap.high_level_audit now resources h) = high_level_audit now rs.
Proof.
  intros Hrs. unfold Heap.high_level_audit.
  rewrite (run_bind _ _ _ _ _ (run_read_records _ _ _ Hrs)). cbn beta zeta.
  apply records_at_holds in Hrs as [items [Hl Hall]].
  rewrite (run_bind (Heap.alloc (Heap.OList [])) _ h
             (h ++ [Heap.OList []]) (List.length h) eq_refl).
  remember (List.length h) as la eqn:Hla. cbn beta.
  rewrite (run_bind (Heap.alloc (Heap.OList [])) _ (h ++ [Heap.OList []])
             ((h ++ [Heap.OList []]) ++ [Heap.OList []])
             (List.length (h ++ [Heap.OList []])) eq_refl).
  remember (List.length (h ++ [Heap.OList []])) as lc eqn:Hlc. cbn beta.
  rewrite (run_bind (Heap.alloc (Heap.OList [])) _
             ((h ++ [Heap.OList []]) ++ [Heap.OList []])
             (((h ++ [Heap.OList []]) ++ [Heap.OList []]) ++ [Heap.OList []])
             (List.length ((h ++ [Heap.OList []]) ++ [Heap.OList []])) eq_refl).
  remember (List.length ((h ++ [Heap.OList []]) ++ [Heap.OList []])) as ln eqn:Hln.
  cbn beta.
  rewrite (run_bind (Heap.alloc (Heap.OList [])) _
             (((h ++ [Heap.OList []]) ++ [Heap.OList []]) ++ [Heap.OList []])
             ((((h ++ [Heap.OList []]) ++ [Heap.OList []]) ++ [Heap.OList []])
                ++ [Heap.OList []])
             (List.length (((h ++ [Heap.OList []]) ++ [Heap.OList []])
                             ++ [Heap.OList []])) eq_refl).
  remember (List.length (((h ++ [Heap.OList []]) ++ [Heap.OList []])
                           ++ [Heap.OList []])) as lo eqn:Hlo.
  cbn beta.
  repeat rewrite List.length_app in Hlc.
  repeat rewrite List.length_app in Hln.
  repeat rewrite List.length_app in Hlo.
  cbn [List.length] in Hlc, Hln, Hlo.
  rewrite <- !app_assoc. cbn [app].
  rewrite (run_bind _ _ _ _ _
             (run_read_list _ _ _ (lookup_app_l_Some _ _ _ _ Hl))).
  destruct (run_classify_loop now h la lc ln lo items rs
              ltac:(lia) ltac:(lia) ltac:(lia) ltac:(lia) Hall [] [] [] [])
    as (a' & c' & nv' & o' & Hrun & Ha & Hc & Hn & Ho).
  rewrite (run_bind _ _ _ _ _ Hrun). cbn beta zeta.
  assert (la = (List.length h + 0)%nat) as -> by lia.
  assert (lc = (List.length h + 1)%nat) as -> by lia.
  assert (ln = (List.length h + 2)%nat) as -> by lia.
  assert (lo = (List.length h + 3)%nat) as -> by lia.
  set (bs := [Heap.OList a'; Heap.OList c'; Heap.OList nv'; Heap.OList o']).
  pose proof (lookup_bucket h bs 0) as H0. pose proof (lookup_bucket h bs 1) as H1.
  pose proof (lookup_bucket h bs 2) as H2. pose proof (lookup_bucket h bs 3) as H3.
  cbn in H0, H1, H2, H3.
  rewrite (run_bind _ _ _ _ _ (run_list_len _ _ _ H0)).
  rewrite (run_bind _ _ _ _ _ (run_list_len _ _ _ H1)).
  rewrite (run_bind _ _ _ _ _ (run_list_len _ _ _ H2)).
  rewrite (run_bind _ _ _ _ _ (run_list_len _ _ _ H3)).
  cbn [Heap.ret fst]. rewrite high_level_audit_ok, !sum_ones_filter.
  change (len (@nil nat)) with 0 in Ha, Hc, Hn, Ho.
  rewrite Ha, Hc, Hn, Ho, !Z.add_0_l. reflexivity.
Qed.

(** A comprehension whose condition does not raise. *)
Lemma run_comprehension_pure (q : resource -> bool) (h : Heap.heap)
      (src : Heap.loc) (rs : list resource) :
  Heap.records_at h src = Some rs ->
  exists l' h',
    Heap.comprehension (fun r => Ok (q r)) src h = (Ok l', h') /\
    Heap.records_at h' l' = Some (List.filter q rs).
Proof.
  intros Hrs. pose proof (run_comprehension (fun r => Ok (q r)) h src rs Hrs) as H.
  rewrite filter_r_pure in H. destruct H as [items' [Hrun Hh]].
  eexists. eexists. split; [exact Hrun|]. by apply records_at_snoc.
Qed.

Lemma run_optional (b : bool) (q : resource -> bool) (h : Heap.heap)
      (src : Heap.loc) (rs : list resource) :
  Heap.records_at h src = Some rs ->
  exists l' h',
    (if b then Heap.comprehension (fun r => Ok (q r)) src else Heap.ret src) h
    = (Ok l', h') /\
    Heap.records_at h' l' = Some (if b then List.filter q rs else rs).
Proof.
  intros Hrs. destruct b; [by apply run_comprehension_pure|].
  exists src, h. split; [reflexivity | exact Hrs].
Qed.

Lemma run_filter_by_field (k : string) (v : option string) (h : Heap.heap)
      (src : Heap.loc) (rs : list resource) :
  Heap.records_at h src = Some rs ->
  exists l' h',
    Heap.filter_by_field k v src h = (Ok l', h') /\
    Heap.records_at h' l' = Some (filter_by_field k v rs).
Proof.
  unfold Heap.filter_by_field, filter_by_field.
  apply (run_optional (PyStr.truthy_opt v) (field_matches k (default "" v))).
Qed.

(** The filters on the store return a list object holding what the filters
    on values return, or raise as they do. *)
Lemma run_apply_filters (now : datetime) (h : Heap.heap) (resources : Heap.loc)
      (f : filters) (rs : list resource) :
  Heap.records_at h resources = Some rs ->
  match apply_filters now rs f with
  | Ok rs' =>
      exists l' h',
        Heap.apply_filters now resources f h = (Ok l', h') /\
        Heap.records_at h' l' = Some rs'
  | Raise e => exists h', Heap.apply_filters now resources f h = (Raise e, h')
  end.
Proof.
  intros H0. unfold Heap.apply_filters, apply_filters. cbn zeta.
  destruct (run_filter_by_field "Category" (category f) _ _ _ H0)
    as (l1 & h1 & R1 & H1).
  rewrite (run_bind _ _ _ _ _ R1).
  destruct (run_filter_by_field "Sub-Category" (sub_category f) _ _ _ H1)
    as (l2 & h2 & R2 & H2).
  rewrite (run_bind _ _ _ _ _ R2).
  destruct (run_filter_by_field "Author Name" (author f) _ _ _ H2)
    as (l3 & h3 & R3 & H3).
  rewrite (run_bind _ _ _ _ _ R3).
  destruct (run_filter_by_field "License" (license_filter f) _ _ _ H3)
    as (l4 & h4 & R4 & H4).
  rewrite (run_bind _ _ _ _ _ R4).
  destruct (run_optional (inactive_only f) (fun r => negb (is_active r)) _ _ _ H4)
    as (l5 & h5 & R5 & H5).
  rewrite (run_bind _ _ _ _ _ R5).
  destruct (run_optional (no_license_only f) lacks_license _ _ _ H5)
    as (l6 & h6 & R6 & H6).
  rewrite (run_bind _ _ _ _ _ R6).
  destruct (recent_days f) as [days|].
  - destruct (sub_timedelta_days now days) as [cutoff|e]; cbn [mbind result_bind].
    + rewrite run_lift.
      pose proof (run_comprehension (added_since cutoff) _ _ _ H6) as H7.
      destruct (filter_r (added_since cutoff) _) as [rs'|e].
      * destruct H7 as [items' [R7 Hh]]. eexists. eexists.
        split; [exact R7 | by apply records_at_snoc].
      * exact H7.
    + exists h6. reflexivity.
  - exists l6, h6. split; [reflexivity | exact H6].
Qed.

Lemma for_loop_app (body : Heap.loc -> Heap.M unit) (l1 l2 : list Heap.loc)
      (h : Heap.heap) :
  Heap.for_loop body (l1 ++ l2) h
  = Heap.bind (Heap.for_loop body l1) (fun _ => Heap.for_loop body l2) h.
Proof.
  revert h. induction l1 as [|x l1 IH]; intros h; cbn [app Heap.for_loop]; [done|].
  unfold Heap.bind in *. destruct (body x h) as [[[]|e] h']; [apply IH | reflexivity].
Qed.

Lemma run_add_entry (now : datetime) (out x : Heap.loc) (r : resource)
      (e : resource_info) (h : Heap.heap) (locs : list Heap.loc) :
  h !! x = Some (Heap.ODict r) ->
  describe now r = Ok e ->
  h !! out = Some (Heap.OList locs) ->
  Heap.add_entry now out x h
  = (Ok tt, <[out := Heap.OList (locs ++ [List.length h])]> (h ++ [Heap.OInfo e])).
Proof.
  intros Hx He Hout. unfold Heap.add_entry.
  rewrite (run_bind _ _ _ _ _ (run_read_dict _ _ _ Hx)), He, run_lift.
  rewrite (run_bind (Heap.alloc (Heap.OInfo e)) _ h
             (h ++ [Heap.OInfo e]) (List.length h) eq_refl).
  unfold Heap.append. by rewrite (lookup_app_l_Some _ _ _ _ Hout).
Qed.

(** The last loop of the scoped audit: the list at [out] ends up holding
    one entry per record, in order. *)
Lemma run_entries (now : datetime) (h0 h1 : Heap.heap) (out : Heap.loc)
      (items : list Heap.loc) :
  h0 !! out = None ->
  (forall i o, h0 !! i = Some o -> h1 !! i = Some o) ->
  h1 !! out = Some (Heap.OList []) ->
  forall rs,
    holds h0 items rs ->
    exists hk locs es,
      Heap.for_loop (Heap.add_entry now out) items h1 = (Ok tt, hk) /\
      hk !! out = Some (Heap.OList locs) /\
      holds_infos hk locs es /\
      Forall2 (fun e r => describe now r = Ok e) es rs /\
      (forall i o, h0 !! i = Some o -> hk !! i = Some o).
Proof.
  intros Hfree Hsub Hout.
  induction items as [|x items IH] using rev_ind; intros rs Hall.
  - apply Forall2_nil_inv_l in Hall as ->.
    exists h1, [], []. repeat split; try done; constructor.
  - apply Forall2_app_inv_l in Hall as (rs1 & rs2 & Hall1 & Hall2 & ->).
    apply Forall2_cons_inv_l in Hall2 as (r & rs3 & Hx & Hnil & ->).
    apply Forall2_nil_inv_l in Hnil as ->.
    destruct (IH rs1 Hall1) as (hk & locs & es & Hrun & Hk & Hes & Hd & Hsubk).
    destruct (describe_total now r) as [e He].
    rewrite for_loop_app, (run_bind _ _ _ _ _ Hrun). cbn [Heap.for_loop].
    rewrite (run_bind _ _ _ _ _ (run_add_entry now out x r e hk locs
                                   (Hsubk _ _ Hx) He Hk)).
    pose proof (lookup_lt_Some _ _ _ Hk) as Hlt.
    assert (forall i o, i <> out -> hk !! i = Some o ->
              <[out := Heap.OList (locs ++ [List.length hk])]>
                (hk ++ [Heap.OInfo e]) !! i = Some o) as Hkeep.
    { intros i o Hne Hi. rewrite list_lookup_insert_ne by done.
      by apply lookup_app_l_Some. }
    eexists. exists (locs ++ [List.length hk]), (es ++ [e]).
    split; [reflexivity|]. split.
    { apply list_lookup_insert_eq. rewrite List.length_app. lia. }
    split.
    { apply Forall2_app.
      - eapply Forall2_impl; [exact Hes|]. intros i e' Hi. cbn beta in *.
        apply Hkeep; [|exact Hi]. intros ->. congruence.
      - constructor; [|constructor].
        rewrite list_lookup_insert_ne by lia. by apply list_lookup_middle. }
    split.
    { apply Forall2_app; [exact Hd|]. constructor; [exact He | constructor]. }
    intros i o Hi. apply Hkeep; [|by apply Hsubk]. intros ->. congruence.
Qed.

Lemma describe_unique (now : datetime) (rs : list resource) :
  forall es es',
    Forall2 (fun e r => describe now r = Ok e) es rs ->
    Forall2 (fun e r => describe now r = Ok e) es' rs ->
    es = es'.
Proof.
  induction rs as [|r rs IH]; intros es es' H H'.
  - apply Forall2_nil_inv_r in H as ->. by apply Forall2_nil_inv_r in H' as ->.
  - apply Forall2_cons_inv_r in H as (e & t & He & Ht & ->).
    apply Forall2_cons_inv_r in H' as (e' & t' & He' & Ht' & ->).
    f_equal; [congruence | by apply IH].
Qed.

(** On a store where [resources] is the list of the records [rs], the
    scoped audit returns what it returns on [rs], its entries being the
    objects of a new list; and it raises what it raises on [rs]. *)
Theorem store_scoped_audit (now : datetime) (h : Heap.heap) (src : Heap.loc)
        (f : filters) (rs : list resource) :
  Heap.records_at h src = Some rs ->
  match scoped_audit now rs f with
  | Ok d =>
      exists out,
        fst (Heap.scoped_audit now src f h)
        = Ok {| Heap.ref_filter_criteria := filter_criteria d;
                Heap.ref_matched_count := matched_count d;
                Heap.ref_resources := out |} /\
        Heap.infos_at (snd (Heap.scoped_audit now src f h)) out
        = Some (resources d)
  | Raise e => fst (Heap.scoped_audit now src f h) = Raise e
  end.
Proof.
  intros Hrs. pose proof (run_apply_filters now h src f rs Hrs) as Hf.
  unfold scoped_audit, Heap.scoped_audit.
  destruct (apply_filters now rs f) as [rs'|e]; cbn [mbind result_bind].
  - destruct Hf as (l' & h' & Rf & Hl').
    destruct (describe_all now rs' []) as [es [Hes Hall]].
    rewrite Hes. cbn [mbind result_bind app].
    rewrite (run_bind _ _ _ _ _ Rf).
    apply records_at_holds in Hl' as [items [Hl Hitems]].
    rewrite (run_bind _ _ _ _ _ (run_list_len _ _ _ Hl)).
    rewrite (run_bind (Heap.alloc (Heap.OList [])) _ h'
               (h' ++ [Heap.OList []]) (List.length h') eq_refl).
    rewrite (run_bind _ _ _ _ _
               (run_read_list _ _ _ (lookup_app_l_Some _ [Heap.OList []] _ _ Hl))).
    destruct (run_entries now h' (h' ++ [Heap.OList []]) (List.length h') items
                ltac:(by apply lookup_ge_None_2)
                ltac:(intros i o; apply lookup_app_l_Some)
                ltac:(by apply list_lookup_middle) rs' Hitems)
      as (hk & locs & es' & Hrun & Hk & Hinf & Hd & _).
    rewrite (run_bind _ _ _ _ _ Hrun). cbn [Heap.ret fst snd].
    exists (List.length h'). cbn [filter_criteria matched_count resources].
    split.
    + repeat f_equal. unfold len. f_equal. exact (Forall2_length _ _ _ Hitems).
    + apply infos_at_holds. exists locs. split; [exact Hk|].
      by rewrite (describe_unique now rs' es es' Hall Hd).
  - destruct Hf as [h' Rf]. by rewrite (run_bind_raise _ _ _ _ _ Rf).
Qed.

(** ** Where the run ends normally *)

Lemma added_since_ok (cutoff : Z) (r : resource) :
  added_since cutoff r =
  Ok (match field_date "Date Added" r with
      | Some d => cutoff <=? total_us d
      | None => false
      end).
Proof.
  unfold added_since. rewrite parse_field. cbn [mbind result_bind].
  destruct (field_date "Date Added" r); reflexivity.
Qed.

Lemma filter_r_total {A : Type} (p : A -> result bool) (q : A -> bool) (l : list A) :
  (forall x, p x = Ok (q x)) -> filter_r p l = Ok (List.filter q l).
Proof.
  intros Hp. induction l as [|x l IH]; cbn [filter_r List.filter]; [done|].
  rewrite Hp, IH. cbn [mbind result_bind]. by destruct (q x).
Qed.

Lemma apply_filters_total (now : datetime) (rs : list resource) (f : filters) :
  (forall n, recent_days f = Some n -> exists c, sub_timedelta_days now n = Ok c) ->
  exists filtered, apply_filters now rs f = Ok filtered.
Proof.
  intros Hc. unfold apply_filters. cbn zeta.
  destruct (recent_days f) as [n|]; [|eexists; reflexivity].
  destruct (Hc n eq_refl) as [c ->]. cbn [mbind result_bind].
  eexists. apply filter_r_total. intros r. apply added_since_ok.
Qed.

(** With the table in place the run ends with status 0, provided that the
    table has a record or the report is not the high-level text, and that
    the cut-off date of [--recent-days] is a date. *)
Lemma main_exit_status_zero (t : csv_table) (args : cli_args) (now : datetime) :
  rows t <> [] \/ arg_json args = true \/ has_scoped_filters args = true ->
  (forall n, arg_recent_days args = Some n ->
             exists c, sub_timedelta_days now n = Ok c) ->
  exit_code (main (Some t) args now) = 0.
Proof.
  intros Hcase Hc. unfold main. cbn [load_resources mbind result_bind].
  destruct (has_scoped_filters args) eqn:Hs.
  - destruct (apply_filters_total now (rows t) (filters_of_args args) Hc)
      as [filtered Hf].
    destruct (scoped_audit_lists _ _ _ _ Hf) as [d [-> _]].
    cbn [mbind result_bind]. by destruct (arg_json args).
  - rewrite high_level_audit_ok. cbn [mbind result_bind].
    destruct (arg_json args) eqn:Hj; [reflexivity|].
    destruct Hcase as [Hrows|[?|?]]; try discriminate.
    unfold print_high_level_report, truediv. cbn [total_resources active inactive].
    destruct (Z.eqb_spec (len (rows t)) 0) as [E|E].
    + destruct (rows t); [done|]. rewrite len_cons in E.
      pose proof (len_nonneg l). lia.
    + reflexivity.
Qed.

(** ** Frequency tables *)

Lemma table_get_incr (k j : string) (c : list (string * Z)) :
  table_get j (counter_incr k c)
  = if String.eqb k j then Some (default 0 (table_get k c) + 1) else table_get j c.
Proof.
  unfold table_get. induction c as [|[k' n] c IH]; cbn [counter_incr List.find fst snd].
  - destruct (String.eqb k j); reflexivity.
  - destruct (String.eqb_spec k k') as [<-|Hk]; cbn [List.find fst snd].
    + rewrite String.eqb_refl. destruct (String.eqb_spec k j) as [<-|Hj]; [|reflexivity].
      reflexivity.
    + destruct (String.eqb_spec k' k) as [E|_]; [congruence|].
      destruct (String.eqb_spec k' j) as [<-|Hj].
      * destruct (String.eqb_spec k k'); [congruence | reflexivity].
      * exact IH.
Qed.

Lemma occurrences_cons (j k : string) (keys : list string) :
  occurrences j (k :: keys) = Z.b2z (String.eqb j k) + occurrences j keys.
Proof. unfold occurrences. apply len_filter_cons. Qed.

Lemma occurrences_nonneg (j : string) (keys : list string) : 0 <= occurrences j keys.
Proof. apply len_nonneg. Qed.

Lemma table_get_fold (keys : list string) :
  forall (c : list (string * Z)) (j : string),
    table_get j (fold_left (fun c k => counter_incr k c) keys c)
    = if occurrences j keys =? 0 then table_get j c
      else Some (default 0 (table_get j c) + occurrences j keys).
Proof.
  induction keys as [|k keys IH]; intros c j; cbn [fold_left].
  - reflexivity.
  - rewrite IH, occurrences_cons, table_get_incr.
    pose proof (occurrences_nonneg j keys) as Hn.
    rewrite (String.eqb_sym j k).
    destruct (String.eqb_spec k j) as [->|Hk]; cbn [Z.b2z default].
    + destruct (Z.eqb_spec (occurrences j keys) 0) as [E0|H0];
        destruct (Z.eqb_spec (1 + occurrences j keys) 0); try lia;
        cbn [default]; unfold id; f_equal; lia.
    + rewrite Z.add_0_l. reflexivity.
Qed.

(** A counter maps each key to the number of its occurrences, and has no
    entry for a key that does not occur. *)
Lemma table_get_Counter (keys : list string) (j : string) :
  table_get j (Counter keys)
  = if occurrences j keys =? 0 then None else Some (occurrences j keys).
Proof.
  unfold Counter. rewrite table_get_fold. cbn [table_get List.find default].
  destruct (occurrences j keys =? 0); [reflexivity | f_equal; lia].
Qed.

Lemma keys_incr (k : string) (c : list (string * Z)) :
  map fst (counter_incr k c)
  = if bool_decide (k ∈ map fst c) then map fst c else map fst c ++ [k].
Proof.
  induction c as [|[k' n] c IH]; cbn [counter_incr map fst].
  - rewrite bool_decide_eq_false_2 by apply not_elem_of_nil. reflexivity.
  - destruct (String.eqb_spec k k') as [<-|Hk]; cbn [map fst].
    + rewrite bool_decide_eq_true_2 by (apply elem_of_cons; by left). reflexivity.
    + rewrite IH. destruct (bool_decide_reflect (k ∈ map fst c)) as [Hin|Hin].
      * rewrite bool_decide_eq_true_2 by (apply elem_of_cons; by right). reflexivity.
      * rewrite bool_decide_eq_false_2; [reflexivity|].
        rewrite elem_of_cons. intros [?|?]; congruence.
Qed.

Lemma keys_incr_NoDup (k : string) (c : list (string * Z)) :
  NoDup (map fst c) -> NoDup (map fst (counter_incr k c)).
Proof.
  intros Hc. rewrite keys_incr.
  destruct (bool_decide_reflect (k ∈ map fst c)) as [Hin|Hin]; [exact Hc|].
  apply NoDup_app. split; [exact Hc|]. split; [|apply NoDup_singleton].
  intros x Hx Hx'. apply list_elem_of_singleton in Hx' as ->. contradiction.
Qed.

Lemma keys_fold_NoDup (keys : list string) (c : list (string * Z)) :
  NoDup (map fst c) ->
  NoDup (map fst (fold_left (fun c k => counter_incr k c) keys c)).
Proof.
  revert c. induction keys as [|k keys IH]; intros c Hc; cbn [fold_left]; [exact Hc|].
  apply IH, keys_incr_NoDup, Hc.
Qed.

Lemma Counter_NoDup (keys : list string) : NoDup (map fst (Counter keys)).
Proof. apply keys_fold_NoDup. constructor. Qed.

Lemma table_sum_incr (k : string) (c : list (string * Z)) :
  table_sum (counter_incr k c) = table_sum c + 1.
Proof.
  induction c as [|[k' n] c IH]; cbn [counter_incr table_sum fold_right snd]; [lia|].
  destruct (String.eqb k k'); cbn [table_sum fold_right snd]; [lia|].
  fold (table_sum (counter_incr k c)). fold (table_sum c). lia.
Qed.

Lemma table_sum_fold (keys : list string) (c : list (string * Z)) :
  table_sum (fold_left (fun c k => counter_incr k c) keys c)
  = table_sum c + len keys.
Proof.
  revert c. induction keys as [|k keys IH]; intros c; cbn [fold_left].
  - rewrite len_nil. lia.
  - rewrite IH, table_sum_incr, len_cons. lia.
Qed.

Lemma table_sum_Counter (keys : list string) : table_sum (Counter keys) = len keys.
Proof. unfold Counter. rewrite table_sum_fold. reflexivity. Qed.

Lemma insert_desc_perm (x : string * Z) (l : list (string * Z)) :
  insert_desc x l ≡ₚ x :: l.
Proof.
  induction l as [|y l IH]; cbn [insert_desc]; [reflexivity|].
  destruct (snd x <=? snd y); [|reflexivity].
  rewrite IH. apply perm_swap.
Qed.

Lemma most_common_fold_perm (c acc : list (string * Z)) :
  fold_left (fun acc x => insert_desc x acc) c acc ≡ₚ acc ++ c.
Proof.
  revert acc. induction c as [|x c IH]; intros acc; cbn [fold_left].
  - by rewrite app_nil_r.
  - rewrite IH, insert_desc_perm. cbn [app]. apply Permutation_middle.
Qed.

Lemma most_common_perm (c : list (string * Z)) : most_common c ≡ₚ c.
Proof. unfold most_common. by rewrite most_common_fold_perm. Qed.

Lemma table_sum_perm (c c' : list (string * Z)) :
  c ≡ₚ c' -> table_sum c = table_sum c'.
Proof.
  induction 1 as [|x l l' _ IH|x y l|l l' l'' _ IH1 _ IH2];
    cbn [table_sum fold_right]; try fold (table_sum l); try fold (table_sum l');
    lia.
Qed.

Lemma insert_desc_sorted (x : string * Z) (l : list (string * Z)) :
  StronglySorted by_count_desc l -> StronglySorted by_count_desc (insert_desc x l).
Proof.
  induction 1 as [|y l Hl IH Hy]; cbn [insert_desc].
  - repeat constructor.
  - destruct (Z.leb_spec (snd x) (snd y)) as [Hxy|Hxy].
    + constructor; [exact IH|].
      rewrite insert_desc_perm. constructor; [exact Hxy | exact Hy].
    + constructor; [by constructor|].
      constructor; [unfold by_count_desc; lia|].
      eapply Forall_impl; [exact Hy|]. unfold by_count_desc. intros z ?. lia.
Qed.

Lemma most_common_fold_sorted (c acc : list (string * Z)) :
  StronglySorted by_count_desc acc ->
  StronglySorted by_count_desc (fold_left (fun acc x => insert_desc x acc) c acc).
Proof.
  revert acc. induction c as [|x c IH]; intros acc Hacc; cbn [fold_left]; [exact Hacc|].
  apply IH, insert_desc_sorted, Hacc.
Qed.

Lemma most_common_sorted (c : list (string * Z)) :
  StronglySorted by_count_desc (most_common c).
Proof. apply most_common_fold_sorted. constructor. Qed.

Lemma table_get_elem (k : string) (n : Z) (c : list (string * Z)) :
  NoDup (map fst c) -> table_get k c = Some n <-> (k, n) ∈ c.
Proof.
  unfold table_get. induction c as [|[k' n'] c IH]; cbn [map fst List.find snd].
  - intros _. split; [discriminate | intros H; by apply elem_of_nil in H].
  - intros Hnd. apply NoDup_cons in Hnd as [Hk' Hnd].
    rewrite elem_of_cons. destruct (String.eqb_spec k' k) as [->|Hk].
    + split.
      * intros [= ->]. by left.
      * intros [[= ->]|Hin]; [reflexivity|].
        exfalso. apply Hk'. apply list_elem_of_fmap. by exists (k, n).
    + rewrite (IH Hnd). split; [by right|]. intros [[= ? ?]|Hin]; [congruence | exact Hin].
Qed.

Lemma table_get_perm (k : string) (c c' : list (string * Z)) :
  c ≡ₚ c' -> NoDup (map fst c) -> table_get k c' = table_get k c.
Proof.
  intros Hp Hnd.
  assert (NoDup (map fst c')) as Hnd' by (by rewrite <- Hp).
  destruct (table_get k c) as [n|] eqn:E.
  - apply (table_get_elem k n c' Hnd'). rewrite <- Hp. by apply table_get_elem.
  - destruct (table_get k c') as [n|] eqn:E'; [|reflexivity].
    apply (table_get_elem k n c' Hnd') in E'. rewrite <- Hp in E'.
    apply (table_get_elem k n c Hnd) in E'. congruence.
Qed.

(** The table made from a column: what [dict(Counter(col).most_common())]
    holds. *)
Lemma frequency_table (col : list string) :
  (forall k, table_get k (most_common (Counter col))
             = if occurrences k col =? 0 then None else Some (occurrences k col)) /\
  table_sum (most_common (Counter col)) = len col /\
  NoDup (map fst (most_common (Counter col))) /\
  StronglySorted by_count_desc (most_common (Counter col)).
Proof.
  pose proof (most_common_perm (Counter col)) as Hp.
  pose proof (Counter_NoDup col) as Hnd.
  split; [|split; [|split]].
  - intros k. rewrite (table_get_perm k _ _ (symmetry Hp) Hnd). apply table_get_Counter.
  - rewrite (table_sum_perm _ _ Hp). apply table_sum_Counter.
  - by rewrite Hp.
  - apply most_common_sorted.
Qed.

Lemma keys_fold_elem (keys : list string) :
  forall (c : list (string * Z)) (j : string),
    j ∈ map fst (fold_left (fun c k => counter_incr k c) keys c)
    <-> j ∈ map fst c \/ j ∈ keys.
Proof.
  induction keys as [|k keys IH]; intros c j; cbn [fold_left].
  - rewrite elem_of_nil. tauto.
  - rewrite IH, keys_incr, elem_of_cons.
    destruct (bool_decide_reflect (k ∈ map fst c)) as [Hin|Hin].
    + split; [tauto|]. intros [?|[->|?]]; tauto.
    + rewrite elem_of_app, list_elem_of_singleton. tauto.
Qed.

Lemma Counter_keys (col : list string) (j : string) :
  j ∈ map fst (Counter col) <-> j ∈ col.
Proof.
  unfold Counter. rewrite keys_fold_elem. cbn [map]. rewrite elem_of_nil. tauto.
Qed.

Lemma filter_map_fst (q : string -> bool) (c : list (string * Z)) :
  map fst (List.filter (fun a => q (fst a)) c) = List.filter q (map fst c).
Proof.
  induction c as [|a c IH]; cbn [List.filter map]; [done|].
  destruct (q (fst a)); cbn [map]; by rewrite IH.
Qed.

Lemma list_filter_elem {A : Type} (q : A -> bool) (l : list A) (x : A) :
  x ∈ List.filter q l <-> x ∈ l /\ q x = true.
Proof. rewrite !list_elem_of_In. apply List.filter_In. Qed.

Lemma list_filter_NoDup {A : Type} (q : A -> bool) (l : list A) :
  NoDup l -> NoDup (List.filter q l).
Proof.
  induction 1 as [|x l Hx _ IH]; cbn [List.filter]; [constructor|].
  destruct (q x) eqn:E; [|exact IH].
  constructor; [|exact IH]. rewrite list_filter_elem. tauto.
Qed.

(** The number of entries of a counter whose key is not [skip] is the
    number of distinct names other than [skip]. *)
Lemma Counter_distinct (skip : string) (col : list string) :
  len (List.filter (fun a => negb (String.eqb (fst a) skip)) (Counter col))
  = Z.of_nat (size (distinct_names skip col)).
Proof.
  unfold len. f_equal.
  rewrite <- (List.length_map fst), (filter_map_fst (fun k => negb (String.eqb k skip))).
  set (L := List.filter (fun k => negb (String.eqb k skip)) (map fst (Counter col))).
  assert (NoDup L) as Hnd by apply list_filter_NoDup, Counter_NoDup.
  rewrite <- (size_list_to_set (C := gset string) L Hnd). f_equal.
  apply set_eq. intros x. unfold distinct_names, L.
  rewrite elem_of_difference, !elem_of_list_to_set, list_filter_elem, Counter_keys.
  rewrite elem_of_singleton, negb_true_iff.
  destruct (String.eqb_spec x skip); split; intros [? ?]; split; congruence.
Qed.

Lemma take_dominates {A : Type} (R : A -> A -> Prop) (l : list A) :
  StronglySorted R l ->
  forall n x y, x ∈ take n l -> y ∈ drop n l -> R x y.
Proof.
  induction 1 as [|a l Hl IH Ha]; intros n x y Hx Hy.
  - rewrite take_nil in Hx. by apply elem_of_nil in Hx.
  - destruct n as [|n]; cbn [take drop] in *; [by apply elem_of_nil in Hx|].
    apply elem_of_cons in Hx as [->|Hx].
    + rewrite Forall_forall in Ha. apply Ha.
      eapply sublist_subseteq; [apply sublist_drop | exact Hy].
    + by apply (IH n).
Qed.

Lemma occurrences_zero (k : string) (col : list string) :
  occurrences k col = 0 <-> k ∉ col.
Proof.
  induction col as [|c col IH]; [split; [intros _; apply not_elem_of_nil | done]|].
  rewrite occurrences_cons, not_elem_of_cons.
  pose proof (occurrences_nonneg k col).
  destruct (String.eqb_spec k c) as [->|Hk]; cbn [Z.b2z].
  - split; [lia | intros [? _]; congruence].
  - rewrite Z.add_0_l, IH. tauto.
Qed.

(** ** The tables of the high-level audit *)

Lemma audit_tables (now : datetime) (rs : list resource) (k : string) :
  exists d,
    high_level_audit now rs = Ok d /\
    table_get k (categories d)
    = listed (occurrences k (column "Category" "Unknown" rs)) /\
    table_get k (sub_categories d)
    = listed (occurrences k (column "Sub-Category" "Unknown" rs)) /\
    table_get k (licenses d)
    = listed (occurrences k (column "License" "Unknown" rs)).
Proof.
  eexists. split; [apply high_level_audit_ok|].
  cbn [categories sub_categories licenses]. unfold listed, column.
  repeat split; apply frequency_table.
Qed.

(** The three frequency tables map a value to the number of records having
    it, an absent field counting as Unknown, and list no value that no
    record has. *)
Theorem tables_count_records (now : datetime) (rs : list resource) (k : string) :
  exists d,
    high_level_audit now rs = Ok d /\
    table_get k (categories d)
    = listed (occurrences k (column "Category" "Unknown" rs)) /\
    table_get k (sub_categories d)
    = listed (occurrences k (column "Sub-Category" "Unknown" rs)) /\
    table_get k (licenses d)
    = listed (occurrences k (column "License" "Unknown" rs)).
Proof. apply audit_tables. Qed.

(** In each frequency table the counts add up to the number of records. *)
Theorem tables_sum_to_total (now : datetime) (rs : list resource) :
  exists d,
    high_level_audit now rs = Ok d /\
    table_sum (categories d) = total_resources d /\
    table_sum (sub_categories d) = total_resources d /\
    table_sum (licenses d) = total_resources d.
Proof.
  eexists. split; [apply high_level_audit_ok|].
  cbn [categories sub_categories licenses total_resources].
  repeat split;
    match goal with
    | |- table_sum (most_common (Counter ?col)) = _ =>
        destruct (frequency_table col) as (_ & -> & _)
    end; unfold len; by rewrite List.length_map.
Qed.

(** Each table, the top authors included, lists a value once and goes by
    decreasing count. *)
Theorem tables_sorted_without_repeats (now : datetime) (rs : list resource) :
  exists d,
    high_level_audit now rs = Ok d /\
    Forall (fun t => NoDup (map fst t) /\ StronglySorted by_count_desc t)
      [categories d; sub_categories d; licenses d; top_authors d].
Proof.
  eexists. split; [apply high_level_audit_ok|].
  cbn [categories sub_categories licenses top_authors].
  repeat constructor; try apply frequency_table.
  - unfold most_common_n. rewrite <- (firstn_map fst).
    eapply sublist_NoDup; [|apply sublist_take]. apply frequency_table.
  - unfold most_common_n.
    pose proof (most_common_sorted
                  (Counter (map (fun r => get r "Author Name" "Unknown") rs))) as Hs.
    revert Hs. generalize (most_common
                  (Counter (map (fun r => get r "Author Name" "Unknown") rs))).
    intros l Hs. generalize 10%nat. induction Hs as [|a l Hl IH Ha]; intros n.
    + rewrite firstn_nil. constructor.
    + destruct n as [|n]; cbn [firstn]; constructor; [apply IH|].
      eapply Forall_forall. intros y Hy. rewrite Forall_forall in Ha. apply Ha.
      eapply sublist_subseteq; [apply sublist_take | exact Hy].
Qed.

(** The authors table cut to ten entries: every listed count is the true
    count of the author, and an author left out has no more resources than
    any author listed, the table being full. *)
Theorem top_authors_are_most_frequent (now : datetime) (rs : list resource) :
  exists d,
    high_level_audit now rs = Ok d /\
    (List.length (top_authors d) <= 10)%nat /\
    (forall k n,
        table_get k (top_authors d) = Some n ->
        n = occurrences k (column "Author Name" "Unknown" rs)) /\
    (forall k,
        k ∈ column "Author Name" "Unknown" rs ->
        table_get k (top_authors d) = None ->
        List.length (top_authors d) = 10%nat /\
        Forall (fun p => occurrences k (column "Author Name" "Unknown" rs) <= snd p)
               (top_authors d)).
Proof.
  eexists. split; [apply high_level_audit_ok|]. cbn [top_authors].
  unfold most_common_n, column.
  set (col := map (fun r => get r "Author Name" "Unknown") rs).
  destruct (frequency_table col) as (Hget & _ & Hnd & Hsorted).
  set (T := most_common (Counter col)) in *.
  assert (NoDup (map fst (firstn 10 T))) as Hnd10.
  { rewrite <- (firstn_map fst).
    exact (sublist_NoDup _ _ Hnd (sublist_take _ _)). }
  split; [apply firstn_le_length|]. split.
  - intros k n Hk. apply (table_get_elem k n _ Hnd10) in Hk.
    assert ((k, n) ∈ T) as HT
      by (eapply sublist_subseteq; [apply sublist_take | exact Hk]).
    apply (table_get_elem k n _ Hnd) in HT. rewrite Hget in HT.
    destruct (occurrences k col =? 0); congruence.
  - intros k Hk Hnone.
    assert (occurrences k col <> 0) as Hocc
      by (intros H0; apply occurrences_zero in H0; contradiction).
    assert (table_get k T = Some (occurrences k col)) as HT.
    { rewrite Hget. destruct (Z.eqb_spec (occurrences k col) 0); [lia | reflexivity]. }
    apply (table_get_elem _ _ _ Hnd) in HT.
    rewrite <- (take_drop 10 T) in HT. apply elem_of_app in HT as [HT|HT].
    { apply (table_get_elem _ _ _ Hnd10) in HT. rewrite Hnone in HT. discriminate HT. }
    split.
    + apply length_take_le. pose proof (length_drop T 10) as Hd.
      destruct (drop 10 T) as [|? ?] eqn:E; [by apply elem_of_nil in HT|].
      cbn [List.length] in Hd. lia.
    + apply Forall_forall. intros p Hp.
      exact (take_dominates by_count_desc T Hsorted 10 p _ Hp HT).
Qed.

(** The number of unique authors is the number of distinct author names
    other than Unknown, which also stands for a record without the field;
    the empty name counts as an author. *)
Theorem unique_authors_are_distinct_names (now : datetime) (rs : list resource) :
  exists d,
    high_level_audit now rs = Ok d /\
    unique_authors d
    = Z.of_nat (size (distinct_names "Unknown" (column "Author Name" "Unknown" rs))).
Proof.
  eexists. split; [apply high_level_audit_ok|]. cbn [unique_authors].
  apply Counter_distinct.
Qed.

(** ** The counts of the high-level audit *)

Lemma len_filter_bound {A : Type} (p : A -> bool) (l : list A) :
  0 <= len (List.filter p l) <= len l.
Proof.
  split; [apply len_nonneg|].
  induction l as [|x l IH]; cbn [List.filter]; [lia|].
  destruct (p x); rewrite !len_cons; lia.
Qed.

Lemma Counter_size (col : list string) : len (Counter col) <= len col.
Proof.
  unfold len. apply inj_le. rewrite <- (List.length_map fst (Counter col)).
  apply submseteq_length, NoDup_submseteq; [apply Counter_NoDup|].
  intros x. by rewrite Counter_keys.
Qed.

(** No count of the report is negative or exceeds the number of records. *)
Theorem counts_within_total (now : datetime) (rs : list resource) :
  exists d,
    high_level_audit now rs = Ok d /\
    Forall (fun n => 0 <= n <= total_resources d)
           (unique_authors d :: record_counts d).
Proof.
  eexists. split; [apply high_level_audit_ok|].
  unfold record_counts.
  cbn [total_resources active inactive no_license unique_authors recently_added
       recently_checked never_checked outdated_checks removed_from_origin].
  pose proof (len_nonneg rs).
  pose proof (len_filter_bound is_active rs).
  repeat constructor; try apply len_filter_bound; try lia.
  pose proof (Counter_size (map (fun r => get r "Author Name" "Unknown") rs)) as Hc.
  pose proof (len_filter_bound (fun a : string * Z => negb (String.eqb (fst a) "Unknown"))
                (Counter (map (fun r => get r "Author Name" "Unknown") rs))) as Hf.
  unfold len in Hc at 2. rewrite List.length_map in Hc. fold (len rs) in Hc. lia.
Qed.

Lemma occurrences_perm (k : string) (col col' : list string) :
  col ≡ₚ col' -> occurrences k col = occurrences k col'.
Proof. apply len_filter_perm. Qed.

Lemma distinct_names_perm (skip : string) (col col' : list string) :
  col ≡ₚ col' -> distinct_names skip col = distinct_names skip col'.
Proof.
  intros Hp. unfold distinct_names. apply set_eq. intros x.
  rewrite !elem_of_difference, !elem_of_list_to_set. by rewrite Hp.
Qed.

(** The order of the rows does not matter to the counts nor to the count a
    table gives for a value. (It can matter to which authors make the top
    ten when counts tie.) *)
Theorem row_order_irrelevant (now : datetime) (rs rs' : list resource) (k : string) :
  rs ≡ₚ rs' ->
  exists d d',
    high_level_audit now rs = Ok d /\
    high_level_audit now rs' = Ok d' /\
    record_counts d = record_counts d' /\
    unique_authors d = unique_authors d' /\
    table_get k (categories d) = table_get k (categories d') /\
    table_get k (sub_categories d) = table_get k (sub_categories d') /\
    table_get k (licenses d) = table_get k (licenses d').
Proof.
  intros Hp.
  destruct (audit_tables now rs k) as (d & Hd & Hc & Hs & Hl).
  destruct (audit_tables now rs' k) as (d' & Hd' & Hc' & Hs' & Hl').
  exists d, d'. split; [exact Hd|]. split; [exact Hd'|].
  assert (forall f : resource -> string, map f rs ≡ₚ map f rs') as Hmap
    by (intros f; by apply Permutation_map).
  rewrite Hc, Hs, Hl, Hc', Hs', Hl'. unfold column.
  rewrite !(occurrences_perm k _ _ (Hmap _)).
  rewrite high_level_audit_ok in Hd, Hd'. injection Hd as <-. injection Hd' as <-.
  unfold record_counts.
  cbn [total_resources active inactive no_license unique_authors recently_added
       recently_checked never_checked outdated_checks removed_from_origin].
  rewrite !Counter_distinct, (distinct_names_perm _ _ _ (Hmap _)).
  rewrite !(len_filter_perm _ _ _ Hp), (len_perm _ _ Hp).
  repeat split.
Qed.

Lemma row_order_irrelevant_witness :
  exists d d',
    high_level_audit sample_now [tool_a; tool_b; tool_c] = Ok d /\
    high_level_audit sample_now [tool_c; tool_a; tool_b] = Ok d' /\
    record_counts d = record_counts d' /\
    unique_authors d = unique_authors d' /\
    table_get "Tooling" (categories d) = table_get "Tooling" (categories d') /\
    table_get "Tooling" (sub_categories d) = table_get "Tooling" (sub_categories d') /\
    table_get "Tooling" (licenses d) = table_get "Tooling" (licenses d').
Proof.
  apply (row_order_irrelevant sample_now [tool_a; tool_b; tool_c]
           [tool_c; tool_a; tool_b] "Tooling").
  change [tool_c; tool_a; tool_b] with ([tool_c] ++ [tool_a; tool_b]).
  change [tool_a; tool_b; tool_c] with ([tool_a; tool_b] ++ [tool_c]).
  apply Permutation_app_comm.
Defined.

Lemma occurrences_app (k : string) (c1 c2 : list string) :
  occurrences k (c1 ++ c2) = occurrences k c1 + occurrences k c2.
Proof. unfold occurrences. by rewrite List.filter_app, len_app. Qed.

(** The audit of two tables put end to end: each record count is the sum of
    the counts of the two audits, and so is the count a table gives for a
    value, none standing for 0. *)
Theorem counts_add_up (now : datetime) (rs1 rs2 : list resource) (k : string) :
  exists d1 d2 d,
    high_level_audit now rs1 = Ok d1 /\
    high_level_audit now rs2 = Ok d2 /\
    high_level_audit now (rs1 ++ rs2) = Ok d /\
    record_counts d = zip_with Z.add (record_counts d1) (record_counts d2) /\
    default 0 (table_get k (categories d))
    = default 0 (table_get k (categories d1)) + default 0 (table_get k (categories d2)) /\
    default 0 (table_get k (sub_categories d))
    = default 0 (table_get k (sub_categories d1))
      + default 0 (table_get k (sub_categories d2)) /\
    default 0 (table_get k (licenses d))
    = default 0 (table_get k (licenses d1)) + default 0 (table_get k (licenses d2)).
Proof.
  destruct (audit_tables now rs1 k) as (d1 & Hd1 & Hc1 & Hs1 & Hl1).
  destruct (audit_tables now rs2 k) as (d2 & Hd2 & Hc2 & Hs2 & Hl2).
  destruct (audit_tables now (rs1 ++ rs2) k) as (d & Hd & Hc & Hs & Hl).
  exists d1, d2, d. repeat (split; [assumption|]).
  assert (forall n, default 0 (listed n) = n) as Hdef
    by (intros n; unfold listed; destruct (Z.eqb_spec n 0);
        cbn [default from_option id]; lia).
  rewrite Hc, Hs, Hl, Hc1, Hs1, Hl1, Hc2, Hs2, Hl2, !Hdef. unfold column.
  rewrite !map_app, !occurrences_app.
  rewrite high_level_audit_ok in Hd, Hd1, Hd2.
  injection Hd as <-. injection Hd1 as <-. injection Hd2 as <-.
  unfold record_counts.
  cbn [total_resources active inactive no_license unique_authors recently_added
       recently_checked never_checked outdated_checks removed_from_origin zip_with].
  rewrite !List.filter_app, !len_app.
  repeat split. repeat f_equal; lia.
Qed.

(** ** The filters of the scoped audit as one condition *)

Lemma filter_filter_and {A : Type} (p q : A -> bool) (l : list A) :
  List.filter q (List.filter p l) = List.filter (fun x => p x && q x) l.
Proof.
  induction l as [|x l IH]; cbn [List.filter]; [done|].
  destruct (p x); cbn [List.filter andb]; [|exact IH].
  destruct (q x); by rewrite IH.
Qed.

Lemma filter_true {A : Type} (p : A -> bool) (l : list A) :
  (forall x, p x = true) -> List.filter p l = l.
Proof.
  intros Hp. induction l as [|x l IH]; cbn [List.filter]; [done|].
  by rewrite Hp, IH.
Qed.

Lemma filter_by_field_text_ok (k : string) (v : option string) (l : list resource) :
  filter_by_field k v l = List.filter (text_ok k v) l.
Proof.
  unfold filter_by_field, text_ok. destruct v as [[|c s]|]; cbn [PyStr.truthy_opt PyStr.truthy default].
  - symmetry. by apply filter_true.
  - apply filter_ext_bool. intros r. apply field_matches_spec.
  - symmetry. by apply filter_true.
Qed.

Lemma filter_flag (b : bool) (p : resource -> bool) (l : list resource) :
  (if b then List.filter p l else l) = List.filter (fun r => negb b || p r) l.
Proof. destruct b; cbn [negb orb]; [reflexivity|]. symmetry. by apply filter_true. Qed.

Lemma added_since_spec (c : Z) (r : resource) : added_since c r = Ok (added_from c r).
Proof.
  rewrite added_since_ok. unfold added_from. f_equal.
  destruct (field_date "Date Added" r) as [d|]; [|reflexivity].
  destruct (Z.leb_spec c (total_us d)).
  - by rewrite bool_decide_eq_true_2.
  - rewrite bool_decide_eq_false_2; [reflexivity | lia].
Qed.

Lemma apply_filters_passes (now : datetime) (rs : list resource) (f : filters) :
  apply_filters now rs f =
  match cutoff_of now f with
  | Ok c => Ok (List.filter (passes c f) rs)
  | Raise e => Raise e
  end.
Proof.
  unfold apply_filters, cutoff_of. cbn zeta.
  rewrite !filter_by_field_text_ok, !filter_flag, !filter_filter_and.
  destruct (recent_days f) as [n|].
  - destruct (sub_timedelta_days now n) as [c|e]; cbn [mbind result_bind]; [|reflexivity].
    rewrite (filter_r_total _ (added_from c)) by apply added_since_spec.
    rewrite filter_filter_and. f_equal. apply filter_ext_bool. intros r.
    unfold passes, inactive_record.
    by rewrite is_active_spec, lacks_license_spec, !andb_assoc.
  - f_equal. apply filter_ext_bool. intros r.
    unfold passes, inactive_record.
    by rewrite is_active_spec, lacks_license_spec, !andb_assoc, andb_true_r.
Qed.

Lemma list_filter_sublist {A : Type} (p : A -> bool) (l : list A) :
  List.filter p l `sublist_of` l.
Proof.
  induction l as [|x l IH]; cbn [List.filter]; [constructor|].
  destruct (p x); by constructor.
Qed.

Lemma filter_idem {A : Type} (p : A -> bool) (l : list A) :
  List.filter p (List.filter p l) = List.filter p l.
Proof.
  rewrite filter_filter_and. apply filter_ext_bool. intros x. by destruct (p x).
Qed.

(** What the filters return is a sub-list of the input (no record is made
    up, repeated or moved), and filtering it once more with the same
    filters changes nothing. *)
Theorem filtering_selects_and_is_idempotent
    (now : datetime) (rs filtered : list resource) (f : filters) :
  apply_filters now rs f = Ok filtered ->
  filtered `sublist_of` rs /\
  len filtered <= len rs /\
  apply_filters now filtered f = Ok filtered.
Proof.
  intros Hf. rewrite apply_filters_passes in Hf.
  rewrite apply_filters_passes.
  destruct (cutoff_of now f) as [c|e]; [|discriminate].
  injection Hf as <-.
  split; [apply list_filter_sublist|]. split; [apply len_filter_bound|].
  by rewrite filter_idem.
Qed.

Lemma filtering_selects_and_is_idempotent_witness :
  [tool_b] `sublist_of` [tool_a; tool_b; tool_c] /\
  len [tool_b] <= len [tool_a; tool_b; tool_c] /\
  apply_filters sample_now [tool_b] sample_filters = Ok [tool_b].
Proof.
  apply (filtering_selects_and_is_idempotent sample_now [tool_a; tool_b; tool_c]
           [tool_b] sample_filters).
  reflexivity.
Defined.

(** ** A cut-off that is no date *)

Lemma recent_days_is_a_filter (args : cli_args) (n : Z) :
  arg_recent_days args = Some n -> n <> 0 -> has_scoped_filters args = true.
Proof.
  intros Hn H0. unfold has_scoped_filters. cbn [existsb]. rewrite Hn.
  cbn [truthy_int_opt]. destruct (Z.eqb_spec n 0); [contradiction|].
  cbn [negb]. by rewrite !orb_true_r.
Qed.

(** A number of days that takes the cut-off before year 1 or after year
    9999, or that no timedelta can hold, makes the scoped audit raise
    OverflowError, whatever the table, and the program end with status 1. *)
Theorem cutoff_out_of_range (t : csv_table) (args : cli_args) (now : datetime) (n : Z) :
  1 <= toordinal now <= max_ordinal ->
  arg_recent_days args = Some n ->
  toordinal now <= n \/ n < toordinal now - max_ordinal \/ max_delta_days < Z.abs n ->
  scoped_audit now (rows t) (filters_of_args args) = Raise OverflowError /\
  main (Some t) args now = Raise OverflowError /\
  exit_code (main (Some t) args now) = 1.
Proof.
  intros Hnow Hn Hout.
  assert (sub_timedelta_days now n = Raise OverflowError) as Hsub.
  { unfold sub_timedelta_days.
    destruct (Z.leb_spec (Z.abs n) max_delta_days); [|reflexivity].
    destruct (Z.leb_spec 1 (toordinal now - n)); cbn [andb]; [|reflexivity].
    destruct (Z.leb_spec (toordinal now - n) max_ordinal); [lia | reflexivity]. }
  assert (scoped_audit now (rows t) (filters_of_args args) = Raise OverflowError) as Hs.
  { unfold scoped_audit. rewrite apply_filters_passes. unfold cutoff_of.
    cbn [filters_of_args recent_days]. by rewrite Hn, Hsub. }
  assert (n <> 0) as H0 by (unfold max_delta_days in *; lia).
  assert (main (Some t) args now = Raise OverflowError) as Hm.
  { unfold main. cbn [load_resources mbind result_bind].
    by rewrite (recent_days_is_a_filter args n Hn H0), Hs. }
  split; [exact Hs|]. split; [exact Hm|]. by rewrite Hm.
Qed.

Lemma cutoff_out_of_range_witness :
  scoped_audit sample_now (rows sample_table) (filters_of_args far_back_args)
  = Raise OverflowError /\
  main (Some sample_table) far_back_args sample_now = Raise OverflowError /\
  exit_code (main (Some sample_table) far_back_args sample_now) = 1.
Proof.
  apply (cutoff_out_of_range sample_table far_back_args sample_now 1000000).
  - vm_compute. split; discriminate.
  - reflexivity.
  - left. vm_compute. discriminate.
Defined.

(** ** The two audits agree *)

Lemma len_filter_negb {A : Type} (p : A -> bool) (l : list A) :
  len (List.filter (fun x => negb (p x)) l) = len l - len (List.filter p l).
Proof.
  induction l as [|x l IH]; [reflexivity|].
  rewrite !len_filter_cons, len_cons. destruct (p x); cbn [negb Z.b2z]; lia.
Qed.

Lemma describe_days (now : datetime) (r : resource) (e : resource_info) :
  describe now r = Ok e ->
  info_days_since_check e
  = match field_date "Last Checked" r with
    | Some d => Some (sub_days now d)
    | None => None
    end.
Proof.
  unfold describe. rewrite parse_field. cbn [mbind result_bind].
  intros [= <-]. reflexivity.
Qed.

Lemma entries_filter (now : datetime) (P : resource_info -> bool) (Q : resource -> bool)
      (es : list resource_info) (rs : list resource) :
  (forall e r, describe now r = Ok e -> P e = Q r) ->
  Forall2 (fun e r => describe now r = Ok e) es rs ->
  len (List.filter P es) = len (List.filter Q rs).
Proof.
  intros HPQ. induction 1 as [|e r es rs He _ IH]; [reflexivity|].
  by rewrite !len_filter_cons, (HPQ e r He), IH.
Qed.

(** The scoped audit without filter and the high-level audit tell the same
    story: as many entries as the total; as many entries without a number
    of days as never-checked records; as many at 7 days or less as recently
    checked, as many beyond 30 as outdated; and the inactive filter matches
    as many records as the report counts inactive. *)
Theorem audits_agree (now : datetime) (rs : list resource) :
  exists h s si,
    high_level_audit now rs = Ok h /\
    scoped_audit now rs no_filters = Ok s /\
    scoped_audit now rs only_inactive = Ok si /\
    matched_count s = total_resources h /\
    matched_count si = inactive h /\
    len (List.filter entry_never (resources s)) = never_checked h /\
    len (List.filter (entry_within 7) (resources s)) = recently_checked h /\
    len (List.filter (entry_beyond 30) (resources s)) = outdated_checks h.
Proof.
  assert (apply_filters now rs no_filters = Ok rs) as Hf0 by reflexivity.
  destruct (scoped_audit_lists _ _ _ _ Hf0) as (s & Hs & _ & Hcount & Hall).
  assert (apply_filters now rs only_inactive
          = Ok (List.filter (fun r => negb (is_active r)) rs)) as Hf by reflexivity.
  destruct (scoped_audit_lists _ _ _ _ Hf) as (si & Hsi & _ & Hcount_i & _).
  eexists. exists s, si. split; [apply high_level_audit_ok|].
  split; [exact Hs|]. split; [exact Hsi|].
  cbn [total_resources inactive never_checked recently_checked outdated_checks].
  split; [exact Hcount|]. split; [by rewrite Hcount_i, len_filter_negb|].
  repeat split; apply (entries_filter now); try exact Hall; intros e r He;
    unfold entry_never, entry_within, entry_beyond, not_checked, checked_recently,
      check_outdated; rewrite (describe_days now r e He);
    by destruct (field_date "Last Checked" r).
Qed.

(** ** Which report the program prints *)

Lemma truthy_opt_given (v : option string) : PyStr.truthy_opt v = true <-> given v.
Proof.
  unfold given. destruct v as [[|c s]|]; cbn [PyStr.truthy_opt PyStr.truthy].
  - split; [discriminate | intros (s & [= <-] & Hs); contradiction].
  - split; [intros _; eexists; split; [reflexivity | discriminate] | reflexivity].
  - split; [discriminate | intros (s & [=] & _)].
Qed.

Lemma has_scoped_filters_iff (args : cli_args) :
  has_scoped_filters args = true <-> asks_for_scope args.
Proof.
  unfold has_scoped_filters, asks_for_scope. cbn [existsb].
  rewrite !orb_true_iff, !truthy_opt_given.
  assert (truthy_int_opt (arg_recent_days args) = true
          <-> exists n, arg_recent_days args = Some n /\ n <> 0) as ->.
  { destruct (arg_recent_days args) as [n|]; cbn [truthy_int_opt].
    - rewrite negb_true_iff, Z.eqb_neq. split.
      + intros Hn. exists n. by split.
      + by intros (m & [= <-] & Hm).
    - split; [discriminate | intros (n & [=] & _)]. }
  intuition discriminate.
Qed.

(** When the program ends normally, its report is JSON exactly under
    [--json], and it is a scoped report exactly when a string filter has a
    non-empty value, a flag is set or the number of days is not 0; the
    report carries the result of the audit chosen, run on the rows of the
    file with the arguments as given. *)
Theorem report_follows_arguments
    (t : csv_table) (args : cli_args) (now : datetime) (rep : report) :
  main (Some t) args now = Ok rep ->
  is_json rep = arg_json args /\
  (is_scoped rep = true <-> asks_for_scope args) /\
  match rep with
  | HighLevelText d | HighLevelJson d => high_level_audit now (rows t) = Ok d
  | ScopedText d | ScopedJson d =>
      scoped_audit now (rows t) (filters_of_args args) = Ok d
  end.
Proof.
  rewrite <- has_scoped_filters_iff. unfold main.
  cbn [load_resources mbind result_bind].
  destruct (has_scoped_filters args).
  - destruct (scoped_audit now (rows t) (filters_of_args args)) as [d|e];
      cbn [mbind result_bind]; [|discriminate].
    unfold print_scoped_report. destruct (arg_json args); intros [= <-]; by cbn.
  - destruct (high_level_audit now (rows t)) as [d|e];
      cbn [mbind result_bind]; [|discriminate].
    destruct (arg_json args).
    + intros [= <-]. by cbn.
    + unfold print_high_level_report.
      destruct (truediv (active d) (total_resources d)); cbn [mbind result_bind];
        [|discriminate].
      destruct (truediv (inactive d) (total_resources d)); cbn [mbind result_bind];
        [|discriminate].
      intros [= <-]. by cbn.
Qed.

Lemma report_follows_arguments_witness :
  exists rep,
    main (Some sample_table) inactive_zero_days_args sample_now = Ok rep /\
    is_json rep = false /\
    (is_scoped rep = true <-> asks_for_scope inactive_zero_days_args) /\
    match rep with
    | HighLevelText d | HighLevelJson d =>
        high_level_audit sample_now (rows sample_table) = Ok d
    | ScopedText d | ScopedJson d =>
        scoped_audit sample_now (rows sample_table)
          (filters_of_args inactive_zero_days_args) = Ok d
    end.
Proof.
  eexists. split; [reflexivity|].
  apply (report_follows_arguments sample_table inactive_zero_days_args sample_now).
  reflexivity.
Defined.

(** ** The exit status, in full *)




(** ** What the date parser accepts and returns *)

Lemma strptime_well_formed (s : string) (d : datetime) :
  strptime s = Ok d -> well_formed d.
Proof.
  unfold strptime, well_formed. repeat case_match; try discriminate.
  intros [= <-]. cbn [year month day hour minute second microsecond]. done.
Qed.

Lemma parse_date_some (s : string) (d : datetime) :
  parse_date s = Ok (Some d) -> strptime s = Ok d.
Proof.
  unfold parse_date. destruct (negb (PyStr.truthy s) || String.eqb (PyStr.strip s) "");
    [discriminate|].
  destruct (strptime s) as [d'|[]]; congruence.
Qed.

Lemma days_before_month_bounds (y m : Z) :
  1 <= m <= 12 ->
  0 <= days_before_month y m /\
  days_before_month y m + days_in_month y m <= (if is_leap y then 366 else 365).
Proof.
  intros Hm.
  assert (m = 1 \/ m = 2 \/ m = 3 \/ m = 4 \/ m = 5 \/ m = 6 \/ m = 7 \/ m = 8 \/
          m = 9 \/ m = 10 \/ m = 11 \/ m = 12) as Hcases by lia.
  unfold days_before_month, days_in_month.
  repeat match goal with H : _ \/ _ |- _ => destruct H as [H|H] end;
    subst m; generalize (is_leap y); intros [|]; vm_compute; split; discriminate.
Qed.

Lemma leap_year_not_last (y : Z) : is_leap y = true -> y <> 9999.
Proof. intros H ->. discriminate H. Qed.

Lemma valid_date_ordinal (y m d : Z) :
  valid_date y m d = true -> 1 <= ymd2ord y m d <= max_ordinal.
Proof.
  unfold valid_date. rewrite !andb_true_iff, !Z.leb_le.
  intros [[[[[Hy1 Hy2] Hm1] Hm2] Hd1] Hd2].
  pose proof (days_before_month_bounds y m ltac:(lia)) as [Hb1 Hb2].
  unfold ymd2ord, max_ordinal, days_before_year.
  assert (is_leap y = true -> y <= 9998) as Hleap
    by (intros H; pose proof (leap_year_not_last y H); lia).
  destruct (is_leap y); [specialize (Hleap eq_refl)|];
    Z.to_euclidean_division_equations; lia.
Qed.

(** A date that the parser returns is a real one: a year from 1 to 9999,
    a month 1 to 12, a day of that month in that year, a time of day up to
    23:59:59 and no microseconds; its ordinal is that of a date. *)
Theorem parsed_date_is_well_formed (s : string) (d : datetime) :
  parse_date s = Ok (Some d) ->
  well_formed d /\ 1 <= toordinal d <= max_ordinal.
Proof.
  intros H. apply parse_date_some, strptime_well_formed in H.
  split; [exact H|]. apply valid_date_ordinal, H.
Qed.

Lemma parsed_date_is_well_formed_witness :
  well_formed (mk_datetime 2024 2 29 23 59 59 0) /\
  1 <= toordinal (mk_datetime 2024 2 29 23 59 59 0) <= max_ordinal.
Proof.
  apply (parsed_date_is_well_formed "2024-02-29:23-59-59"). reflexivity.
Defined.

(** ** A timestamp in the layout parses to its date *)

Lemma digit_char_spec (n : Z) :
  is_digit (digit_char n) = true /\
  Z.of_nat (nat_of_ascii (digit_char n)) - 48 = n mod 10 /\
  PyStr.is_space (digit_char n) = false.
Proof.
  unfold digit_char. pose proof (Z.mod_pos_bound n 10 ltac:(lia)) as Hr.
  generalize dependent (n mod 10). intros r Hr.
  assert (r = 0 \/ r = 1 \/ r = 2 \/ r = 3 \/ r = 4 \/ r = 5 \/ r = 6 \/ r = 7 \/
          r = 8 \/ r = 9) as Hcases by lia.
  repeat match goal with H : _ \/ _ |- _ => destruct H as [H|H] end;
    subst r; repeat split.
Qed.

Lemma int_of_two_digits (n : Z) : 0 <= n < 100 -> int_of (two_digits n) = n.
Proof.
  intros Hn. unfold int_of, two_digits. cbn [fold_left].
  destruct (digit_char_spec (n / 10)) as (-> & -> & _).
  destruct (digit_char_spec n) as (-> & -> & _).
  Z.to_euclidean_division_equations. lia.
Qed.

Lemma int_of_four_digits (n : Z) : 0 <= n < 10000 -> int_of (four_digits n) = n.
Proof.
  intros Hn. unfold int_of, four_digits. cbn [fold_left].
  destruct (digit_char_spec (n / 1000)) as (-> & -> & _).
  destruct (digit_char_spec (n / 100)) as (-> & -> & _).
  destruct (digit_char_spec (n / 10)) as (-> & -> & _).
  destruct (digit_char_spec n) as (-> & -> & _).
  Z.to_euclidean_division_equations. lia.
Qed.

(** When the first alternative that matches leaves a text on which the rest
    of the expression matches, the matcher takes it. *)
Lemma first_alt_taken (alts : list (list atom)) (gs : list (list (list atom)))
      (s cap rest final : list ascii) (caps : list (list ascii)) :
  first_alt alts s = Some (cap, rest) ->
  match_groups gs rest = Some (caps, final) ->
  match_groups (alts :: gs) s = Some (cap :: caps, final).
Proof.
  intros Hfirst Hrest. cbn [match_groups].
  induction alts as [|alt alts IH]; cbn [first_alt first_some] in *; [discriminate|].
  destruct (match_atoms alt s) as [r|].
  - injection Hfirst as <- <-. by rewrite Hrest.
  - by apply IH.
Qed.

(** Proves a statement on every number of a range by trying each. *)
Ltac each_number n :=
  let k := fresh "k" in
  let Hk := fresh "Hk" in
  rewrite <- (Z2Nat.id n) by lia;
  assert (exists k, Z.to_nat n = k) as [k Hk] by (by eexists);
  rewrite Hk;
  repeat (destruct k as [|k];
          [first [vm_compute; reflexivity | exfalso; lia] | try (exfalso; lia)]).

Lemma first_alt_year (y : Z) (rest : list ascii) :
  first_alt re_Y (four_digits y ++ rest) = Some (four_digits y, rest).
Proof.
  unfold re_Y, four_digits. cbn [first_alt match_atoms app].
  change (atom_matches digit) with is_digit.
  destruct (digit_char_spec (y / 1000)) as (-> & _).
  destruct (digit_char_spec (y / 100)) as (-> & _).
  destruct (digit_char_spec (y / 10)) as (-> & _).
  destruct (digit_char_spec y) as (-> & _).
  reflexivity.
Qed.

Lemma first_alt_month (m : Z) (rest : list ascii) :
  1 <= m <= 12 -> first_alt re_m (two_digits m ++ rest) = Some (two_digits m, rest).
Proof. intros Hm. each_number m. Qed.

Lemma first_alt_day (d : Z) (rest : list ascii) :
  1 <= d <= 31 -> first_alt re_d (two_digits d ++ rest) = Some (two_digits d, rest).
Proof. intros Hd. each_number d. Qed.

Lemma first_alt_hour (h : Z) (rest : list ascii) :
  0 <= h <= 23 -> first_alt re_H (two_digits h ++ rest) = Some (two_digits h, rest).
Proof. intros Hh. each_number h. Qed.

Lemma first_alt_minute (m : Z) (rest : list ascii) :
  0 <= m <= 59 -> first_alt re_M (two_digits m ++ rest) = Some (two_digits m, rest).
Proof. intros Hm. each_number m. Qed.

Lemma first_alt_second (s : Z) (rest : list ascii) :
  0 <= s <= 59 -> first_alt re_S (two_digits s ++ rest) = Some (two_digits s, rest).
Proof. intros Hs. each_number s. Qed.

Lemma first_alt_lit (c : ascii) (rest : list ascii) :
  first_alt (re_lit c) (c :: rest) = Some ([c], rest).
Proof. cbn [re_lit first_alt match_atoms atom_matches]. by rewrite Ascii.eqb_refl. Qed.

Lemma strip_keeps_text (c : ascii) (s : string) :
  PyStr.is_space c = false -> PyStr.strip (String c s) <> "".
Proof.
  intros Hc. unfold PyStr.strip. cbn [PyStr.lstrip]. rewrite Hc.
  cbn [PyStr.rstrip]. rewrite Hc. by destruct (PyStr.rstrip s).
Qed.

(** The text of a well-formed date and time in the layout
    YYYY-MM-DD:HH-MM-SS, each field padded with zeros, parses, and it
    parses to that date and time. *)
Theorem timestamp_round_trip (d : datetime) :
  well_formed d -> parse_date (timestamp d) = Ok (Some d).
Proof.
  intros (Hdate & Htime & Hus).
  destruct d as [y m dd hh mi ss us].
  cbn [year month day hour minute second microsecond] in *. subst us.
  pose proof Hdate as Hd. pose proof Htime as Ht.
  unfold valid_date in Hd. unfold valid_time in Ht.
  rewrite !andb_true_iff, !Z.leb_le in Hd, Ht.
  destruct Hd as [[[[[Hy1 Hy2] Hm1] Hm2] Hd1] Hd2].
  destruct Ht as [[[[[Hh1 Hh2] Hi1] Hi2] Hs1] Hs2].
  assert (dd <= 31) as Hd3
    by (unfold days_in_month in Hd2; repeat case_match; lia).
  assert (strptime (timestamp (mk_datetime y m dd hh mi ss 0))
          = Ok (mk_datetime y m dd hh mi ss 0)) as Hparse.
  { unfold strptime, timestamp.
    cbn [year month day hour minute second].
    rewrite list_ascii_of_string_of_list_ascii. unfold format_regex.
    erewrite first_alt_taken; [|apply first_alt_year|].
    2:{ erewrite first_alt_taken; [reflexivity|apply first_alt_lit|].
        erewrite first_alt_taken; [reflexivity|by apply first_alt_month|].
        erewrite first_alt_taken; [reflexivity|apply first_alt_lit|].
        erewrite first_alt_taken; [reflexivity|by apply first_alt_day|].
        erewrite first_alt_taken; [reflexivity|apply first_alt_lit|].
        erewrite first_alt_taken; [reflexivity|by apply first_alt_hour|].
        erewrite first_alt_taken; [reflexivity|apply first_alt_lit|].
        erewrite first_alt_taken; [reflexivity|by apply first_alt_minute|].
        erewrite first_alt_taken; [reflexivity|apply first_alt_lit|].
        erewrite first_alt_taken; [reflexivity| |reflexivity].
        rewrite <- (app_nil_r (two_digits ss)) at 1. by apply first_alt_second. }
    rewrite int_of_four_digits by lia. rewrite !int_of_two_digits by lia.
    by rewrite Hdate, Htime. }
  unfold parse_date. rewrite Hparse.
  assert (PyStr.truthy (timestamp (mk_datetime y m dd hh mi ss 0)) = true) as ->
    by reflexivity.
  destruct (String.eqb_spec (PyStr.strip (timestamp (mk_datetime y m dd hh mi ss 0))) "")
    as [E|_]; [|reflexivity].
  exfalso. revert E. unfold timestamp, four_digits.
  cbn [year app string_of_list_ascii]. apply strip_keeps_text, digit_char_spec.
Qed.

Lemma timestamp_round_trip_witness :
  parse_date (timestamp sample_now) = Ok (Some sample_now).
Proof. apply (timestamp_round_trip sample_now). repeat split. Defined.

(** ** White space around a date *)

Lemma space_is_no_digit (c : ascii) :
  PyStr.is_space c = true -> is_digit c = false /\ Ascii.eqb c "-" = false.
Proof.
  destruct c as [[] [] [] [] [] [] [] []]; vm_compute; intros H;
    first [discriminate H | split; reflexivity].
Qed.

Lemma split_at_inv (c : ascii) (s a b : list ascii) :
  split_at c s = Some (a, b) -> s = a ++ c :: b.
Proof.
  revert a. induction s as [|x s IH]; intros a; cbn [split_at]; [discriminate|].
  destruct (Ascii.eqb_spec x c) as [->|_].
  - by intros [= <- <-].
  - destruct (split_at c s) as [[a' b']|]; [|discriminate].
    intros [= <- <-]. cbn [app]. by rewrite (IH a' eq_refl).
Qed.

Lemma short_number_last (t : list ascii) :
  short_number t = true -> exists l x, t = l ++ [x] /\ is_digit x = true.
Proof.
  unfold short_number, digits_text. rewrite orb_true_iff, !andb_true_iff.
  intros [[Hd Hl]|[Hd Hl]];
    destruct t as [|x [|y [|z t]]]; try discriminate Hl; cbn [forallb] in Hd;
    rewrite ?andb_true_iff in Hd.
  - exists [], x. split; [reflexivity | apply Hd].
  - exists [x], y. split; [reflexivity | apply Hd].
Qed.

Lemma lenient_first_digit (c : ascii) (s : string) :
  lenient_format (String c s) = true -> is_digit c = true.
Proof.
  unfold lenient_format.
  destruct (split_at "-" (list_ascii_of_string (String c s))) as [[ty s1]|] eqn:E1;
    [|discriminate].
  intros H.
  assert (digits_text 4 ty = true) as Hty.
  { repeat case_match; try discriminate H.
    rewrite !andb_true_iff in H. tauto. }
  apply split_at_inv in E1. cbn [list_ascii_of_string] in E1.
  unfold digits_text in Hty. apply andb_true_iff in Hty as [Hd Hl].
  destruct ty as [|x ty]; [discriminate Hl|].
  cbn [app] in E1. injection E1 as -> _.
  cbn [forallb] in Hd. by apply andb_true_iff in Hd as [? _].
Qed.

Lemma lenient_last_digit (s : string) :
  lenient_format s = true ->
  exists l x, list_ascii_of_string s = l ++ [x] /\ is_digit x = true.
Proof.
  unfold lenient_format.
  destruct (split_at "-" (list_ascii_of_string s)) as [[ty s1]|] eqn:E1; [|discriminate].
  destruct (split_at "-" s1) as [[tm s2]|] eqn:E2; [|discriminate].
  destruct (split_at ":" s2) as [[td s3]|] eqn:E3; [|discriminate].
  destruct (split_at "-" s3) as [[tH s4]|] eqn:E4; [|discriminate].
  destruct (split_at "-" s4) as [[tM tS]|] eqn:E5; [|discriminate].
  rewrite !andb_true_iff. intros (_ & HS).
  apply short_number_last in HS as (l & x & -> & Hx).
  apply split_at_inv in E1, E2, E3, E4, E5. subst s1 s2 s3 s4.
  exists (ty ++ "-"%char :: tm ++ "-"%char :: td ++ ":"%char :: tH ++ "-"%char ::
          tM ++ "-"%char :: l), x.
  split; [|exact Hx]. rewrite E1.
  repeat (rewrite <- ?app_assoc; cbn [app]; f_equal).
Qed.

Lemma list_ascii_of_string_app (s t : string) :
  list_ascii_of_string (s ++ t)%string = list_ascii_of_string s ++ list_ascii_of_string t.
Proof.
  induction s as [|c s IH]; [reflexivity|].
  change (c :: list_ascii_of_string (s ++ t)%string
          = c :: (list_ascii_of_string s ++ list_ascii_of_string t)).
  by rewrite IH.
Qed.

(** The parser does not trim: a text that begins or ends with a white
    space character yields no date, whatever lies between. *)
Theorem padded_text_is_no_date (c : ascii) (s : string) :
  PyStr.is_space c = true ->
  parse_date (String c s) = Ok None /\
  parse_date (s ++ String c "")%string = Ok None.
Proof.
  intros Hc. destruct (space_is_no_digit c Hc) as [Hd _].
  split; apply parse_date_malformed; right; right.
  - destruct (lenient_format (String c s)) eqn:E; [|reflexivity].
    apply lenient_first_digit in E. congruence.
  - destruct (lenient_format (s ++ String c "")%string) eqn:E; [|reflexivity].
    apply lenient_last_digit in E as (l & x & Hl & Hx).
    rewrite list_ascii_of_string_app in Hl. cbn [list_ascii_of_string] in Hl.
    apply app_inj_tail in Hl as [_ <-]. congruence.
Qed.

Lemma padded_text_is_no_date_witness :
  parse_date " 2024-06-15:12-00-00" = Ok None /\
  parse_date ("2024-06-15:12-00-00" ++ " ")%string = Ok None.
Proof.
  apply (padded_text_is_no_date " " "2024-06-15:12-00-00"). reflexivity.
Defined.

(** ** The text of the scoped report *)

(** The report says that no filter was applied exactly when every string
    filter and the number of days are absent and both flags are off; it
    lists at most seven criteria. *)
Theorem criteria_listing (f : filters) :
  (ReportText.criteria_line f = "  No filters applied" <-> f = no_filters) /\
  (List.length (ReportText.active_filters f) <= 7)%nat.
Proof.
  destruct f as [[c|] [sc|] [a|] [l|] [|] [|] [n|]];
    (split; [|vm_compute; lia]);
    (split; intros H;
     [ first [ reflexivity | exfalso; vm_compute in H; discriminate H ]
     | first [ reflexivity | discriminate H ] ]).
Qed.

(** An empty string given as the value of a string filter is listed among
    the criteria of the report, while the audit takes it as no filter and
    lists every record. *)
Theorem empty_value_is_listed (now : datetime) (rs : list resource) (t : text_field) :
  List.length (ReportText.active_filters (only_filter t "")) = 1%nat /\
  ReportText.criteria_line (only_filter t "") <> "  No filters applied" /\
  apply_filters now rs (only_filter t "") = Ok rs.
Proof.
  destruct t; (split; [reflexivity|]); (split; [|reflexivity]);
    vm_compute; discriminate.
Qed.

Lemma describe_fields (now : datetime) (r : resource) (e : resource_info) :
  describe now r = Ok e ->
  info_active e = get r "Active" "" /\
  info_removed_from_origin e = get r "Removed From Origin" "".
Proof.
  unfold describe. rewrite parse_field. cbn [mbind result_bind].
  intros [= <-]. split; reflexivity.
Qed.

Lemma removed_line_among (i : Z) (e : resource_info) :
  In "     ⚠️  REMOVED FROM ORIGIN" (ReportText.resource_lines i e)
  <-> info_removed_from_origin e = "TRUE".
Proof.
  unfold ReportText.resource_lines.
  destruct (String.eqb_spec (info_removed_from_origin e) "TRUE") as [E|E].
  - split; [done|]. intros _. apply in_or_app. right. by left.
  - split; [|done]. rewrite app_nil_r. cbn [In].
    intros [H|[H|[H|[H|[H|[H|[]]]]]]]; vm_compute in H; discriminate H.
Qed.

(** The marks of the report go by the exact text TRUE, the counts of the
    audits by TRUE in any case: a resource is marked as active exactly when
    its Active field is the string TRUE, and flagged as removed exactly when
    its Removed From Origin field is; so a record whose Active field is
    another spelling of TRUE is counted active and marked inactive. *)
Theorem marks_go_by_exact_text
    (now : datetime) (r : resource) (e : resource_info) (i : Z) :
  describe now r = Ok e ->
  (ReportText.status e = "✓" <-> r !! "Active" = Some "TRUE") /\
  (ReportText.status e = "✗" <-> r !! "Active" <> Some "TRUE") /\
  (In "     ⚠️  REMOVED FROM ORIGIN" (ReportText.resource_lines i e)
   <-> r !! "Removed From Origin" = Some "TRUE") /\
  (ReportText.status e = "✓" -> is_active r = true) /\
  (is_active r = true -> r !! "Active" <> Some "TRUE" -> ReportText.status e = "✗").
Proof.
  intros He. destruct (describe_fields now r e He) as [Ha Hr].
  assert (forall k, get r k "" = "TRUE" <-> r !! k = Some "TRUE") as Hget.
  { intros k. unfold get. destruct (r !! k) as [s|]; cbn [default from_option id].
    - split; [by intros -> | by intros [= ->]].
    - split; discriminate. }
  assert (ReportText.status e = "✓" <-> r !! "Active" = Some "TRUE") as H1.
  { unfold ReportText.status. rewrite Ha, <- Hget.
    destruct (String.eqb_spec (get r "Active" "") "TRUE"); split; try done;
      discriminate. }
  assert (ReportText.status e = "✗" <-> r !! "Active" <> Some "TRUE") as H2.
  { unfold ReportText.status. rewrite Ha, <- Hget.
    destruct (String.eqb_spec (get r "Active" "") "TRUE"); split; try done;
      discriminate. }
  split; [exact H1|]. split; [exact H2|].
  split; [by rewrite removed_line_among, Hr, Hget|].
  split.
  - intros Hs. apply H1 in Hs. unfold is_active, get. by rewrite Hs.
  - intros _ Hne. by apply H2.
Qed.

Lemma marks_go_by_exact_text_witness :
  exists e,
    describe sample_now tool_d = Ok e /\
    is_active tool_d = true /\
    ReportText.status e = "✗".
Proof.
  eexists. split; [reflexivity|]. split; [reflexivity|].
  apply (marks_go_by_exact_text sample_now tool_d _ 1 eq_refl); [reflexivity|].
  discriminate.
Defined.

(** On an empty table the scoped report has no resources section: the
    banner, the criteria as given, a count of 0 and the closing rule. *)
Theorem empty_table_report (now : datetime) (f : filters) (d : scoped_data) :
  scoped_audit now [] f = Ok d ->
  ReportText.scoped_report_text d
  = [(ReportText.nl ++ ReportText.times "=" 80)%string;
     "SCOPED AUDIT REPORT";
     ReportText.times "=" 80;
     (ReportText.nl ++ "🔍 FILTER CRITERIA:")%string;
     ReportText.criteria_line f;
     (ReportText.nl ++ "📊 MATCHED: 0 resources")%string;
     (ReportText.nl ++ ReportText.times "=" 80 ++ ReportText.nl)%string].
Proof.
  intros Hd. pose proof (apply_filters_passes now [] f) as Hf.
  unfold scoped_audit in Hd. rewrite Hf in Hd.
  destruct (cutoff_of now f) as [c|e]; [|discriminate Hd].
  cbn in Hd. injection Hd as <-. reflexivity.
Qed.

Lemma empty_table_report_witness :
  exists d,
    scoped_audit sample_now [] sample_filters = Ok d /\
    List.length (ReportText.scoped_report_text d) = 7%nat.
Proof.
  eexists. split; [reflexivity|].
  by rewrite (empty_table_report sample_now sample_filters _ eq_refl).
Defined.

(** ** The audits on shared objects *)

Lemma store_high_level_audit_witness :
  fst (Heap.high_level_audit sample_now 3%nat sample_store)
  = high_level_audit sample_now [tool_a; tool_b; tool_c].
Proof.
  apply (store_high_level_audit sample_now sample_store 3%nat [tool_a; tool_b; tool_c]).
  reflexivity.
Defined.

Lemma store_scoped_audit_witness :
  match scoped_audit sample_now [tool_a; tool_b; tool_c] sample_filters with
  | Ok d =>
      exists out,
        fst (Heap.scoped_audit sample_now 3%nat sample_filters sample_store)
        = Ok {| Heap.ref_filter_criteria := filter_criteria d;
                Heap.ref_matched_count := matched_count d;
                Heap.ref_resources := out |} /\
        Heap.infos_at
          (snd (Heap.scoped_audit sample_now 3%nat sample_filters sample_store)) out
        = Some (resources d)
  | Raise e =>
      fst (Heap.scoped_audit sample_now 3%nat sample_filters sample_store) = Raise e
  end.
Proof.
  apply (store_scoped_audit sample_now sample_store 3%nat sample_filters
           [tool_a; tool_b; tool_c]).
  reflexivity.
Defined.

Lemma keeps_scoped_audit_fresh (n : nat) (now : datetime) (src : Heap.loc) (f : filters) :
  keeps n (Heap.scoped_audit now src f)
        (fun ref => fresh_for n (Heap.ref_resources ref)).
Proof.
  unfold Heap.scoped_audit.
  eapply keeps_bind; [apply keeps_apply_filters|]. intros filtered _.
  eapply keeps_bind; [apply keeps_list_len|]. intros matched _.
  eapply keeps_bind; [apply keeps_alloc|]. intros out Hout.
  eapply keeps_bind; [apply keeps_read_list|]. intros items _.
  eapply keeps_bind; [|intros _ _; by apply keeps_ret].
  apply keeps_for_loop. intros resource. unfold Heap.add_entry.
  eapply keeps_bind; [apply keeps_read_dict|]. intros r _.
  eapply keeps_bind; [apply keeps_lift|]. intros e _.
  eapply keeps_bind; [apply keeps_alloc|]. intros entry _.
  by apply keeps_append.
Qed.

(** The list of entries of a scoped result is a new object: it is none of
    the objects there were before the call, so not the input list either,
    even without any filter, where [filtered] is the input list itself. *)
Theorem scoped_result_is_a_new_list
    (now : datetime) (h : Heap.heap) (src : Heap.loc) (f : filters)
    (ref : Heap.scoped_ref) :
  fst (Heap.scoped_audit now src f h) = Ok ref ->
  h !! Heap.ref_resources ref = None /\
  (is_Some (h !! src) -> Heap.ref_resources ref <> src).
Proof.
  intros Href.
  destruct (keeps_scoped_audit_fresh (List.length h) now src f h ltac:(lia))
    as (_ & _ & Hfresh).
  specialize (Hfresh ref Href). unfold fresh_for in Hfresh.
  assert (h !! Heap.ref_resources ref = None) as Hnone by (by apply lookup_ge_None_2).
  split; [exact Hnone|]. intros [o Ho] E. rewrite E in Hnone. congruence.
Qed.

Lemma scoped_result_is_a_new_list_witness :
  exists ref,
    fst (Heap.scoped_audit sample_now 3%nat no_filters sample_store) = Ok ref /\
    sample_store !! Heap.ref_resources ref = None /\
    (is_Some (sample_store !! 3%nat) -> Heap.ref_resources ref <> 3%nat).
Proof.
  eexists. split; [reflexivity|].
  apply (scoped_result_is_a_new_list sample_now sample_store 3%nat no_filters).
  reflexivity.
Defined.

(** ** Whole days and clock time *)

Lemma sub_days_gt_iff (now d : datetime) (n : Z) :
  n < sub_days now d <-> (n + 1) * us_per_day <= total_us now - total_us d.
Proof. pose proof (sub_days_le_iff now d n). lia. Qed.

Lemma one_if_listed {A : Type} (b : bool) (x : A) :
  len (if b then [x] else []) = 1 <-> b = true.
Proof. destruct b; split; try done. Qed.

Lemma window_iff (o : option datetime) (P : datetime -> Prop)
      `{!forall t, Decision (P t)} :
  match o with Some t => bool_decide (P t) | None => false end = true
  <-> exists t, o = Some t /\ P t.
Proof.
  destruct o as [t|].
  - rewrite bool_decide_eq_true. split.
    + intros Hp. by exists t.
    + by intros (t' & [= <-] & Hp).
  - split; [discriminate | by intros (t & [=] & _)].
Qed.

(** * The audits whatever the library computes

    The properties of this part are stated of the functions of [Generic],
    for every library: they speak of any text, also outside ASCII. *)

(** ** The models are a library *)

Lemma ascii_model_raises : Generic.raises_only_ValueError Generic.ascii_model.
Proof. intros s e. apply strptime_raises. Qed.

Lemma ascii_model_parse_date (s : string) :
  Generic.parse_date Generic.ascii_model s = parse_date s.
Proof. reflexivity. Qed.

Lemma ascii_model_high_level_audit (now : datetime) (rs : list resource) :
  Generic.high_level_audit Generic.ascii_model now rs = high_level_audit now rs.
Proof. reflexivity. Qed.

Lemma ascii_model_scoped_audit (now : datetime) (rs : list resource) (f : filters) :
  Generic.scoped_audit Generic.ascii_model now rs f = scoped_audit now rs f.
Proof. reflexivity. Qed.

(** ** The functions of the script over a library *)

Section OverLibrary.
Variable L : Generic.library.

(** [parse_date] gives no date exactly for a text that is no date. *)
Lemma any_parse_date_none (s : string) :
  Generic.parse_date L s = Ok None <-> Generic.no_date L s.
Proof.
  unfold Generic.parse_date, Generic.no_date.
  destruct s as [|c s]; cbn [PyStr.truthy negb orb]; [by split; [left|]|].
  destruct (String.eqb_spec (Generic.strip L (String c s)) "") as [E|E].
  - split; [by right; left | done].
  - destruct (Generic.strptime L (String c s)) as [d|e] eqn:Hp.
    + split; [discriminate|]. by intros [?|[?|?]].
    + destruct e; (split; [intros H; try discriminate H; by right; right|]);
        intros [H|[H|H]]; try done; discriminate H.
Qed.

Hypothesis HL : Generic.raises_only_ValueError L.

Lemma any_parse_date_ok (s : string) :
  Generic.parse_date L s = Ok (Generic.date_of L s).
Proof.
  unfold Generic.date_of, Generic.parse_date.
  destruct (negb (PyStr.truthy s) || String.eqb (Generic.strip L s) ""); [done|].
  destruct (Generic.strptime L s) as [d|e] eqn:E; [done|].
  apply HL in E. subst e. done.
Qed.

Lemma any_parse_field (k : string) (r : resource) :
  Generic.parse_date L (get r k "") = Ok (Generic.field_date L k r).
Proof.
  rewrite any_parse_date_ok. unfold get, Generic.field_date.
  destruct (r !! k); [done|]. reflexivity.
Qed.

Lemma any_classify_ok (now : datetime) (b : buckets) (r : resource) :
  Generic.classify L now b r =
  Ok {| b_recently_added := b_recently_added b ++ pick (Generic.added_recently L now r) r;
        b_recently_checked :=
          b_recently_checked b ++ pick (Generic.checked_recently L now r) r;
        b_never_checked := b_never_checked b ++ pick (Generic.not_checked L r) r;
        b_outdated := b_outdated b ++ pick (Generic.check_outdated L now r) r |}.
Proof.
  unfold Generic.classify. rewrite !any_parse_field. cbn [mbind result_bind].
  unfold Generic.added_recently, Generic.checked_recently, Generic.not_checked,
    Generic.check_outdated.
  destruct b as [ba bc bn bo].
  cbn [b_recently_added b_recently_checked b_never_checked b_outdated].
  destruct (Generic.field_date L "Date Added" r) as [da|];
    destruct (Generic.field_date L "Last Checked" r) as [lc|]; cbn [pick];
    repeat match goal with
    | |- context [?x <=? ?y] => destruct (Z.leb_spec x y)
    | |- context [?x <? ?y] => destruct (Z.ltb_spec x y)
    | |- context [bool_decide ?P] => destruct (bool_decide_reflect P)
    end;
    cbn [pick b_recently_added b_recently_checked b_never_checked b_outdated];
    rewrite ?app_nil_r; try reflexivity; lia.
Qed.

Lemma any_for_each_classify (now : datetime) (rs : list resource) (b : buckets) :
  for_each (Generic.classify L now) rs b =
  Ok {| b_recently_added :=
          b_recently_added b ++ List.filter (Generic.added_recently L now) rs;
        b_recently_checked :=
          b_recently_checked b ++ List.filter (Generic.checked_recently L now) rs;
        b_never_checked := b_never_checked b ++ List.filter (Generic.not_checked L) rs;
        b_outdated := b_outdated b ++ List.filter (Generic.check_outdated L now) rs |}.
Proof.
  revert b. induction rs as [|r rs IH]; intros b; cbn [for_each List.filter].
  - rewrite !app_nil_r. by destruct b.
  - rewrite any_classify_ok. cbn [mbind result_bind]. rewrite IH.
    cbn [b_recently_added b_recently_checked b_never_checked b_outdated].
    unfold pick.
    destruct (Generic.added_recently L now r), (Generic.checked_recently L now r),
      (Generic.not_checked L r), (Generic.check_outdated L now r);
      rewrite <- ?app_assoc; reflexivity.
Qed.

(** The high-level audit returns, and this is what it returns. *)
Lemma any_high_level_audit_ok (now : datetime) (rs : list resource) :
  Generic.high_level_audit L now rs =
  Ok {| total_resources := len rs;
        active := len (List.filter is_active rs);
        inactive := len rs - len (List.filter is_active rs);
        categories :=
          most_common (Counter (map (fun r => get r "Category" "Unknown") rs));
        sub_categories :=
          most_common (Counter (map (fun r => get r "Sub-Category" "Unknown") rs));
        licenses :=
          most_common (Counter (map (fun r => get r "License" "Unknown") rs));
        no_license := len (List.filter lacks_license rs);
        unique_authors :=
          len (List.filter (fun a => negb (String.eqb (fst a) "Unknown"))
                 (Counter (map (fun r => get r "Author Name" "Unknown") rs)));
        top_authors :=
          most_common_n 10
            (Counter (map (fun r => get r "Author Name" "Unknown") rs));
        recently_added := len (List.filter (Generic.added_recently L now) rs);
        recently_checked := len (List.filter (Generic.checked_recently L now) rs);
        never_checked := len (List.filter (Generic.not_checked L) rs);
        outdated_checks := len (List.filter (Generic.check_outdated L now) rs);
        removed_from_origin := len (List.filter is_removed rs) |}.
Proof.
  unfold Generic.high_level_audit. rewrite any_for_each_classify.
  cbn [mbind result_bind no_buckets b_recently_added b_recently_checked
       b_never_checked b_outdated app].
  rewrite !sum_ones_filter. reflexivity.
Qed.

Lemma any_describe_total (now : datetime) (r : resource) :
  exists e, Generic.describe L now r = Ok e.
Proof. unfold Generic.describe. rewrite any_parse_field. eexists. reflexivity. Qed.

Lemma any_describe_all (now : datetime) (rs : list resource) (acc : list resource_info) :
  exists es,
    for_each (fun acc r => e ← Generic.describe L now r; Ok (acc ++ [e])%list) rs acc
    = Ok (acc ++ es)%list
    /\ Forall2 (fun e r => Generic.describe L now r = Ok e) es rs.
Proof.
  revert acc. induction rs as [|r rs IH]; intros acc; cbn [for_each].
  - exists []. rewrite app_nil_r. split; [done | constructor].
  - destruct (any_describe_total now r) as [e He]. rewrite He.
    cbn [mbind result_bind].
    destruct (IH (acc ++ [e])%list) as [es [Hes Hall]].
    exists (e :: es). rewrite Hes, <- app_assoc. split; [done|].
    constructor; done.
Qed.

(** Once the filters have returned [filtered], the scoped audit returns a
    result that lists exactly [filtered]. *)
Lemma any_scoped_audit_lists (now : datetime) (rs filtered : list resource) (f : filters) :
  Generic.apply_filters L now rs f = Ok filtered ->
  exists d, Generic.scoped_audit L now rs f = Ok d /\ filter_criteria d = f /\
            Generic.lists_exactly L now d filtered.
Proof.
  intros Hf. unfold Generic.scoped_audit. rewrite Hf. cbn [mbind result_bind].
  destruct (any_describe_all now filtered []) as [es [Hes Hall]].
  rewrite Hes. eexists. split; [reflexivity|].
  split; [reflexivity|]. split; [reflexivity | exact Hall].
Qed.

Lemma any_added_since_spec (c : Z) (r : resource) :
  Generic.added_since L c r = Ok (Generic.added_from L c r).
Proof.
  unfold Generic.added_since, Generic.added_from. rewrite any_parse_field.
  cbn [mbind result_bind].
  destruct (Generic.field_date L "Date Added" r) as [d|]; [|reflexivity].
  cbn [mbind result_bind]. f_equal.
  destruct (Z.leb_spec c (total_us d)).
  - by rewrite bool_decide_eq_true_2.
  - rewrite bool_decide_eq_false_2; [reflexivity | lia].
Qed.

End OverLibrary.

Section TextFilters.
Variable L : Generic.library.

Lemma any_field_matches_spec (k v : string) (r : resource) :
  Generic.field_matches L k v r = Generic.equal_ignoring_case L k v r.
Proof.
  unfold Generic.field_matches, Generic.equal_ignoring_case, get.
  destruct (String.eqb_spec (Generic.lower L (default "" (r !! k))) (Generic.lower L v))
    as [E|E].
  - by rewrite bool_decide_eq_true_2.
  - by rewrite bool_decide_eq_false_2.
Qed.

Lemma any_filter_by_field_text_ok (k : string) (v : option string) (l : list resource) :
  Generic.filter_by_field L k v l = List.filter (Generic.text_ok L k v) l.
Proof.
  unfold Generic.filter_by_field, Generic.text_ok.
  destruct v as [[|c s]|]; cbn [PyStr.truthy_opt PyStr.truthy default].
  - symmetry. by apply filter_true.
  - apply filter_ext_bool. intros r. apply any_field_matches_spec.
  - symmetry. by apply filter_true.
Qed.


Lemma any_apply_filters_passes (now : datetime) (rs : list resource) (f : filters) :
  Generic.raises_only_ValueError L ->
  Generic.apply_filters L now rs f =
  match cutoff_of now f with
  | Ok c => Ok (List.filter (Generic.passes L c f) rs)
  | Raise e => Raise e
  end.
Proof.
  intros HL. unfold Generic.apply_filters, cutoff_of. cbn zeta.
  rewrite !any_filter_by_field_text_ok, !filter_flag, !filter_filter_and.
  destruct (recent_days f) as [n|].
  - destruct (sub_timedelta_days now n) as [c|e]; cbn [mbind result_bind]; [|reflexivity].
    rewrite (filter_r_total _ (Generic.added_from L c)) by apply (any_added_since_spec L HL).
    rewrite filter_filter_and. f_equal. apply filter_ext_bool. intros r.
    unfold Generic.passes, inactive_record.
    by rewrite is_active_spec, lacks_license_spec, !andb_assoc.
  - f_equal. apply filter_ext_bool. intros r.
    unfold Generic.passes, inactive_record.
    by rewrite is_active_spec, lacks_license_spec, !andb_assoc, andb_true_r.
Qed.

Lemma any_last_checked_cases (now : datetime) (r : resource) :
  Z.b2z (Generic.not_checked L r) + Z.b2z (Generic.checked_recently L now r)
  + Z.b2z (Generic.check_outdated L now r) + Z.b2z (Generic.check_in_gap L now r) = 1.
Proof.
  unfold Generic.not_checked, Generic.checked_recently, Generic.check_outdated,
    Generic.check_in_gap.
  destruct (Generic.field_date L "Last Checked" r) as [d|]; [|reflexivity].
  repeat match goal with
         | |- context [bool_decide ?P] => destruct (bool_decide_reflect P)
         end; cbn [Z.b2z]; lia.
Qed.

Lemma any_last_checked_split (now : datetime) (rs : list resource) :
  len (List.filter (Generic.not_checked L) rs)
  + len (List.filter (Generic.checked_recently L now) rs)
  + len (List.filter (Generic.check_outdated L now) rs)
  + len (List.filter (Generic.check_in_gap L now) rs) = len rs.
Proof.
  induction rs as [|r rs IH]; [reflexivity|].
  rewrite !len_filter_cons, len_cons.
  pose proof (any_last_checked_cases now r). lia.
Qed.

End TextFilters.

(** ** The string filters *)



(** ** Texts that are no date *)

(** C4, amended: whatever [str.strip] and [datetime.strptime] compute, the
    date parser returns no date exactly for a text that is empty, blank, or
    turned down by [strptime] with a [ValueError]; it never raises, [strptime]
    raising nothing else; and in the high-level audit one more record adds
    one to the never-checked count when its Last Checked is absent or such a
    text, and nothing otherwise. *)
Theorem malformed_date_never_checked
    (L : Generic.library) (now : datetime) (rs1 rs2 : list resource) (r : resource) :
  Generic.raises_only_ValueError L ->
  (forall t, exists o, Generic.parse_date L t = Ok o) /\
  (forall t, Generic.parse_date L t = Ok None <-> Generic.no_date L t) /\
  exists d d',
    Generic.high_level_audit L now (rs1 ++ rs2) = Ok d /\
    Generic.high_level_audit L now (rs1 ++ r :: rs2) = Ok d' /\
    (Generic.no_date L (get r "Last Checked" "") ->
     never_checked d' = never_checked d + 1) /\
    (~ Generic.no_date L (get r "Last Checked" "") ->
     never_checked d' = never_checked d).
Proof.
  intros HL.
  split; [intros t; eexists; apply (any_parse_date_ok L HL)|].
  split; [apply any_parse_date_none|].
  eexists. eexists.
  split; [apply (any_high_level_audit_ok L HL)|].
  split; [apply (any_high_level_audit_ok L HL)|].
  cbn [never_checked].
  rewrite !List.filter_app, !len_app, len_filter_cons.
  assert (Generic.not_checked L r = true <-> Generic.no_date L (get r "Last Checked" ""))
    as Hiff.
  { rewrite <- any_parse_date_none, (any_parse_field L HL).
    unfold Generic.not_checked.
    destruct (Generic.field_date L "Last Checked" r); split; congruence. }
  split; intros Hn.
  - apply Hiff in Hn. rewrite Hn. cbn [Z.b2z]. lia.
  - destruct (Generic.not_checked L r); [|cbn [Z.b2z]; lia].
    exfalso. apply Hn, Hiff. reflexivity.
Qed.

Lemma malformed_date_never_checked_witness :
  exists d d',
    Generic.high_level_audit Generic.ascii_model sample_now ([tool_a] ++ [tool_b]) = Ok d /\
    Generic.high_level_audit Generic.ascii_model sample_now ([tool_a] ++ tool_c :: [tool_b])
    = Ok d' /\
    never_checked d' = never_checked d + 1.
Proof.
  destruct (malformed_date_never_checked Generic.ascii_model sample_now
              [tool_a] [tool_b] tool_c ascii_model_raises)
    as (_ & _ & d & d' & Hd & Hd' & Hyes & _).
  exists d, d'. split; [exact Hd|]. split; [exact Hd'|].
  apply Hyes. right. right. reflexivity.
Defined.

(** ** The freshness counts *)

(** C7: with the clock fixed at [now], and whatever the library computes,
    the four freshness counts of the high-level audit are: recently added,
    the records whose Date Added parses and lies at most 30 days before
    [now]; recently checked, those whose Last Checked parses and lies at
    most 7 days before [now]; never checked, those whose Last Checked is
    absent or does not parse; outdated, those whose Last Checked parses and
    lies more than 30 days before [now]. Days are the whole days of the
    difference. *)
Theorem freshness_buckets (L : Generic.library) (now : datetime) (rs : list resource) :
  Generic.raises_only_ValueError L ->
  exists d,
    Generic.high_level_audit L now rs = Ok d /\
    recently_added d = len (List.filter (Generic.added_recently L now) rs) /\
    recently_checked d = len (List.filter (Generic.checked_recently L now) rs) /\
    never_checked d = len (List.filter (Generic.not_checked L) rs) /\
    outdated_checks d = len (List.filter (Generic.check_outdated L now) rs).
Proof.
  intros HL. eexists. split; [apply (any_high_level_audit_ok L HL)|].
  cbn [recently_added recently_checked never_checked outdated_checks].
  split; [reflexivity|]. split; [reflexivity|]. split; reflexivity.
Qed.

Lemma freshness_buckets_witness :
  exists d,
    Generic.high_level_audit Generic.ascii_model sample_now [tool_a; tool_b; tool_c] = Ok d /\
    recently_added d = 1 /\ recently_checked d = 1 /\
    never_checked d = 1 /\ outdated_checks d = 0.
Proof.
  destruct (freshness_buckets Generic.ascii_model sample_now [tool_a; tool_b; tool_c]
              ascii_model_raises) as (d & Hd & Ha & Hc & Hn & Ho).
  exists d. split; [exact Hd|].
  rewrite Ha, Hc, Hn, Ho. vm_compute. by repeat split.
Defined.

(** C8: the three Last-Checked counts do not cover the table. Every record
    is in at most one of never checked, recently checked and outdated; a
    record whose Last Checked parses to more than 7 and less than 31 whole
    days before [now] is in none of them, so the three counts and the number
    of such records add up to the total, and as soon as the table has such
    a record the three counts stay below the total. *)
Theorem last_checked_not_a_partition
    (L : Generic.library) (now : datetime) (rs : list resource) :
  Generic.raises_only_ValueError L ->
  exists d,
    Generic.high_level_audit L now rs = Ok d /\
    never_checked d + recently_checked d + outdated_checks d
    + len (List.filter (Generic.check_in_gap L now) rs) = total_resources d /\
    never_checked d + recently_checked d + outdated_checks d <= total_resources d /\
    Forall (fun r => Z.b2z (Generic.not_checked L r)
                     + Z.b2z (Generic.checked_recently L now r)
                     + Z.b2z (Generic.check_outdated L now r)
                     = 1 - Z.b2z (Generic.check_in_gap L now r)) rs /\
    (forall r, r ∈ rs -> Generic.check_in_gap L now r = true ->
       never_checked d + recently_checked d + outdated_checks d < total_resources d).
Proof.
  intros HL. eexists. split; [apply (any_high_level_audit_ok L HL)|].
  cbn [never_checked recently_checked outdated_checks total_resources].
  pose proof (any_last_checked_split L now rs) as Hsplit.
  pose proof (len_nonneg (List.filter (Generic.check_in_gap L now) rs)) as Hpos.
  split; [lia|]. split; [lia|]. split.
  - apply Forall_forall. intros r _. pose proof (any_last_checked_cases L now r). lia.
  - intros r Hr Hgap.
    assert (r ∈ List.filter (Generic.check_in_gap L now) rs) as Hin
      by (by apply list_filter_elem).
    destruct (List.filter (Generic.check_in_gap L now) rs) as [|x l] eqn:E.
    + by apply elem_of_nil in Hin.
    + rewrite len_cons in Hsplit. pose proof (len_nonneg l). lia.
Qed.

Lemma last_checked_not_a_partition_witness :
  exists d,
    Generic.high_level_audit Generic.ascii_model sample_now [tool_a; tool_b; tool_c] = Ok d /\
    Generic.check_in_gap Generic.ascii_model sample_now tool_b = true /\
    never_checked d + recently_checked d + outdated_checks d < total_resources d.
Proof.
  destruct (last_checked_not_a_partition Generic.ascii_model sample_now
              [tool_a; tool_b; tool_c] ascii_model_raises)
    as (d & Hd & _ & _ & _ & Hgap).
  exists d. split; [exact Hd|].
  assert (Generic.check_in_gap Generic.ascii_model sample_now tool_b = true) as Hb
    by (vm_compute; reflexivity).
  split; [exact Hb|].
  apply (Hgap tool_b); [|exact Hb].
  apply elem_of_cons. right. apply elem_of_cons. by left.
Defined.

(** In clock time the windows are a day wider than their numbers, whatever
    the library computes: for a table of one record, the record counts as
    recently added when its Date Added parses and lies less than 31 days
    before the current time, as recently checked when its Last Checked
    parses and lies less than 8 days before, a date in the future included,
    and as outdated from 31 days on. *)
Theorem freshness_in_clock_time (L : Generic.library) (now : datetime) (r : resource) :
  Generic.raises_only_ValueError L ->
  exists d,
    Generic.high_level_audit L now [r] = Ok d /\
    (recently_added d = 1 <->
     exists t, Generic.field_date L "Date Added" r = Some t /\
               total_us now - total_us t < 31 * us_per_day) /\
    (recently_checked d = 1 <->
     exists t, Generic.field_date L "Last Checked" r = Some t /\
               total_us now - total_us t < 8 * us_per_day) /\
    (outdated_checks d = 1 <->
     exists t, Generic.field_date L "Last Checked" r = Some t /\
               31 * us_per_day <= total_us now - total_us t).
Proof.
  intros HL. eexists. split; [apply (any_high_level_audit_ok L HL)|].
  cbn [recently_added recently_checked outdated_checks List.filter].
  rewrite !one_if_listed.
  unfold Generic.added_recently, Generic.checked_recently, Generic.check_outdated.
  rewrite !window_iff.
  split; [|split].
  - split; intros (t & Ht & Hw); exists t; (split; [exact Ht|]);
      by apply (sub_days_le_iff now t 30).
  - split; intros (t & Ht & Hw); exists t; (split; [exact Ht|]);
      by apply (sub_days_le_iff now t 7).
  - split; intros (t & Ht & Hw); exists t; (split; [exact Ht|]);
      by apply (sub_days_gt_iff now t 30).
Qed.

Lemma freshness_in_clock_time_witness :
  exists d,
    Generic.high_level_audit Generic.ascii_model sample_now [tool_a] = Ok d /\
    recently_added d = 1 /\ recently_checked d = 1 /\ outdated_checks d <> 1.
Proof.
  destruct (freshness_in_clock_time Generic.ascii_model sample_now tool_a
              ascii_model_raises) as (d & Hd & Ha & Hc & Ho).
  exists d. split; [exact Hd|]. split; [|split].
  - apply Ha. eexists. split; [vm_compute; reflexivity|]. vm_compute. reflexivity.
  - apply Hc. eexists. split; [vm_compute; reflexivity|]. vm_compute. reflexivity.
  - intros H1. apply Ho in H1 as (t & Ht & Hw).
    vm_compute in Ht. injection Ht as <-. vm_compute in Hw. by apply Hw.
Defined.

(** ** The filters of the scoped audit as one condition *)

(** The filters of a scoped audit act as one condition, the conjunction of
    those that are on, whatever the library computes: when the cut-off date
    of the recency filter is a date, the audit lists exactly the records
    that pass every filter, in the order of the input. *)
Theorem filters_are_a_conjunction
    (L : Generic.library) (now : datetime) (rs : list resource) (f : filters)
    (c : option Z) :
  Generic.raises_only_ValueError L ->
  cutoff_of now f = Ok c ->
  Generic.apply_filters L now rs f = Ok (List.filter (Generic.passes L c f) rs) /\
  exists d,
    Generic.scoped_audit L now rs f = Ok d /\
    Generic.lists_exactly L now d (List.filter (Generic.passes L c f) rs).
Proof.
  intros HL Hc. pose proof (any_apply_filters_passes L now rs f HL) as Hf.
  rewrite Hc in Hf. split; [exact Hf|].
  destruct (any_scoped_audit_lists L HL _ _ _ _ Hf) as (d & Hd & _ & Hl).
  exists d. split; assumption.
Qed.

Lemma filters_are_a_conjunction_witness :
  Generic.apply_filters Generic.ascii_model sample_now [tool_a; tool_b; tool_c]
    sample_filters = Ok [tool_b] /\
  exists d,
    Generic.scoped_audit Generic.ascii_model sample_now [tool_a; tool_b; tool_c]
      sample_filters = Ok d /\
    Generic.lists_exactly Generic.ascii_model sample_now d [tool_b].
Proof.
  apply (filters_are_a_conjunction Generic.ascii_model sample_now
           [tool_a; tool_b; tool_c] sample_filters
           (Some (total_us sample_now - 600 * us_per_day))).
  - exact ascii_model_raises.
  - reflexivity.
Defined.

(** ** A window of 0 days *)

(** Handed to the scoped audit, a number of days of 0 is a filter like any
    other number, whatever the library computes: only records whose Date
    Added parses to the current time or later are listed. *)
Theorem zero_days_window
    (L : Generic.library) (now : datetime) (rs : list resource) (f : filters) :
  Generic.raises_only_ValueError L ->
  recent_days f = Some 0 ->
  1 <= toordinal now <= max_ordinal ->
  exists d,
    Generic.scoped_audit L now rs f = Ok d /\
    Generic.lists_exactly L now d
      (List.filter (Generic.passes L (Some (total_us now)) f) rs) /\
    Forall (fun r => exists dt, Generic.field_date L "Date Added" r = Some dt /\
                                total_us now <= total_us dt)
           (List.filter (Generic.passes L (Some (total_us now)) f) rs).
Proof.
  intros HL Hf Hnow.
  assert (cutoff_of now f = Ok (Some (total_us now))) as Hc.
  { unfold cutoff_of, sub_timedelta_days. rewrite Hf.
    change (Z.abs 0 <=? max_delta_days) with true. cbn iota.
    rewrite Z.sub_0_r.
    destruct (Z.leb_spec 1 (toordinal now)); [|lia].
    destruct (Z.leb_spec (toordinal now) max_ordinal); [|lia].
    cbn [andb]. by rewrite Z.mul_0_l, Z.sub_0_r. }
  pose proof (any_apply_filters_passes L now rs f HL) as Hp. rewrite Hc in Hp.
  destruct (any_scoped_audit_lists L HL _ _ _ _ Hp) as (d & Hd & _ & Hl).
  exists d. split; [exact Hd|]. split; [exact Hl|].
  apply Forall_forall. intros r Hr. apply list_filter_elem in Hr as [_ Hr].
  unfold Generic.passes in Hr. apply andb_true_iff in Hr as [_ Hr].
  unfold Generic.added_from in Hr.
  destruct (Generic.field_date L "Date Added" r) as [dt|]; [|discriminate].
  exists dt. split; [reflexivity|]. by apply bool_decide_eq_true in Hr.
Qed.

Lemma zero_days_window_witness :
  exists d,
    Generic.scoped_audit Generic.ascii_model sample_now [tool_a; tool_d] zero_days_filters
    = Ok d /\
    Generic.lists_exactly Generic.ascii_model sample_now d [tool_d] /\
    Forall (fun r => exists dt,
                Generic.field_date Generic.ascii_model "Date Added" r = Some dt /\
                total_us sample_now <= total_us dt)
           [tool_d].
Proof.
  apply (zero_days_window Generic.ascii_model sample_now [tool_a; tool_d]
           zero_days_filters).
  - exact ascii_model_raises.
  - reflexivity.
  - vm_compute. split; discriminate.
Defined.
